(** * Sentiment-analysis platform: orchestration layer

    A shallow embedding of the browser client (frontend/app.js and the chatbot
    script), of the .NET gateway's PythonServiceClient and of the Job Manager
    contract, with the properties of the specification stated over it. *)

From Stdlib Require Import ZArith NArith List Bool Lia Sorted.
From stdpp Require Import base option list gmap strings.

Local Open Scope Z_scope.

(* ===================================================================== *)
(** * Part I: definitions *)
(* ===================================================================== *)

(** ** JavaScript strings

    A JavaScript string is a sequence of UTF-16 code units; [trim], [split],
    [includes] and a regular expression without the [u] flag all work on code
    units, so a string is a list of them. *)
Module JS.

(** Code units of an ASCII literal of the source. *)
Definition lit (s : string) : list N :=
  map (fun a => N.of_nat (Ascii.nat_of_ascii a)) (String.list_ascii_of_string s).

Definition comma : N := 44%N.
Definition at_sign : N := 64%N.
Definition full_stop : N := 46%N.

(** WhiteSpace and LineTerminator of ECMAScript: what [String.prototype.trim]
    strips and what the class escape [\s] matches. *)
Definition isWhiteSpace (c : N) : bool :=
  ((9 <=? c) && (c <=? 13) || (c =? 32) || (c =? 160) || (c =? 5760)
   || (8192 <=? c) && (c <=? 8202) || (c =? 8232) || (c =? 8233)
   || (c =? 8239) || (c =? 8287) || (c =? 12288) || (c =? 65279))%N.

Fixpoint trimStart (s : list N) : list N :=
  match s with
  | c :: s' => if isWhiteSpace c then trimStart s' else s
  | [] => []
  end.

Definition trimEnd (s : list N) : list N := rev (trimStart (rev s)).

Definition trim (s : list N) : list N := trimEnd (trimStart s).

(** [s.includes(c)] for a one-character needle. *)
Definition includes (s : list N) (c : N) : bool := existsb (N.eqb c) s.

(** [s.split(sep)] for a one-character separator: never empty, the empty
    string splits into one empty piece. *)
Fixpoint split (sep : N) (s : list N) : list (list N) :=
  match s with
  | [] => [[]]
  | c :: s' =>
      if (c =? sep)%N then [] :: split sep s'
      else match split sep s' with
           | w :: ws => (c :: w) :: ws
           | [] => [[c]]
           end
  end.

(** [pieces.join(sep)] for a one-character separator. *)
Fixpoint join (sep : N) (pieces : list (list N)) : list N :=
  match pieces with
  | [] => []
  | [w] => w
  | w :: ws => w ++ sep :: join sep ws
  end.

(** Truthiness of a string value: only the empty string is falsy. *)
Definition truthy (s : list N) : bool :=
  match s with [] => false | _ => true end.

End JS.

(** ** Regular expressions

    The fragment of ECMAScript patterns that the source uses: character
    classes, concatenation and the [+] quantifier, anchored at both ends. A
    pattern is run by Brzozowski derivatives; [RegExp.prototype.test] on a
    pattern [^r$] without flags is a match of the whole string. *)
Module Regex.

Inductive re : Type :=
| Void : re
| Eps : re
| Class : (N -> bool) -> re
| Seq : re -> re -> re
| Alt : re -> re -> re
| Star : re -> re.

Definition Plus (r : re) : re := Seq r (Star r).
Definition Chr (c : N) : re := Class (N.eqb c).

Fixpoint nullable (r : re) : bool :=
  match r with
  | Void => false
  | Eps => true
  | Class _ => false
  | Seq r1 r2 => nullable r1 && nullable r2
  | Alt r1 r2 => nullable r1 || nullable r2
  | Star _ => true
  end.

Fixpoint deriv (c : N) (r : re) : re :=
  match r with
  | Void => Void
  | Eps => Void
  | Class p => if p c then Eps else Void
  | Seq r1 r2 =>
      if nullable r1 then Alt (Seq (deriv c r1) r2) (deriv c r2)
      else Seq (deriv c r1) r2
  | Alt r1 r2 => Alt (deriv c r1) (deriv c r2)
  | Star r1 => Seq (deriv c r1) (Star r1)
  end.

(** [/^r$/.test(s)] *)
Fixpoint test (r : re) (s : list N) : bool :=
  match s with
  | [] => nullable r
  | c :: s' => test (deriv c r) s'
  end.

(** The words of a pattern: the reading of "s matches r". *)
Inductive lang : re -> list N -> Prop :=
| lang_eps : lang Eps []
| lang_class p c : p c = true -> lang (Class p) [c]
| lang_seq r1 r2 u v : lang r1 u -> lang r2 v -> lang (Seq r1 r2) (u ++ v)
| lang_alt_l r1 r2 u : lang r1 u -> lang (Alt r1 r2) u
| lang_alt_r r1 r2 u : lang r2 u -> lang (Alt r1 r2) u
| lang_star_nil r : lang (Star r) []
| lang_star_cons r u v : lang r u -> lang (Star r) v -> lang (Star r) (u ++ v).

End Regex.

(** ** frontend/app.js: e-mail validation *)
Module Email.
Import JS Regex.

(** [[^\s@]] *)
Definition plainChar (c : N) : bool := negb (isWhiteSpace c || (c =? at_sign)%N).

(** [/^[^\s@]+@[^\s@]+\.[^\s@]+$/] *)
Definition emailRegex : re :=
  Seq (Plus (Class plainChar))
    (Seq (Chr at_sign)
       (Seq (Plus (Class plainChar))
          (Seq (Chr full_stop) (Plus (Class plainChar))))).

(** A part of an accepted address: non-empty, free of white space and [@]. *)
Definition plainWord (w : list N) : Prop :=
  w <> [] /\ Forall (fun c => plainChar c = true) w.

Definition validateEmail (emailString : list N) : bool :=
  if includes emailString comma then
    let emails := map trim (split comma emailString) in
    forallb (test emailRegex) emails && (0 <? length emails)%nat
  else test emailRegex emailString.

End Email.

(** ** The browser page shared by app.js and the chatbot script

    Both scripts run in one window: their [let] globals, the elements they
    reach with [getElementById], [localStorage], the entries of
    [window.debugLogger] and the requests handed to [fetch] make up one
    state. An element that a script looks up when it runs may be missing
    ([None]); the elements that app.js binds to constants when it is loaded
    are those of the shipped page and are always there. *)
Module Browser.

Inductive Sender : Type := user | assistant.

(** A child of the [chatMessages] container. *)
Inductive ChatNode : Type :=
| MessageBubble (sender : Sender) (text : list N)
| TypingIndicator.

(** Elements and events the chatbot script listens on. *)
Inductive Target : Type :=
| toggleChatBtn | closeChatBtn | sendChatBtn | chatInput | document | otherElement.

Inductive Handler : Type :=
| onToggleClick | onCloseClick | onSendClick | onInputKeypress | onDocumentClick.

Inductive EventType : Type := click | keypress.

Record Listener : Type := { l_target : Target; l_type : EventType; l_handler : Handler }.

#[global] Instance Target_eq_dec : EqDecision Target.
Proof. solve_decision. Defined.
#[global] Instance Handler_eq_dec : EqDecision Handler.
Proof. solve_decision. Defined.
#[global] Instance EventType_eq_dec : EqDecision EventType.
Proof. solve_decision. Defined.
#[global] Instance Listener_eq_dec : EqDecision Listener.
Proof. solve_decision. Defined.

(** Requests that the two scripts give to [fetch]: by endpoint of the
    gateway, and for the quick statistics the data endpoint of the backend,
    which app.js asks directly. *)
Inductive Request : Type :=
| GetStatus (jobId : list N)
| PostChat (jobId question : list N) (include_history : bool)
| GetSuggestions (jobId : list N)
| GetQuickStats (jobId : list N).

(** The elements of app.js: class lists of the step elements by id, the
    progress bar, the four page sections ([true]: displayed), the error text,
    the submit button ([true]: disabled) and the [dataset.jobId] of the two
    result buttons. *)
Record AppDom : Type := {
  stepClasses : gmap string (gset string);
  progressFill : Z;
  progressText : Z;
  analysisForm : bool;
  progressSection : bool;
  resultsSection : bool;
  errorSection : bool;
  errorText : list N;
  submitBtn : bool;
  datasetJobId : option (list N);
}.

(** The elements of the chat widget. [None]: the element is not in the page.
    A button carries its [disabled] flag (the toggle button its [display:
    flex]), the input its value and [disabled] flag. *)
Record ChatDom : Type := {
  toggleBtn : option bool;
  closeBtn : option unit;
  sendBtn : option bool;
  input : option (list N * bool);
  chatbotWidget : bool;
  chatMessages : option (list ChatNode);
  suggestedQuestions : option (list (list N));
}.

Record State : Type := {
  currentJobId : option (list N);
  pollInterval : option nat;
  nextTimer : nat;
  chatbotJobId : option (list N);
  chatbotInitialized : bool;
  listeners : list Listener;
  lastCompletedJob : option (list N);
  app : AppDom;
  chat : ChatDom;
  logs : list (string * string);
  outbox : list Request;
}.

Definition with_currentJobId v (st : State) : State :=
  {| currentJobId := v; pollInterval := pollInterval st; nextTimer := nextTimer st;
     chatbotJobId := chatbotJobId st; chatbotInitialized := chatbotInitialized st;
     listeners := listeners st; lastCompletedJob := lastCompletedJob st;
     app := app st; chat := chat st; logs := logs st; outbox := outbox st |}.

Definition with_pollInterval v (st : State) : State :=
  {| currentJobId := currentJobId st; pollInterval := v; nextTimer := nextTimer st;
     chatbotJobId := chatbotJobId st; chatbotInitialized := chatbotInitialized st;
     listeners := listeners st; lastCompletedJob := lastCompletedJob st;
     app := app st; chat := chat st; logs := logs st; outbox := outbox st |}.

Definition with_nextTimer v (st : State) : State :=
  {| currentJobId := currentJobId st; pollInterval := pollInterval st; nextTimer := v;
     chatbotJobId := chatbotJobId st; chatbotInitialized := chatbotInitialized st;
     listeners := listeners st; lastCompletedJob := lastCompletedJob st;
     app := app st; chat := chat st; logs := logs st; outbox := outbox st |}.

Definition with_chatbotJobId v (st : State) : State :=
  {| currentJobId := currentJobId st; pollInterval := pollInterval st; nextTimer := nextTimer st;
     chatbotJobId := v; chatbotInitialized := chatbotInitialized st;
     listeners := listeners st; lastCompletedJob := lastCompletedJob st;
     app := app st; chat := chat st; logs := logs st; outbox := outbox st |}.

Definition with_chatbotInitialized v (st : State) : State :=
  {| currentJobId := currentJobId st; pollInterval := pollInterval st; nextTimer := nextTimer st;
     chatbotJobId := chatbotJobId st; chatbotInitialized := v;
     listeners := listeners st; lastCompletedJob := lastCompletedJob st;
     app := app st; chat := chat st; logs := logs st; outbox := outbox st |}.

Definition with_listeners v (st : State) : State :=
  {| currentJobId := currentJobId st; pollInterval := pollInterval st; nextTimer := nextTimer st;
     chatbotJobId := chatbotJobId st; chatbotInitialized := chatbotInitialized st;
     listeners := v; lastCompletedJob := lastCompletedJob st;
     app := app st; chat := chat st; logs := logs st; outbox := outbox st |}.

Definition with_lastCompletedJob v (st : State) : State :=
  {| currentJobId := currentJobId st; pollInterval := pollInterval st; nextTimer := nextTimer st;
     chatbotJobId := chatbotJobId st; chatbotInitialized := chatbotInitialized st;
     listeners := listeners st; lastCompletedJob := v;
     app := app st; chat := chat st; logs := logs st; outbox := outbox st |}.

Definition with_app v (st : State) : State :=
  {| currentJobId := currentJobId st; pollInterval := pollInterval st; nextTimer := nextTimer st;
     chatbotJobId := chatbotJobId st; chatbotInitialized := chatbotInitialized st;
     listeners := listeners st; lastCompletedJob := lastCompletedJob st;
     app := v; chat := chat st; logs := logs st; outbox := outbox st |}.

Definition with_chat v (st : State) : State :=
  {| currentJobId := currentJobId st; pollInterval := pollInterval st; nextTimer := nextTimer st;
     chatbotJobId := chatbotJobId st; chatbotInitialized := chatbotInitialized st;
     listeners := listeners st; lastCompletedJob := lastCompletedJob st;
     app := app st; chat := v; logs := logs st; outbox := outbox st |}.

Definition with_logs v (st : State) : State :=
  {| currentJobId := currentJobId st; pollInterval := pollInterval st; nextTimer := nextTimer st;
     chatbotJobId := chatbotJobId st; chatbotInitialized := chatbotInitialized st;
     listeners := listeners st; lastCompletedJob := lastCompletedJob st;
     app := app st; chat := chat st; logs := v; outbox := outbox st |}.

Definition with_outbox v (st : State) : State :=
  {| currentJobId := currentJobId st; pollInterval := pollInterval st; nextTimer := nextTimer st;
     chatbotJobId := chatbotJobId st; chatbotInitialized := chatbotInitialized st;
     listeners := listeners st; lastCompletedJob := lastCompletedJob st;
     app := app st; chat := chat st; logs := logs st; outbox := v |}.

(** [window.debugLogger.log(component, action, data)]: the entry is pushed
    on the logger's list (the copy it posts to the debug endpoint is not one
    of the gateway requests of [outbox]). An entry keeps the component and
    the literal text of the action, without the arrow glyphs and the
    interpolated values of the source, and without the data. *)
Definition debugLog (component action : string) (st : State) : State :=
  with_logs (logs st ++ [(component, action)]) st.

(** [fetch(url)]: the request leaves the page. *)
Definition fetch (r : Request) (st : State) : State :=
  with_outbox (outbox st ++ [r]) st.

(** Truthiness of a job id variable: [null] and the empty string are falsy. *)
Definition truthyId (id : option (list N)) : bool :=
  match id with Some s => JS.truthy s | None => false end.

(** A function call either returns or throws; the state it reached is kept
    in both cases. *)
Inductive Completion : Type :=
| Returns (st : State)
| Throws (st : State).

Definition stateOf (c : Completion) : State :=
  match c with Returns st | Throws st => st end.

End Browser.

(** ** The chatbot script *)
Module Chatbot.
Import JS Browser.

Definition with_toggleBtn v (d : ChatDom) : ChatDom :=
  {| toggleBtn := v; closeBtn := closeBtn d; sendBtn := sendBtn d; input := input d;
     chatbotWidget := chatbotWidget d; chatMessages := chatMessages d;
     suggestedQuestions := suggestedQuestions d |}.

Definition with_sendBtn v (d : ChatDom) : ChatDom :=
  {| toggleBtn := toggleBtn d; closeBtn := closeBtn d; sendBtn := v; input := input d;
     chatbotWidget := chatbotWidget d; chatMessages := chatMessages d;
     suggestedQuestions := suggestedQuestions d |}.

Definition with_input v (d : ChatDom) : ChatDom :=
  {| toggleBtn := toggleBtn d; closeBtn := closeBtn d; sendBtn := sendBtn d; input := v;
     chatbotWidget := chatbotWidget d; chatMessages := chatMessages d;
     suggestedQuestions := suggestedQuestions d |}.

Definition with_chatMessages v (d : ChatDom) : ChatDom :=
  {| toggleBtn := toggleBtn d; closeBtn := closeBtn d; sendBtn := sendBtn d; input := input d;
     chatbotWidget := chatbotWidget d; chatMessages := v;
     suggestedQuestions := suggestedQuestions d |}.

Definition with_suggestedQuestions v (d : ChatDom) : ChatDom :=
  {| toggleBtn := toggleBtn d; closeBtn := closeBtn d; sendBtn := sendBtn d; input := input d;
     chatbotWidget := chatbotWidget d; chatMessages := chatMessages d;
     suggestedQuestions := v |}.

Definition onChat (f : ChatDom -> ChatDom) (st : State) : State :=
  with_chat (f (chat st)) st.

(** [displaySuggestedQuestions(suggestions)]: the container is emptied and
    gets one chip per element of [suggestions.slice(0, 6)]; a chip is its
    text. *)
Definition displaySuggestedQuestions (suggestions : list (list N)) (st : State) : State :=
  let st := debugLog "CHATBOT" "Displaying suggestions" st in
  match suggestedQuestions (chat st) with
  | None => st
  | Some _ => onChat (with_suggestedQuestions (Some (take 6 suggestions))) st
  end.

Definition addMessageToChat (text : list N) (sender : Sender) (st : State) : State :=
  let st := debugLog "CHATBOT" "Adding message to chat" st in
  match chatMessages (chat st) with
  | None => debugLog "ERROR" "Chat container not found" st
  | Some nodes =>
      let st := onChat (with_chatMessages (Some (nodes ++ [MessageBubble sender text]))) st in
      debugLog "CHATBOT" "OUTPUT: Message added to DOM" st
  end.

(** [addTypingIndicator()]: the flag tells whether a node was returned
    ([false]: the function returned [null]). *)
Definition addTypingIndicator (st : State) : State * bool :=
  let st := debugLog "CHATBOT" "Adding typing indicator" st in
  match chatMessages (chat st) with
  | None => (debugLog "ERROR" "Chat container not found" st, false)
  | Some nodes => (onChat (with_chatMessages (Some (nodes ++ [TypingIndicator]))) st, true)
  end.

(** [typingIndicator.remove()] for the indicator that [sendMessage] added
    last: the last indicator node leaves the container. *)
Fixpoint dropLastIndicator (nodes : list ChatNode) : list ChatNode * bool :=
  match nodes with
  | [] => ([], false)
  | n :: rest =>
      let (rest', found) := dropLastIndicator rest in
      if found then (n :: rest', true)
      else match n with
           | TypingIndicator => (rest, true)
           | _ => (n :: rest, false)
           end
  end.

Definition removeTypingIndicator (st : State) : State :=
  match chatMessages (chat st) with
  | None => st
  | Some nodes => onChat (with_chatMessages (Some (fst (dropLastIndicator nodes)))) st
  end.

(** A truthy [suggested_questions] or [suggestions] member as the script
    meets it: an array, each element by the text its chip gets, or a value
    that is no array, with whether its [length] is above zero (a string, an
    object with such a member). *)
Inductive Suggested : Type :=
| Questions (suggestions : list (list N))
| NotAnArray (lengthAboveZero : bool).

(** [displaySuggestedQuestions(suggestions)] for a truthy value that is no
    array: without the container the call returns as for an array; with it,
    the container is emptied and [suggestions.slice(0, 6).forEach] throws,
    [slice] or [forEach] being no function of such a value. *)
Definition displaySuggestedQuestions_notArray (st : State) : Completion :=
  let st := debugLog "CHATBOT" "Displaying suggestions" st in
  match suggestedQuestions (chat st) with
  | None => Returns st
  | Some _ => Throws (onChat (with_suggestedQuestions (Some [])) st)
  end.

(** What the gateway answers to the chat request, as [sendMessage] reads it.
    [answer = None]: the field is [undefined] or [null];
    [suggested_questions = None]: the field is falsy. *)
Record ChatData : Type := {
  answer : option (list N);
  suggested_questions : option Suggested;
}.

(** The members of a parsed error body as the [||] chain and the template
    literal of [sendMessage] see them: [None] when the member is missing or
    falsy, else the text that interpolation gives its value. For a string
    that is the string itself; a truthy value that is no string is taken all
    the same, by what [String] makes of it, which is the empty text for an
    empty array. *)
Record ErrorJson : Type := {
  detail : option (list N);
  error : option (list N);
  message : option (list N);
}.

Inductive ChatReply : Type :=
| FetchRejected
    (* fetch rejects *)
| ReplyOk (data : option ChatData)
    (* response.ok; None: response.json() rejects, or reading data.answer
       throws (data is null), or data.answer is there and is no string, so
       that data.answer?.substring is no function; the same course is taken
       when the response is not ok and response.text() rejects *)
| ReplyError (errorText : list N) (errorJson : option ErrorJson)
    (* not ok; None: JSON.parse throws or gives null *).

(** [a || b] on strings that may be missing. *)
Definition orElse (a : option (list N)) (b : list N) : list N :=
  match a with
  | Some s => if truthy s then s else b
  | None => b
  end.

(** [errorMessage] of [sendMessage]: the first truthy member of the parsed
    body, else the standard text; for a body that is not JSON its text, when
    there is one. *)
Definition errorMessageOf (errorText : list N) (errorJson : option ErrorJson) : list N :=
  let fallback := lit "An error occurred" in
  match errorJson with
  | Some j => default (default (default fallback (message j)) (error j)) (detail j)
  | None => orElse (Some errorText) fallback
  end.

(** The [try] block of [sendMessage]. [inr (st, attached)]: an exception
    reached the [catch] clause in state [st], the indicator being still in
    the container or not. *)
Definition sendMessage_try (jobId question : list N) (typingIndicator : bool)
    (reply : ChatReply) (st : State) : State + State * bool :=
  let st := debugLog "CHATBOT" "OUTPUT: API Request" st in
  let st := fetch (PostChat jobId question true) st in
  match reply with
  | FetchRejected => inr (st, typingIndicator)
  | ReplyOk data =>
      let st := debugLog "CHATBOT" "INPUT: API Response Status" st in
      match data with
      | None => inr (st, typingIndicator)
      | Some d =>
          let st := debugLog "CHATBOT" "INPUT: API Response Data" st in
          if negb typingIndicator then inr (st, false)
          else
            let st := removeTypingIndicator st in
            let st := debugLog "CHATBOT" "OUTPUT: Display Answer" st in
            match answer d with
            | None => inr (st, false)
            | Some a =>
                let st := addMessageToChat a assistant st in
                match suggested_questions d with
                | Some (Questions qs) => inl (displaySuggestedQuestions qs st)
                | Some (NotAnArray _) =>
                    match displaySuggestedQuestions_notArray st with
                    | Returns st => inl st
                    | Throws st => inr (st, false)
                    end
                | None => inl st
                end
            end
      end
  | ReplyError errorText errorJson =>
      let st := debugLog "CHATBOT" "INPUT: API Response Status" st in
      let st := debugLog "ERROR" "Chatbot API Error" st in
      let errorMessage := errorMessageOf errorText errorJson in
      let st := debugLog "CHATBOT" "Parsed error message" st in
      if negb typingIndicator then inr (st, false)
      else
        let st := removeTypingIndicator st in
        inl (addMessageToChat (lit "Sorry, I encountered an error: " ++ errorMessage) assistant st)
  end.

(** The [finally] clause: the input and the send button are enabled again. *)
Definition sendMessage_finally (st : State) : State :=
  let st := onChat (fun d => with_input (option_map (fun i => (fst i, false)) (input d)) d) st in
  onChat (with_sendBtn (option_map (fun _ => false) (sendBtn (chat st)))) st.

(** [sendMessage()], with the gateway's answer to the request it may issue. *)
Definition sendMessage (reply : ChatReply) (st : State) : Completion :=
  let st := debugLog "CHATBOT" "sendMessage called" st in
  match input (chat st) with
  | None => Throws st
  | Some (value, _) =>
      let question := trim value in
      let st := debugLog "CHATBOT" "INPUT: User Question" st in
      if negb (truthy question) then
        Returns (debugLog "ERROR" "Empty Question" st)
      else if negb (truthyId (chatbotJobId st)) then
        let st := debugLog "ERROR" "No Job ID Available" st in
        Returns (addMessageToChat
                   (lit "Please complete an analysis first before using the chatbot.")
                   assistant st)
      else
        let st := onChat (with_input (Some ([], true))) st in
        match sendBtn (chat st) with
        | None => Throws st
        | Some _ =>
            let st := onChat (with_sendBtn (Some true)) st in
            let st := debugLog "CHATBOT" "Input cleared, button disabled" st in
            let st := addMessageToChat question user st in
            let st := debugLog "CHATBOT" "User message added, creating typing indicator" st in
            let (st, typingIndicator) := addTypingIndicator st in
            let st := debugLog "CHATBOT" "Typing indicator created, preparing API call" st in
            let jobId := default [] (chatbotJobId st) in
            match sendMessage_try jobId question typingIndicator reply st with
            | inl st => Returns (sendMessage_finally st)
            | inr (st, attached) =>
                let st := debugLog "CHATBOT" "Exception in sendMessage" st in
                if negb typingIndicator then Throws (sendMessage_finally st)
                else
                  let st := if attached then removeTypingIndicator st else st in
                  let st := addMessageToChat
                              (lit "Sorry, I could not process your question. Please try again.")
                              assistant st in
                  Returns (sendMessage_finally st)
            end
        end
  end.

(** [loadSuggestedQuestions(jobId)] up to its first [await]. *)
Definition loadSuggestedQuestions (jobId : list N) (st : State) : State :=
  let st := debugLog "CHATBOT" "Loading suggestions" st in
  let st := debugLog "CHATBOT" "Fetching suggestions" st in
  fetch (GetSuggestions jobId) st.

Inductive SuggestionsReply : Type :=
| SuggestionsRejected
    (* fetch or response.json() rejects *)
| SuggestionsNotOk
| SuggestionsOk (suggestions : option Suggested)
    (* None: data.suggestions is falsy *).

(** The rest of [loadSuggestedQuestions], once the answer is there. *)
Definition loadSuggestedQuestions_resume (reply : SuggestionsReply) (st : State) : State :=
  match reply with
  | SuggestionsRejected => debugLog "CHATBOT" "Error loading suggestions" st
  | SuggestionsNotOk => debugLog "CHATBOT" "Suggestions response" st
  | SuggestionsOk suggestions =>
      let st := debugLog "CHATBOT" "Suggestions response" st in
      let st := debugLog "CHATBOT" "Suggestions received" st in
      match suggestions with
      | Some (Questions l) => if (0 <? length l)%nat then displaySuggestedQuestions l st else st
      | Some (NotAnArray true) =>
          match displaySuggestedQuestions_notArray st with
          | Returns st => st
          | Throws st => debugLog "CHATBOT" "Error loading suggestions" st
          end
      | Some (NotAnArray false) | None => st
      end
  end.

(** The five [addEventListener] calls of [setupChatbotListeners], in order. *)
Definition registered : list Listener :=
  [ {| l_target := toggleChatBtn; l_type := click; l_handler := onToggleClick |};
    {| l_target := closeChatBtn; l_type := click; l_handler := onCloseClick |};
    {| l_target := sendChatBtn; l_type := click; l_handler := onSendClick |};
    {| l_target := chatInput; l_type := keypress; l_handler := onInputKeypress |};
    {| l_target := document; l_type := click; l_handler := onDocumentClick |} ].

Definition setupChatbotListeners (st : State) : State :=
  let st := debugLog "CHATBOT" "Setting up event listeners" st in
  let d := chat st in
  match toggleBtn d, closeBtn d, sendBtn d, input d with
  | Some _, Some _, Some _, Some _ => with_listeners (listeners st ++ registered) st
  | _, _, _, _ => debugLog "CHATBOT" "ERROR: Missing DOM elements" st
  end.

Definition initializeChatbot (jobId : option (list N)) (st : State) : State :=
  let st := debugLog "CHATBOT" "initializeChatbot called" st in
  let st := with_chatbotJobId jobId st in
  let st :=
    match toggleBtn (chat st) with
    | Some _ => debugLog "CHATBOT" "Toggle button shown" (onChat (with_toggleBtn (Some true)) st)
    | None => debugLog "CHATBOT" "Toggle button NOT FOUND" st
    end in
  let st :=
    match jobId with
    | Some id => if truthy id then loadSuggestedQuestions id st
                 else debugLog "CHATBOT" "No job ID - skipping suggestions load" st
    | None => debugLog "CHATBOT" "No job ID - skipping suggestions load" st
    end in
  if chatbotInitialized st then st
  else
    let st := setupChatbotListeners st in
    let st := with_chatbotInitialized true st in
    debugLog "CHATBOT" "Event listeners initialized" st.

(** How often [setupChatbotListeners] has run: the entries it logs first. *)
Definition setupEntry : string * string := ("CHATBOT", "Setting up event listeners").

Definition setupRuns (st : State) : nat :=
  length (filter (fun e => e = setupEntry) (logs st)).

(** The script as loaded: its globals before any call. *)
Definition loaded (st : State) : Prop :=
  chatbotInitialized st = false /\ listeners st = [] /\ setupRuns st = 0%nat.

(** What can happen on the page once the script is loaded: a call of
    [initializeChatbot] (on page load, and by app.js for each completed job),
    a run of [sendMessage], the arrival of suggestions, and any change of the
    chat elements by the page itself. *)
Inductive PageEvent : Type :=
| Initialize (jobId : option (list N))
| Send (reply : ChatReply)
| Suggestions (reply : SuggestionsReply)
| Redraw (d : ChatDom).

Definition handle (e : PageEvent) (st : State) : State :=
  match e with
  | Initialize jobId => initializeChatbot jobId st
  | Send reply => stateOf (sendMessage reply st)
  | Suggestions reply => loadSuggestedQuestions_resume reply st
  | Redraw d => with_chat d st
  end.

(** [st'] has the listeners, the initialisation flag and the number of setup
    runs of [st]. *)
Definition sameSetup (st st' : State) : Prop :=
  chatbotInitialized st' = chatbotInitialized st
  /\ listeners st' = listeners st
  /\ setupRuns st' = setupRuns st.

(** What holds of the page at any time after the script is loaded. *)
Definition setupOnce (st : State) : Prop :=
  (chatbotInitialized st = false /\ listeners st = [] /\ setupRuns st = 0%nat)
  \/ (chatbotInitialized st = true /\ setupRuns st = 1%nat
      /\ (listeners st = [] \/ listeners st = registered)).

(** The listeners registered on an element. *)
Definition listenersOn (t : Target) (st : State) : nat :=
  length (filter (fun l => l_target l = t) (listeners st)).

(** A dispatched event: its type, the listened elements on its propagation
    path, whether the target carries the class [suggestion-chip], and for a
    key event whether the key is Enter and whether Shift is held. *)
Record Event : Type := {
  e_type : EventType;
  e_path : list Target;
  e_onChip : bool;
  e_enter : bool;
  e_shift : bool;
}.

Definition fires (e : Event) (l : Listener) : bool :=
  bool_decide (l_type l = e_type e) && bool_decide (l_target l ∈ e_path e).

(** Whether the body of a handler reaches its [sendMessage()] call. *)
Definition callsSendMessage (e : Event) (h : Handler) : bool :=
  match h with
  | onSendClick => true
  | onInputKeypress => e_enter e && negb (e_shift e)
  | onDocumentClick => e_onChip e
  | onToggleClick | onCloseClick => false
  end.

(** The [sendMessage] calls that handler [h] makes when [e] is dispatched. *)
Definition sendMessageCalls (e : Event) (h : Handler) (st : State) : nat :=
  length (filter (fun l => fires e l && bool_decide (l_handler l = h)
                           && callsSendMessage e h = true)
                 (listeners st)).

End Chatbot.

(** ** frontend/app.js: progress display and status polling *)
Module App.
Import JS Browser.

Definition with_stepClasses v (d : AppDom) : AppDom :=
  {| stepClasses := v; progressFill := progressFill d; progressText := progressText d;
     analysisForm := analysisForm d; progressSection := progressSection d;
     resultsSection := resultsSection d; errorSection := errorSection d;
     errorText := errorText d; submitBtn := submitBtn d; datasetJobId := datasetJobId d |}.

(** The bar and its text as [updateProgress] sets them. The text takes the
    percentage in every case; [style.width] takes it unless it is negative:
    a negative percentage is no valid width, the assignment is dropped and
    the bar keeps the width it had. *)
Definition with_progressBar v (d : AppDom) : AppDom :=
  {| stepClasses := stepClasses d;
     progressFill := if 0 <=? v then v else progressFill d; progressText := v;
     analysisForm := analysisForm d; progressSection := progressSection d;
     resultsSection := resultsSection d; errorSection := errorSection d;
     errorText := errorText d; submitBtn := submitBtn d; datasetJobId := datasetJobId d |}.

Definition with_sections progress results err (d : AppDom) : AppDom :=
  {| stepClasses := stepClasses d; progressFill := progressFill d;
     progressText := progressText d;
     analysisForm := analysisForm d; progressSection := progress;
     resultsSection := results; errorSection := err;
     errorText := errorText d; submitBtn := submitBtn d; datasetJobId := datasetJobId d |}.

Definition with_errorText v (d : AppDom) : AppDom :=
  {| stepClasses := stepClasses d; progressFill := progressFill d;
     progressText := progressText d;
     analysisForm := analysisForm d; progressSection := progressSection d;
     resultsSection := resultsSection d; errorSection := errorSection d;
     errorText := v; submitBtn := submitBtn d; datasetJobId := datasetJobId d |}.

Definition with_submitBtn v (d : AppDom) : AppDom :=
  {| stepClasses := stepClasses d; progressFill := progressFill d;
     progressText := progressText d;
     analysisForm := analysisForm d; progressSection := progressSection d;
     resultsSection := resultsSection d; errorSection := errorSection d;
     errorText := errorText d; submitBtn := v; datasetJobId := datasetJobId d |}.

Definition with_datasetJobId v (d : AppDom) : AppDom :=
  {| stepClasses := stepClasses d; progressFill := progressFill d;
     progressText := progressText d;
     analysisForm := analysisForm d; progressSection := progressSection d;
     resultsSection := resultsSection d; errorSection := errorSection d;
     errorText := errorText d; submitBtn := submitBtn d; datasetJobId := v |}.

Definition onApp (f : AppDom -> AppDom) (st : State) : State :=
  with_app (f (app st)) st.

(** The literal table of [updateProgress]: element id and threshold. *)
Definition steps : list (string * Z) :=
  [ ("step-init", 10); ("step-download", 20); ("step-extract", 30);
    ("step-analyze", 40); ("step-summarize", 60); ("step-recommend", 75);
    ("step-pdf", 90); ("step-complete", 100) ].

(** The body of the [forEach] callback on one element's class list. *)
Definition markStep (progress threshold : Z) (classes : gset string) : gset string :=
  if progress >=? threshold then (classes ∪ {["completed"]}) ∖ {["active"]}
  else if progress >=? threshold - 10 then (classes ∪ {["active"]}) ∖ {["completed"]}
  else (classes ∖ {["active"]}) ∖ {["completed"]}.

(** [steps.forEach(...)]: stops at the first element that is not in the page
    (its [classList] cannot be read); the flag is [false] then. *)
Fixpoint markSteps (progress : Z) (table : list (string * Z))
    (classes : gmap string (gset string)) : gmap string (gset string) * bool :=
  match table with
  | [] => (classes, true)
  | (id, threshold) :: table' =>
      match classes !! id with
      | None => (classes, false)
      | Some cl => markSteps progress table' (<[id := markStep progress threshold cl]> classes)
      end
  end.

Definition updateProgress (progress : Z) (status : list N) (st : State) : Completion :=
  let st := debugLog "PROGRESS" "INPUT: Update Progress" st in
  let st := onApp (with_progressBar progress) st in
  let st := debugLog "PROGRESS" "OUTPUT: Progress Bar Updated" st in
  let (classes, done) := markSteps progress steps (stepClasses (app st)) in
  let st := onApp (with_stepClasses classes) st in
  if done then Returns (debugLog "PROGRESS" "OUTPUT: Steps Updated" st)
  else Throws st.

Definition stopPolling (st : State) : State :=
  match pollInterval st with
  | Some _ => with_pollInterval None st
  | None => st
  end.

Definition showError (message : list N) (st : State) : State :=
  let st := onApp (with_sections false false true) st in
  let st := onApp (with_errorText message) st in
  let st := onApp (with_submitBtn false) st in
  stopPolling st.

(** [fetchQuickStats(jobId)] up to its first [await]. *)
Definition fetchQuickStats (jobId : list N) (st : State) : State :=
  fetch (GetQuickStats jobId) st.

(** [showResults(jobData)]; the chatbot script is loaded, so
    [initializeChatbot] is a function. *)
Definition showResults (st : State) : State :=
  let st := onApp (with_sections false true (errorSection (app st))) st in
  let st := onApp (with_datasetJobId (currentJobId st)) st in
  let st := with_lastCompletedJob (currentJobId st) st in
  let st := Chatbot.initializeChatbot (currentJobId st) st in
  fetchQuickStats (default [] (currentJobId st)) st.

(** The JSON of a status response as [checkJobStatus] reads it. [message]
    is [None] when the member is missing or falsy, else the text that the
    error element shows for its value: the string itself, and for a truthy
    value that is no string what [String] makes of it (the empty text for an
    empty array). *)
Record StatusData : Type := {
  status : list N;
  progress : Z;
  message : option (list N);
}.

Inductive StatusReply : Type :=
| StatusRejected (errorMessage : list N)
    (* fetch or response.json() rejects with this message *)
| StatusNotOk (statusCode : list N)
    (* not ok; the decimal text of response.status *)
| StatusOk (data : StatusData).

(** The message of the TypeError raised on a missing step element. *)
Definition nullClassList : list N :=
  lit "Cannot read properties of null (reading 'classList')".

(** The [catch] clause of [checkJobStatus]. *)
Definition checkJobStatus_catch (errorMessage : list N) (st : State) : State :=
  let st := debugLog "ERROR" "Status Check Exception" st in
  let st := stopPolling st in
  showError (lit "Failed to check job status: " ++ errorMessage) st.

Definition isStatus (name : string) (data : StatusData) : bool :=
  bool_decide (status data = lit name).

(** [checkJobStatus()], with the gateway's answer to its request. *)
Definition checkJobStatus (reply : StatusReply) (st : State) : State :=
  if negb (truthyId (currentJobId st)) then
    stopPolling (debugLog "ERROR" "No Job ID" st)
  else
    let st := debugLog "APP" "OUTPUT: Status Check Request" st in
    let st := fetch (GetStatus (default [] (currentJobId st))) st in
    match reply with
    | StatusRejected errorMessage => checkJobStatus_catch errorMessage st
    | StatusNotOk statusCode =>
        let st := debugLog "APP" "INPUT: Status Response" st in
        let st := debugLog "ERROR" "Status Check Failed" st in
        checkJobStatus_catch (lit "HTTP error! status: " ++ statusCode) st
    | StatusOk data =>
        let st := debugLog "APP" "INPUT: Status Response" st in
        let st := debugLog "APP" "INPUT: Status Data" st in
        match updateProgress (progress data) (status data) st with
        | Throws st => checkJobStatus_catch nullClassList st
        | Returns st =>
            if isStatus "completed" data then
              let st := debugLog "APP" "Analysis Completed" st in
              let st := stopPolling st in
              showResults st
            else if isStatus "failed" data then
              let st := debugLog "ERROR" "Analysis Failed" st in
              let st := stopPolling st in
              showError (default (lit "Analysis failed. Please try again.")
                           (message data)) st
            else st
        end
    end.

(** [startPolling()]: a running timer is cleared, a new one is set and the
    status is checked at once. *)
Definition startPolling (reply : StatusReply) (st : State) : State :=
  let st := with_pollInterval (Some (nextTimer st)) (with_nextTimer (S (nextTimer st)) st) in
  checkJobStatus reply st.

(** One period of the timer: the callback runs while the timer is set. *)
Definition tick (reply : StatusReply) (st : State) : State :=
  match pollInterval st with
  | Some _ => checkJobStatus reply st
  | None => st
  end.

(** A run of the polling loop: [startPolling], then the timer's periods, each
    with the answer the gateway gives at that time; a check is answered
    before the next period begins. *)
Definition pollingRun (replies : list StatusReply) (st : State) : State :=
  match replies with
  | [] => st
  | r :: rs => foldl (fun st r => tick r st) (startPolling r st) rs
  end.

(** The status requests that have left the page. *)
Definition isStatusRequest (r : Request) : bool :=
  match r with GetStatus _ => true | _ => false end.

Definition statusRequests (st : State) : nat :=
  length (List.filter isStatusRequest (outbox st)).

Definition terminal (data : StatusData) : bool :=
  isStatus "completed" data || isStatus "failed" data.

(** Every step element of the table is in the page. *)
Definition stepsPresent (st : State) : Prop :=
  Forall (fun s => is_Some (stepClasses (app st) !! s.1)) steps.

(** The shipped page as loaded: every element is there, no class is set on a
    step, the form is shown, and no script has run yet. *)
Definition shippedPage : State :=
  {| currentJobId := None; pollInterval := None; nextTimer := 1%nat;
     chatbotJobId := None; chatbotInitialized := false; listeners := [];
     lastCompletedJob := None;
     app := {| stepClasses := list_to_map ((fun s => (s.1, ∅)) <$> steps);
               progressFill := 0; progressText := 0;
               analysisForm := true; progressSection := false;
               resultsSection := false; errorSection := false;
               errorText := []; submitBtn := false; datasetJobId := None |};
     chat := {| toggleBtn := Some false; closeBtn := Some tt; sendBtn := Some false;
                input := Some ([], false); chatbotWidget := false;
                chatMessages := Some []; suggestedQuestions := Some [] |};
     logs := []; outbox := [] |}.

(** The answers up to and including the first terminal one. *)
Fixpoint throughTerminal (ds : list StatusData) : list StatusData :=
  match ds with
  | [] => []
  | d :: ds' => if terminal d then [d] else d :: throughTerminal ds'
  end.

End App.

(** ** The gateway's client of the backend service (PythonServiceClient) *)
Module Gateway.

(** A JSON document ([JsonElement]). *)
Local Unset Elimination Schemes.
Inductive Json : Type :=
| JNull
| JBool (b : bool)
| JNumber (n : Z)
| JString (s : string)
| JArray (items : list Json)
| JObject (members : gmap string Json).
Local Set Elimination Schemes.

(** The outcome of an awaited task: its result, or an exception. *)
Inductive Task (T : Type) : Type :=
| Result (v : T)
| Faulted.
Arguments Result {T} v.
Arguments Faulted {T}.

Inductive HttpMethod : Type := GET | POST | DELETE.

(** Request model for starting an analysis (SentimentAPI.Models); a C#
    reference that may be [null] is an option. *)
Record AnalysisRequest : Type := {
  Url : option string;
  HtmlContent : option string;
  Email : option string;
  Emails : option (list string);
  CustomPrompt : option string;
  SearchMethod : option string;
}.

Record JobStatus : Type := {
  JobId : string;
  Status : string;
  Progress : Z;
  Message : option string;
  PdfUrl : option string;
  ResultsUrl : option string;
  Error : option string;
  CreatedAt : option string;
}.

Record AnalysisResults : Type := {
  Trends : option (gmap string Json);
  PositiveSummary : option (gmap string Json);
  NegativeSummary : option (gmap string Json);
  NeutralSummary : option (gmap string Json);
  Recommendations : option (gmap string Json);
  Statistics : option (gmap string Json);
}.

Inductive RequestBody : Type :=
| NoBody
| AnalysisBody (request : AnalysisRequest)
| ChatBody (question : string) (include_history : bool).

Record HttpRequestMessage : Type := {
  Method : HttpMethod;
  RequestUri : string;
  Body : RequestBody;
}.

(** A response: its status code and its content, [None] when the content is
    not a JSON text. *)
Record HttpResponseMessage : Type := {
  StatusCode : Z;
  Content : option Json;
}.

Definition IsSuccessStatusCode (r : HttpResponseMessage) : bool :=
  (200 <=? StatusCode r) && (StatusCode r <=? 299).

(** The [HttpClient] bound to the backend: the requests it has sent, and what
    the backend does with a request (a response, or no response at all:
    connection failure, time-out). *)
Record HttpClient : Type := {
  sent : list HttpRequestMessage;
  backend : HttpRequestMessage -> Task HttpResponseMessage;
}.

Definition SendAsync (req : HttpRequestMessage) (c : HttpClient)
  : HttpClient * Task HttpResponseMessage :=
  ({| sent := sent c ++ [req]; backend := backend c |}, backend c req).

(** The requests of the client, by method. *)
Definition analyzeRequest (request : AnalysisRequest) : HttpRequestMessage :=
  {| Method := POST; RequestUri := "/api/analyze"; Body := AnalysisBody request |}.

Definition statusRequest (jobId : string) : HttpRequestMessage :=
  {| Method := GET; RequestUri := "/api/status/" +:+ jobId; Body := NoBody |}.

Definition dataRequest (jobId : string) : HttpRequestMessage :=
  {| Method := GET; RequestUri := "/api/results/" +:+ jobId +:+ "/data"; Body := NoBody |}.

Definition chatRequest (jobId question : string) (includeHistory : bool)
  : HttpRequestMessage :=
  {| Method := POST; RequestUri := "/api/results/" +:+ jobId +:+ "/chat";
     Body := ChatBody question includeHistory |}.

Definition suggestionsRequest (jobId : string) : HttpRequestMessage :=
  {| Method := GET; RequestUri := "/api/results/" +:+ jobId +:+ "/chat/suggestions";
     Body := NoBody |}.

Definition clearHistoryRequest (jobId : string) : HttpRequestMessage :=
  {| Method := DELETE; RequestUri := "/api/results/" +:+ jobId +:+ "/chat/history";
     Body := NoBody |}.

Definition healthRequest : HttpRequestMessage :=
  {| Method := GET; RequestUri := "/health"; Body := NoBody |}.

(** The call does not come back with a usable response: the request fails,
    the status is not a success, or the content cannot be read as asked. *)
Definition upstreamFails {T} (read : option Json -> Task T) (c : HttpClient)
    (req : HttpRequestMessage) : Prop :=
  match backend c req with
  | Faulted => True
  | Result r => IsSuccessStatusCode r = false \/ read (Content r) = Faulted
  end.

(** [ReadFromJsonAsync<Dictionary<string, JsonElement>>()] *)
Definition ReadDictionary (content : option Json) : Task (option (gmap string Json)) :=
  match content with
  | Some JNull => Result None
  | Some (JObject members) => Result (Some members)
  | _ => Faulted
  end.

(** [JsonElement.GetString()]: a string, [null] for a JSON null, an exception
    for any other kind. *)
Definition GetString (e : Json) : Task (option string) :=
  match e with
  | JString s => Result (Some s)
  | JNull => Result None
  | _ => Faulted
  end.

(** [JsonSerializer.Deserialize<List<string>>(e.GetRawText())] *)
Definition DeserializeStringList (e : Json) : Task (option (list (option string))) :=
  match e with
  | JNull => Result None
  | JArray items =>
      match mapM (fun i => match GetString i with Result s => Some s | Faulted => None end)
                 items with
      | Some l => Result (Some l)
      | None => Faulted
      end
  | _ => Faulted
  end.

Section Client.

(** [ReadFromJsonAsync<T>()] for the two model classes: what the serializer
    makes of a content, whatever it is. *)
Variable ReadJobStatus : option Json -> Task (option JobStatus).
Variable ReadAnalysisResults : option Json -> Task (option AnalysisResults).

Definition StartAnalysisAsync (request : AnalysisRequest) (c : HttpClient)
  : HttpClient * Task JobStatus :=
  let (c, response) :=
    SendAsync (analyzeRequest request) c in
  match response with
  | Faulted => (c, Faulted)
  | Result response =>
      if negb (IsSuccessStatusCode response) then (c, Faulted)
      else match ReadJobStatus (Content response) with
           | Result (Some result) => (c, Result result)
           | Result None => (c, Faulted)
           | Faulted => (c, Faulted)
           end
  end.

Definition GetJobStatusAsync (jobId : string) (c : HttpClient)
  : HttpClient * Task (option JobStatus) :=
  let (c, response) :=
    SendAsync (statusRequest jobId) c in
  match response with
  | Faulted => (c, Result None)
  | Result response =>
      if negb (IsSuccessStatusCode response) then (c, Result None)
      else match ReadJobStatus (Content response) with
           | Result v => (c, Result v)
           | Faulted => (c, Result None)
           end
  end.

Definition GetAnalysisDataAsync (jobId : string) (c : HttpClient)
  : HttpClient * Task (option AnalysisResults) :=
  let (c, response) :=
    SendAsync (dataRequest jobId) c in
  match response with
  | Faulted => (c, Result None)
  | Result response =>
      if negb (IsSuccessStatusCode response) then (c, Result None)
      else match ReadAnalysisResults (Content response) with
           | Result v => (c, Result v)
           | Faulted => (c, Result None)
           end
  end.

Definition NoResponse : string := "No response from chatbot".

Definition SendChatMessageAsync (jobId question : string) (includeHistory : bool)
    (c : HttpClient) : HttpClient * Task string :=
  let (c, response) :=
    SendAsync (chatRequest jobId question includeHistory) c in
  match response with
  | Faulted => (c, Faulted)
  | Result response =>
      if negb (IsSuccessStatusCode response) then (c, Faulted)
      else match ReadDictionary (Content response) with
           | Faulted => (c, Faulted)
           | Result None => (c, Result NoResponse)
           | Result (Some result) =>
               match result !! "answer" with
               | Some answerElement =>
                   match GetString answerElement with
                   | Result (Some s) => (c, Result s)
                   | Result None => (c, Result NoResponse)
                   | Faulted => (c, Faulted)
                   end
               | None => (c, Result NoResponse)
               end
           end
  end.

Definition GetChatSuggestionsAsync (jobId : string) (c : HttpClient)
  : HttpClient * Task (list (option string)) :=
  let (c, response) :=
    SendAsync (suggestionsRequest jobId) c in
  match response with
  | Faulted => (c, Result [])
  | Result response =>
      if negb (IsSuccessStatusCode response) then (c, Result [])
      else match ReadDictionary (Content response) with
           | Faulted => (c, Result [])
           | Result None => (c, Result [])
           | Result (Some result) =>
               match result !! "suggestions" with
               | Some suggestionsElement =>
                   match DeserializeStringList suggestionsElement with
                   | Result (Some suggestions) => (c, Result suggestions)
                   | Result None => (c, Result [])
                   | Faulted => (c, Result [])
                   end
               | None => (c, Result [])
               end
           end
  end.

Definition ClearChatHistoryAsync (jobId : string) (c : HttpClient)
  : HttpClient * Task bool :=
  let (c, response) :=
    SendAsync (clearHistoryRequest jobId) c in
  match response with
  | Faulted => (c, Result false)
  | Result response => (c, Result (IsSuccessStatusCode response))
  end.

Definition CheckHealthAsync (c : HttpClient) : HttpClient * Task bool :=
  let (c, response) :=
    SendAsync healthRequest c in
  match response with
  | Faulted => (c, Result false)
  | Result response => (c, Result (IsSuccessStatusCode response))
  end.

(** What the gateway answers to [POST /analyze]. *)
Inductive AnalyzeResult : Type :=
| Accepted (job : JobStatus)
| InvalidRequest
    (* 400 *)
| UpstreamFailure.

(** Which requests carry a usable source specifier. *)
Variable usableSource : AnalysisRequest -> bool.

(** Modelled from the spec: the gateway's action for [POST /analyze]; the
    controller that calls [StartAnalysisAsync] is not among the sources. A
    request that lacks a usable source specifier is answered [InvalidRequest]
    at once; any other request is forwarded, and the backend's job status or
    failure is relayed. *)
Definition Analyze (request : AnalysisRequest) (c : HttpClient)
  : HttpClient * AnalyzeResult :=
  if usableSource request then
    match StartAnalysisAsync request c with
    | (c, Result job) => (c, Accepted job)
    | (c, Faulted) => (c, UpstreamFailure)
    end
  else (c, InvalidRequest).

End Client.

(** The body of the gateway's answer to [POST /results/{jobId}/chat]:
    [{answer, suggestedQuestions?}]. *)
Record ChatResponse : Type := {
  Answer : string;
  SuggestedQuestions : option (list (option string));
}.

Inductive ChatResult : Type :=
| ChatAnswered (response : ChatResponse)
| ChatFailed.

(** Modelled from the spec: the gateway's action for
    [POST /results/{jobId}/chat {question, includeHistory}], which answers
    [{answer, suggestedQuestions?}]; the controller that calls the client is
    not among the sources. The question goes to the backend through
    [SendChatMessageAsync], whose text is the [answer] of the response. That
    operation returns the answer text and nothing else, so the follow-up
    questions are those that the backend provides for the job through
    [GetChatSuggestionsAsync]: the member is there when it provides some and
    is left out when it provides none. A chat call that fails is answered
    with a failure. *)
Definition Chat (jobId question : string) (includeHistory : bool) (c : HttpClient)
  : HttpClient * ChatResult :=
  match SendChatMessageAsync jobId question includeHistory c with
  | (c, Faulted) => (c, ChatFailed)
  | (c, Result answer) =>
      let (c, suggestions) := GetChatSuggestionsAsync jobId c in
      (c, ChatAnswered
            {| Answer := answer;
               SuggestedQuestions :=
                 match suggestions with
                 | Result (q :: qs) => Some (q :: qs)
                 | _ => None
                 end |})
  end.

(** A backend that answers every request with the same response. *)
Definition answering (r : HttpResponseMessage) : HttpClient :=
  {| sent := []; backend := fun _ => Result r |}.

(** A success response with a JSON object as content. *)
Definition ok200 (members : gmap string Json) : HttpResponseMessage :=
  {| StatusCode := 200; Content := Some (JObject members) |}.

(** A chat answer of the backend with an answer and one suggested question. *)
Definition withSuggestion : gmap string Json :=
  <["suggested_questions" := JArray [JString "What do customers praise?"]]>
    {["answer" := JString "Mostly delivery times."]}.

(** A backend for one completed job: it answers the chat request with an
    answer, the suggestions request with two questions, and nothing else. *)
Definition chatBackend : HttpClient :=
  {| sent := [];
     backend := fun req =>
       if String.eqb (RequestUri req) "/api/results/job-1/chat"
       then Result (ok200 {["answer" := JString "Mostly delivery times."]})
       else if String.eqb (RequestUri req) "/api/results/job-1/chat/suggestions"
       then Result (ok200 {["suggestions" :=
                              JArray [JString "What do customers praise?";
                                      JString "What do they complain about?"]]})
       else Faulted |}.

(** A source specifier as the request model documents it: a URL, or HTML
    content as its alternative. *)
Definition IsNullOrEmpty (s : option string) : bool :=
  match s with
  | Some s => String.eqb s ""
  | None => true
  end.

Definition hasSource (request : AnalysisRequest) : bool :=
  negb (IsNullOrEmpty (Url request) && IsNullOrEmpty (HtmlContent request)).

End Gateway.

(** ** The Job Manager

    The backend service that owns the job table is not among the sources;
    its operations are taken from the contract of the specification. *)
Module JobManager.

Inductive JobState : Type := Pending | Running | Completed | Failed.

Record Job : Type := {
  status : JobState;
  progress : Z;
  message : option string;
  resultRef : option string;
  error : option string;
}.

Inductive JobError : Type := NotFound.

Definition isTerminal (s : JobState) : bool :=
  match s with
  | Completed | Failed => true
  | Pending | Running => false
  end.

(** Modelled from the spec: [UpdateProgress(jobId, progress, message)] of the
    Job Manager, which is missing from the sources. A call for an unknown or
    a terminal job is a no-op; a decrease of the progress is rejected and
    leaves the record as it is; otherwise the progress and the message are
    stored and a job still Pending becomes Running. *)
Definition UpdateProgress (jobId : string) (p : Z) (msg : string)
    (jobs : gmap string Job) : gmap string Job :=
  match jobs !! jobId with
  | None => jobs
  | Some j =>
      if isTerminal (status j) then jobs
      else if p <? progress j then jobs
      else <[jobId := {| status := Running; progress := p; message := Some msg;
                         resultRef := resultRef j; error := error j |}]> jobs
  end.

(** Modelled from the spec: [GetStatus(jobId)] of the Job Manager, which is
    missing from the sources. A read-only lookup that fails with [NotFound]
    for an unknown id. *)
Definition GetStatus (jobId : string) (jobs : gmap string Job) : Job + JobError :=
  match jobs !! jobId with
  | Some j => inl j
  | None => inr NotFound
  end.

(** One [UpdateProgress] call of a Stage Runner. *)
Record ProgressCall : Type := {
  c_jobId : string;
  c_progress : Z;
  c_message : string;
}.

Definition call (c : ProgressCall) (jobs : gmap string Job) : gmap string Job :=
  UpdateProgress (c_jobId c) (c_progress c) (c_message c) jobs.

(** What a poller of [jobId] can see: the progress that [GetStatus] reports
    before the first call and after each call, in order. *)
Fixpoint observed (jobId : string) (calls : list ProgressCall)
    (jobs : gmap string Job) : list Z :=
  let now := match GetStatus jobId jobs with
             | inl j => [progress j]
             | inr _ => []
             end in
  match calls with
  | [] => now
  | c :: calls' => now ++ observed jobId calls' (call c jobs)
  end.

End JobManager.

(** ** What leaves the page *)
Module Traffic.
Import Browser.

(** The requests that app.js and the chatbot script hand to [fetch]
    themselves, in order: the status, chat and suggestions requests to the
    gateway and the one for the quick statistics. (The analysis request of
    [startAnalysis] is kept apart, by the session of the form.) *)
Definition scriptRequests (st : State) : list Request := outbox st.

(** The requests of the debug logger. [DebugLogger.log] hands every entry it
    pushes to [sendToServer] ([logToFile] is set), which posts it to
    /api/debug/log: one request per entry, in the order of the entries. An
    entry stands here by its component and action, as in [logs]; the body
    that is posted holds the entry's data too. How these requests interleave
    with those of the scripts is not kept. *)
Definition debugPosts (st : State) : list (string * string) := logs st.

End Traffic.

(** ** Views of the chat widget used to state its invariants *)
Module ChatView.
Import Browser Chatbot.

(** At most six suggestion chips are shown. *)
Definition chipsCapped (d : ChatDom) : Prop :=
  forall chips, suggestedQuestions d = Some chips -> (length chips <= 6)%nat.

(** A change of the page by something else than the chatbot script that
    keeps the chips within the cap. *)
Definition cappedEvent (e : PageEvent) : Prop :=
  match e with
  | Redraw d => chipsCapped d
  | _ => True
  end.

(** The chips of [y] are those of [x], or the first six of some list. *)
Definition chipsKept (x y : State) : Prop :=
  suggestedQuestions (chat y) = suggestedQuestions (chat x)
  \/ exists qs, suggestedQuestions (chat y) = Some (take 6 qs).

(** One of the four elements that [setupChatbotListeners] needs is missing. *)
Definition incomplete (d : ChatDom) : Prop :=
  toggleBtn d = None \/ closeBtn d = None \/ sendBtn d = None \/ input d = None.

End ChatView.

(** ** The gateway's health check of the backend (PythonServiceHealthCheck) *)
Module Health.
Import Gateway.

(** The part of [IPythonServiceClient] that the health check uses. *)
Class IPythonServiceClient (C : Type) : Type := {
  CheckHealth : C -> C * Task bool;
}.

(** [PythonServiceClient], the implementation over an [HttpClient]. *)
#[global] Instance PythonServiceClient : IPythonServiceClient HttpClient := {
  CheckHealth := CheckHealthAsync;
}.

Inductive HealthStatus : Type := Healthy | Unhealthy.

(** [HealthCheckResult]: status, description, and whether an exception is
    attached. *)
Record HealthCheckResult : Type := {
  h_status : HealthStatus;
  h_description : string;
  h_exception : bool;
}.

(** [PythonServiceHealthCheck.CheckHealthAsync] *)
Definition CheckHealthAsync `{IPythonServiceClient C} (_pythonService : C)
  : C * HealthCheckResult :=
  let (c, isHealthy) := CheckHealth _pythonService in
  match isHealthy with
  | Result true =>
      (c, {| h_status := Healthy; h_description := "Python service is responsive";
             h_exception := false |})
  | Result false =>
      (c, {| h_status := Unhealthy; h_description := "Python service is not responding";
             h_exception := false |})
  | Faulted =>
      (c, {| h_status := Unhealthy;
             h_description := "Python service health check failed";
             h_exception := true |})
  end.

End Health.

(** ** frontend/app.js: the analysis form *)
Module Form.
Import JS Browser App.

(** The controls of the form as app.js reads and sets them: the values of
    the text fields, the value of the checked [searchMethod] radio ([None]
    when none is checked), the three radios ([true]: checked), the two
    conditional inputs ([true]: displayed), their [required] attributes and
    the [disabled] flag of the task field. *)
Record FormDom : Type := {
  emailValue : list N;
  checkedMethod : option (list N);
  customTaskValue : list N;
  customTaskDisabled : bool;
  keywordsValue : list N;
  urlsValue : list N;
  radioKeywords : bool;
  radioUrls : bool;
  radioDemo : bool;
  inputKeywords : bool;
  inputUrls : bool;
  keywordsRequired : bool;
  urlsRequired : bool;
}.

Definition handleSearchMethodChange (f : FormDom) : FormDom :=
  let showKeywords := radioKeywords f in
  let showUrls := negb (radioKeywords f) && radioUrls f in
  let demo := negb (radioKeywords f) && negb (radioUrls f) && radioDemo f in
  {| emailValue := emailValue f;
     checkedMethod := checkedMethod f;
     customTaskValue := if demo then [] else customTaskValue f;
     customTaskDisabled :=
       if showKeywords || showUrls then false
       else if demo then true else customTaskDisabled f;
     keywordsValue := keywordsValue f;
     urlsValue := urlsValue f;
     radioKeywords := radioKeywords f;
     radioUrls := radioUrls f;
     radioDemo := radioDemo f;
     inputKeywords := showKeywords;
     inputUrls := showUrls;
     keywordsRequired := showKeywords;
     urlsRequired := showUrls |}.

(** [requestData] of [handleFormSubmit]. *)
Record RequestData : Type := {
  r_email : list N;
  r_searchMethod : list N;
  r_url : list N;
  r_customPrompt : option (list N);
}.

(** [apiPayload] of [startAnalysis] ([htmlContent] is always [null]). *)
Record ApiPayload : Type := {
  p_url : list N;
  p_email : list N;
  p_customPrompt : option (list N);
  p_searchMethod : list N;
}.

(** The page with its form and the analysis requests that have left it. *)
Record Session : Type := {
  page : State;
  form : FormDom;
  posted : list ApiPayload;
}.

Definition onPage (g : State -> State) (s : Session) : Session :=
  {| page := g (page s); form := form s; posted := posted s |}.

Definition with_analysisForm v (d : AppDom) : AppDom :=
  {| stepClasses := stepClasses d; progressFill := progressFill d;
     progressText := progressText d;
     analysisForm := v; progressSection := progressSection d;
     resultsSection := resultsSection d; errorSection := errorSection d;
     errorText := errorText d; submitBtn := submitBtn d; datasetJobId := datasetJobId d |}.

(** [resetProgress()]: the bar goes to zero and every element of class
    [step] loses its marks. *)
Definition resetProgress (st : State) : State :=
  let st := onApp (with_progressBar 0) st in
  onApp (fun d =>
           with_stepClasses
             ((fun cl => if decide ("step" ∈ cl)
                         then (cl ∖ {["active"]}) ∖ {["completed"]} else cl)
                <$> stepClasses d) d) st.

(** What the gateway answers to the analysis request, as [startAnalysis]
    reads it. *)
Inductive AnalyzeReply : Type :=
| AnalyzeRejected (errorMessage : list N)
    (* fetch rejects with this message *)
| AnalyzeNotOk (statusCode : list N)
    (* not ok; the decimal text of response.status *)
| AnalyzeUnreadable (errorMessage : list N)
    (* ok, but response.json() rejects or gives null; the same course is
       taken when the response is not ok and response.text() rejects *)
| AnalyzeOk (jobId : option (list N))
    (* ok; data.jobId || data.job_id, None when both are missing or empty *).

(** The [catch] clause of [startAnalysis]. *)
Definition startAnalysis_catch (errorMessage : list N) (st : State) : State :=
  let st := debugLog "ERROR" "Analysis Start Failed" st in
  let st := showError (lit "Failed to start analysis: " ++ errorMessage) st in
  let st := onApp (with_analysisForm true) st in
  let st := onApp (fun d => with_sections false (resultsSection d) (errorSection d) d) st in
  onApp (with_submitBtn false) st.

(** [startAnalysis(requestData)], with the gateway's answer to the analysis
    request and to the status check that [startPolling] makes at once. *)
Definition startAnalysis (requestData : RequestData)
    (reply : AnalyzeReply) (statusReply : StatusReply) (s : Session) : Session :=
  let s := onPage (debugLog "APP" "INPUT: Start Analysis") s in
  let s := onPage (onApp (with_analysisForm false)) s in
  let s := onPage (onApp (with_sections true false false)) s in
  let s := onPage resetProgress s in
  let s := onPage (onApp (with_submitBtn true)) s in
  let apiPayload :=
    {| p_url := Chatbot.orElse (Some (r_url requestData)) (lit "demo");
       p_email := r_email requestData;
       p_customPrompt :=
         match r_customPrompt requestData with
         | Some c => if truthy c then Some c else None
         | None => None
         end;
       p_searchMethod := r_searchMethod requestData |} in
  let s := onPage (debugLog "APP" "OUTPUT: API Request") s in
  let s := {| page := page s; form := form s; posted := posted s ++ [apiPayload] |} in
  match reply with
  | AnalyzeRejected errorMessage => onPage (startAnalysis_catch errorMessage) s
  | AnalyzeNotOk statusCode =>
      let s := onPage (debugLog "APP" "INPUT: API Response Status") s in
      let s := onPage (debugLog "ERROR" "API Request Failed") s in
      onPage (startAnalysis_catch (lit "HTTP error! status: " ++ statusCode)) s
  | AnalyzeUnreadable errorMessage =>
      let s := onPage (debugLog "APP" "INPUT: API Response Status") s in
      onPage (startAnalysis_catch errorMessage) s
  | AnalyzeOk jobId =>
      let s := onPage (debugLog "APP" "INPUT: API Response Status") s in
      let s := onPage (debugLog "APP" "INPUT: API Response Data") s in
      let s := onPage (with_currentJobId jobId) s in
      let s := onPage (debugLog "APP" "OUTPUT: Starting Polling") s in
      onPage (startPolling statusReply) s
  end.

(** A call of the submit handler returns or throws. *)
Inductive Submission : Type :=
| Handled (s : Session)
| Unhandled (s : Session).

Definition sessionOf (r : Submission) : Session :=
  match r with Handled s | Unhandled s => s end.

(** [handleFormSubmit(e)], with the answers that [startAnalysis] may get. *)
Definition handleFormSubmit (reply : AnalyzeReply) (statusReply : StatusReply)
    (s : Session) : Submission :=
  let email := trim (emailValue (form s)) in
  match checkedMethod (form s) with
  | None => Unhandled s
  | Some searchMethod =>
      let customTask := trim (customTaskValue (form s)) in
      let s := onPage (debugLog "APP" "INPUT: Form Submit") s in
      if negb (Email.validateEmail email) then
        let s := onPage (debugLog "ERROR" "Form Validation Failed") s in
        Handled (onPage (showError (lit "Please enter a valid email address.")) s)
      else
        let prepared (url : list N) :=
          let customPrompt :=
            if truthy customTask && negb (bool_decide (searchMethod = lit "demo"))
            then Some customTask else None in
          let s := onPage (debugLog "APP" "OUTPUT: Prepared Request Data") s in
          Handled (startAnalysis
                     {| r_email := email; r_searchMethod := searchMethod;
                        r_url := url; r_customPrompt := customPrompt |}
                     reply statusReply s) in
        if bool_decide (searchMethod = lit "keywords") then
          let keywords := trim (keywordsValue (form s)) in
          if negb (truthy keywords) then
            let s := onPage (debugLog "ERROR" "Form Validation Failed") s in
            Handled (onPage (showError (lit "Please enter search keywords.")) s)
          else prepared keywords
        else if bool_decide (searchMethod = lit "urls") then
          let urls := trim (urlsValue (form s)) in
          if negb (truthy urls) then
            let s := onPage (debugLog "ERROR" "Form Validation Failed") s in
            Handled (onPage (showError (lit "Please enter at least one URL.")) s)
          else prepared urls
        else prepared (lit "demo")
  end.

(** The form of the shipped page in demo mode, with an address typed in. *)
Definition demoForm (email : string) : FormDom :=
  {| emailValue := lit email; checkedMethod := Some (lit "demo");
     customTaskValue := []; customTaskDisabled := true;
     keywordsValue := []; urlsValue := [];
     radioKeywords := false; radioUrls := false; radioDemo := true;
     inputKeywords := false; inputUrls := false;
     keywordsRequired := false; urlsRequired := false |}.

Definition demoSession (email : string) : Session :=
  {| page := shippedPage; form := demoForm email; posted := [] |}.

(** A session whose page shows the end of an earlier run: every step
    element carries the class [step] and is marked completed. *)
Definition markedSession (email : string) : Session :=
  {| page := onApp (with_stepClasses
                      (list_to_map ((fun s => (s.1, {["step"; "completed"]})) <$> steps)))
                   shippedPage;
     form := demoForm email; posted := [] |}.

End Form.

(* ===================================================================== *)
(** * Part II: properties *)
(* ===================================================================== *)

Section RegexFacts.
Import JS Regex.

Lemma lang_seq_inv r1 r2 w :
  lang (Seq r1 r2) w -> exists u v, w = u ++ v /\ lang r1 u /\ lang r2 v.
Proof. inversion 1; subst; eauto. Qed.

Lemma lang_alt_inv r1 r2 w : lang (Alt r1 r2) w -> lang r1 w \/ lang r2 w.
Proof. inversion 1; subst; auto. Qed.

Lemma lang_class_inv p w : lang (Class p) w -> exists c, w = [c] /\ p c = true.
Proof. inversion 1; subst; eauto. Qed.

Lemma nullable_lang r : nullable r = true <-> lang r [].
Proof.
  induction r as [| |p|r1 IH1 r2 IH2|r1 IH1 r2 IH2|r IH]; simpl.
  - split; [discriminate | inversion 1].
  - split; [constructor | reflexivity].
  - split; [discriminate | inversion 1].
  - rewrite andb_true_iff, IH1, IH2. split.
    + intros [H1 H2]. apply (lang_seq _ _ [] [] H1 H2).
    + intros H. apply lang_seq_inv in H as (u & v & Heq & Hu & Hv).
      symmetry in Heq. apply app_eq_nil in Heq as [-> ->]. split; assumption.
  - rewrite orb_true_iff, IH1, IH2. split.
    + intros [H|H]; [apply lang_alt_l | apply lang_alt_r]; exact H.
    + apply lang_alt_inv.
  - split; [constructor | reflexivity].
Qed.

(** A non-empty word of [Star r] starts with a non-empty word of [r]. *)
Lemma lang_star_cons_inv r c w :
  lang (Star r) (c :: w) ->
  exists u v, w = u ++ v /\ lang r (c :: u) /\ lang (Star r) v.
Proof.
  intros H. remember (Star r) as r' eqn:Er. remember (c :: w) as cw eqn:Ew.
  revert Er Ew.
  induction H as [| | | | | |r0 u v Hu _ Hv IHv]; intros Er Ew; try discriminate.
  injection Er as ->. destruct u as [|c' u]; simpl in Ew.
  - apply IHv; [reflexivity | exact Ew].
  - injection Ew as Hc Hw. subst c' w. exists u, v. auto.
Qed.

Lemma deriv_lang r : forall c w, lang (deriv c r) w <-> lang r (c :: w).
Proof.
  induction r as [| |p|r1 IH1 r2 IH2|r1 IH1 r2 IH2|r IH]; intros c w; simpl.
  - split; inversion 1.
  - split; inversion 1.
  - destruct (p c) eqn:Hp; split.
    + inversion 1; subst. constructor. exact Hp.
    + intros H. apply lang_class_inv in H as (c' & Heq & _).
      injection Heq as _ ->. constructor.
    + inversion 1.
    + intros H. apply lang_class_inv in H as (c' & Heq & Hc').
      injection Heq as <- _. congruence.
  - assert (Hseq : lang (Seq (deriv c r1) r2) w -> lang (Seq r1 r2) (c :: w)).
    { intros H. apply lang_seq_inv in H as (u & v & -> & Hu & Hv).
      apply IH1 in Hu. apply (lang_seq _ _ (c :: u) v Hu Hv). }
    assert (Hinv : lang (Seq r1 r2) (c :: w) ->
                   lang (Seq (deriv c r1) r2) w \/ (lang r1 [] /\ lang (deriv c r2) w)).
    { intros H. apply lang_seq_inv in H as (u & v & Heq & Hu & Hv).
      destruct u as [|c' u]; simpl in Heq.
      - right. subst v. split; [exact Hu | apply IH2; exact Hv].
      - injection Heq as Hc Hw. subst c' w. left.
        constructor; [apply IH1; exact Hu | exact Hv]. }
    destruct (nullable r1) eqn:Hn; split.
    + intros H. apply lang_alt_inv in H as [H|H]; [auto |].
      apply (lang_seq _ _ [] (c :: w)); [apply nullable_lang; exact Hn | apply IH2; exact H].
    + intros H. destruct (Hinv H) as [H'|[_ H']]; [apply lang_alt_l | apply lang_alt_r]; exact H'.
    + exact Hseq.
    + intros H. destruct (Hinv H) as [H'|[H' _]]; [exact H' |].
      apply nullable_lang in H'. congruence.
  - split; intros H; apply lang_alt_inv in H as [H|H].
    + apply lang_alt_l, IH1, H.
    + apply lang_alt_r, IH2, H.
    + apply lang_alt_l, IH1, H.
    + apply lang_alt_r, IH2, H.
  - split.
    + intros H. apply lang_seq_inv in H as (u & v & -> & Hu & Hv).
      apply IH in Hu. apply (lang_star_cons _ (c :: u) v Hu Hv).
    + intros H. apply lang_star_cons_inv in H as (u & v & -> & Hu & Hv).
      constructor; [apply IH; exact Hu | exact Hv].
Qed.

(** The derivative matcher decides membership in the pattern's language. *)
Lemma test_lang s : forall r, test r s = true <-> lang r s.
Proof.
  induction s as [|c s IH]; intros r; simpl.
  - apply nullable_lang.
  - rewrite IH. apply deriv_lang.
Qed.

End RegexFacts.

Section StringFacts.
Import JS.

Lemma includes_In s c : includes s c = true <-> In c s.
Proof.
  unfold includes. rewrite existsb_exists. split.
  - intros (x & Hx & Heq). apply N.eqb_eq in Heq. subst. exact Hx.
  - intros H. exists c. split; [exact H | apply N.eqb_refl].
Qed.

Lemma split_nonempty sep s : split sep s <> [].
Proof.
  destruct s as [|c s]; simpl; [discriminate |].
  destruct (c =? sep)%N; [discriminate |].
  destruct (split sep s); discriminate.
Qed.

(** Splitting loses nothing: joining the pieces gives the string back, and
    no piece contains the separator. *)
Lemma split_join sep s :
  join sep (split sep s) = s /\ Forall (fun w => ~ In sep w) (split sep s).
Proof.
  induction s as [|c s [IHj IHf]]; simpl.
  - split; [reflexivity | repeat constructor; auto].
  - destruct (c =? sep)%N eqn:Hc.
    + apply N.eqb_eq in Hc. subst c. split.
      * destruct (split sep s) eqn:Hs; [now destruct (split_nonempty sep s) |].
        simpl in *. now rewrite IHj.
      * constructor; [auto | exact IHf].
    + apply N.eqb_neq in Hc.
      destruct (split sep s) as [|w ws] eqn:Hs; [now destruct (split_nonempty sep s) |].
      apply Forall_cons_iff in IHf as [Hw Hws]. split.
      * destruct ws; simpl in *; now rewrite IHj.
      * constructor; [| exact Hws]. intros [Heq|Hin]; [congruence | auto].
Qed.

(** A trailing separator leaves an empty last piece. *)
Lemma split_trailing sep s : split sep (s ++ [sep]) = split sep s ++ [[]].
Proof.
  induction s as [|c s IH]; simpl.
  - now rewrite N.eqb_refl.
  - rewrite IH. destruct (c =? sep)%N; [reflexivity |].
    destruct (split sep s) eqn:Hs; [now destruct (split_nonempty sep s) | reflexivity].
Qed.

End StringFacts.

Section EmailFacts.
Import JS Regex Email.

Lemma lang_star_class p w : lang (Star (Class p)) w <-> Forall (fun c => p c = true) w.
Proof.
  split.
  - induction w as [|c w IH]; intros H; [constructor |].
    apply lang_star_cons_inv in H as (u & v & -> & Hu & Hv).
    apply lang_class_inv in Hu as (c' & Heq & Hc').
    injection Heq as Hc Hu0. subst c' u. constructor; [exact Hc' | apply IH; exact Hv].
  - induction 1 as [|c w Hc _ IH]; [constructor |].
    apply (lang_star_cons _ [c] w); [constructor; exact Hc | exact IH].
Qed.

Lemma lang_plus_class p w :
  lang (Plus (Class p)) w <-> w <> [] /\ Forall (fun c => p c = true) w.
Proof.
  unfold Plus. split.
  - intros H. apply lang_seq_inv in H as (u & v & -> & Hu & Hv).
    apply lang_class_inv in Hu as (c & -> & Hc). apply lang_star_class in Hv.
    split; [discriminate | constructor; assumption].
  - intros [Hne Hall]. destruct w as [|c w]; [congruence |].
    inversion Hall; subst.
    apply (lang_seq _ _ [c] w); [constructor; assumption | now apply lang_star_class].
Qed.

Lemma lang_chr c w : lang (Chr c) w <-> w = [c].
Proof.
  unfold Chr. split.
  - intros H. apply lang_class_inv in H as (c' & -> & Hc).
    apply N.eqb_eq in Hc. now subst.
  - intros ->. constructor. apply N.eqb_refl.
Qed.

(** The shape of an accepted address: local part, [@], domain, [.], suffix. *)
Lemma emailRegex_shape s :
  lang emailRegex s <->
  exists a b c, s = a ++ at_sign :: b ++ full_stop :: c
                /\ plainWord a /\ plainWord b /\ plainWord c.
Proof.
  unfold emailRegex, plainWord. split.
  - intros H.
    apply lang_seq_inv in H as (a & s1 & -> & Ha & H).
    apply lang_seq_inv in H as (x & s2 & -> & Hx & H).
    apply lang_seq_inv in H as (b & s3 & -> & Hb & H).
    apply lang_seq_inv in H as (y & c & -> & Hy & Hc).
    apply lang_chr in Hx, Hy. subst x y.
    apply lang_plus_class in Ha, Hb, Hc. exists a, b, c. auto.
  - intros (a & b & c & -> & Ha & Hb & Hc).
    apply lang_plus_class in Ha, Hb, Hc.
    constructor; [exact Ha |].
    apply (lang_seq _ _ [at_sign]); [now apply lang_chr |].
    constructor; [exact Hb |].
    apply (lang_seq _ _ [full_stop]); [now apply lang_chr | exact Hc].
Qed.

(** C9. [validateEmail] accepts a string exactly when it has no comma and
    matches the address pattern, or has a comma and every trimmed
    comma-separated piece matches it; a string that ends in a comma is
    rejected. *)
Theorem validateEmail_spec (s : list N) :
  (validateEmail s = true <->
     (~ In comma s /\ lang emailRegex s) \/
     (In comma s /\ Forall (fun e => lang emailRegex (trim e)) (split comma s)))
  /\ validateEmail (s ++ [comma]) = false.
Proof.
  split.
  - unfold validateEmail. destruct (includes s comma) eqn:Hinc.
    + apply includes_In in Hinc.
      assert (Hlen : (0 <? length (map trim (split comma s)))%nat = true).
      { rewrite length_map. pose proof (split_nonempty comma s).
        destruct (split comma s); [congruence | reflexivity]. }
      rewrite Hlen, andb_true_r, forallb_forall. split.
      * intros H. right. split; [exact Hinc |]. apply Forall_forall.
        intros e He. apply test_lang, H, in_map, list_elem_of_In, He.
      * intros [[Hno _]|[_ H]]; [contradiction |].
        intros e He. apply in_map_iff in He as (e0 & <- & He0).
        apply test_lang. rewrite Forall_forall in H. apply H, list_elem_of_In, He0.
    + assert (Hno : ~ In comma s).
      { intros Hin. apply includes_In in Hin. congruence. }
      rewrite test_lang. split; [auto |]. intros [[_ H]|[Hin _]]; [exact H | contradiction].
  - unfold validateEmail.
    assert (Hinc : includes (s ++ [comma]) comma = true).
    { apply includes_In, in_or_app. right. now left. }
    rewrite Hinc, split_trailing, map_app, forallb_app. simpl.
    now rewrite andb_false_r.
Qed.

Example validateEmail_single : validateEmail (lit "ann@example.com") = true.
Proof. reflexivity. Qed.

Example validateEmail_list : validateEmail (lit "ann@example.com, bob@example.org") = true.
Proof. reflexivity. Qed.

Example validateEmail_trailing_comma : validateEmail (lit "ann@example.com,") = false.
Proof. reflexivity. Qed.

Example validateEmail_no_dot : validateEmail (lit "ann@example") = false.
Proof. reflexivity. Qed.

Example validateEmail_untrimmed_single : validateEmail (lit " ann@example.com") = false.
Proof. reflexivity. Qed.

End EmailFacts.

(** ** Step highlighting (app.js, [updateProgress]) *)
Section ProgressFacts.
Import JS Browser App.

Lemma markStep_completed p th cl : "completed" ∈ markStep p th cl <-> th <= p.
Proof.
  unfold markStep.
  destruct (Z.geb_spec p th) as [Hge|Hlt]; [| destruct (Z.geb_spec p (th - 10))];
    rewrite ?elem_of_difference, ?elem_of_union, ?elem_of_singleton;
    intuition (try lia; try discriminate).
Qed.

Lemma markStep_active p th cl : "active" ∈ markStep p th cl <-> th - 10 <= p < th.
Proof.
  unfold markStep.
  destruct (Z.geb_spec p th) as [Hge|Hlt]; [| destruct (Z.geb_spec p (th - 10))];
    rewrite ?elem_of_difference, ?elem_of_union, ?elem_of_singleton;
    intuition (try lia; try discriminate).
Qed.

(** On a page that has every element of the table, the loop runs to its end
    and leaves on each element the classes of its own table row. *)
Lemma markSteps_spec p table :
  forall classes : gmap string (gset string),
    NoDup table.*1 ->
    Forall (fun s => is_Some (classes !! s.1)) table ->
    exists classes',
      markSteps p table classes = (classes', true)
      /\ (forall id th, (id, th) ∈ table ->
            classes' !! id = markStep p th <$> classes !! id)
      /\ (forall id, id ∉ table.*1 -> classes' !! id = classes !! id).
Proof.
  induction table as [|[id th] table IH]; intros classes Hnd Hall; simpl.
  - exists classes. split; [reflexivity |]. split; [|reflexivity].
    intros ? ? Hin. inversion Hin.
  - apply NoDup_cons in Hnd as [Hid Hnd].
    apply Forall_cons_iff in Hall as [[cl Hcl] Hall]. simpl in Hcl. rewrite Hcl.
    destruct (IH (<[id := markStep p th cl]> classes) Hnd) as (classes' & Hrun & Hin & Hout).
    { eapply Forall_impl; [exact Hall |]. intros [id' th'] Hsome. simpl in *.
      destruct (decide (id = id')) as [->|Hne].
      - rewrite lookup_insert_eq. eauto.
      - rewrite lookup_insert_ne by exact Hne. exact Hsome. }
    exists classes'. split; [exact Hrun |]. split.
    + intros id' th' Hmem. apply elem_of_cons in Hmem as [Heq|Hmem].
      * injection Heq as -> ->. rewrite Hout by exact Hid.
        now rewrite lookup_insert_eq, Hcl.
      * rewrite (Hin _ _ Hmem). rewrite lookup_insert_ne; [reflexivity |].
        intros ->. apply Hid. apply list_elem_of_fmap. exists (id', th'). auto.
    + intros id' Hnot. apply not_elem_of_cons in Hnot as [Hne Hnot].
      rewrite (Hout _ Hnot). now rewrite lookup_insert_ne.
Qed.

Lemma steps_NoDup : NoDup steps.*1.
Proof. refine (bool_decide_unpack _ _). vm_compute. exact I. Qed.

(** What [updateProgress] leaves on the page: the bar at [p], and on every
    step element the mark of its row. *)
Lemma updateProgress_marks p status st :
  stepsPresent st ->
  exists st',
    updateProgress p status st = Returns st'
    /\ pollInterval st' = pollInterval st
    /\ currentJobId st' = currentJobId st
    /\ outbox st' = outbox st
    /\ progressText (app st') = p
    /\ (forall id th, (id, th) ∈ steps ->
          stepClasses (app st') !! id = markStep p th <$> stepClasses (app st) !! id)
    /\ stepsPresent st'.
Proof.
  intros Hpres. unfold updateProgress.
  destruct (markSteps_spec p steps (stepClasses (app st)) steps_NoDup Hpres)
    as (classes' & Hrun & Hin & _).
  cbn [debugLog with_logs onApp with_app app with_progressBar stepClasses].
  rewrite Hrun. eexists. split; [reflexivity |]. cbn.
  repeat split; try reflexivity; [exact Hin |].
  unfold stepsPresent in *. cbn. rewrite Forall_forall in Hpres |- *.
  intros [id th] Hmem. cbn. rewrite (Hin _ _ Hmem).
  destruct (Hpres _ Hmem) as [cl Hcl]. cbn in Hcl. rewrite Hcl. cbn. eauto.
Qed.

(** The marks by progress: a step is [completed] from its threshold on, and
    [active] in the ten points below its threshold. *)
Lemma updateProgress_classes p status st id th :
  stepsPresent st -> (id, th) ∈ steps ->
  exists st' cl,
    updateProgress p status st = Returns st'
    /\ stepClasses (app st') !! id = Some cl
    /\ ("completed" ∈ cl <-> th <= p)
    /\ ("active" ∈ cl <-> th - 10 <= p < th).
Proof.
  intros Hpres Hmem.
  destruct (updateProgress_marks p status st Hpres) as (st' & Hrun & _ & _ & _ & _ & Hin & _).
  unfold stepsPresent in Hpres. rewrite Forall_forall in Hpres.
  destruct (Hpres _ Hmem) as [cl Hcl]. cbn in Hcl.
  exists st', (markStep p th cl). split; [exact Hrun |]. split.
  - now rewrite (Hin _ _ Hmem), Hcl.
  - split; [apply markStep_completed | apply markStep_active].
Qed.

(** C1. While the progress is in the first half of the Summarize range
    (40 to 60), the Summarize step is neither [active] nor [completed]: the
    highlighting does not follow the threshold table there. *)
Theorem updateProgress_summarize_not_active (p : Z) (status : list N) (st : State) :
  stepsPresent st -> 40 <= p < 50 ->
  exists st' cl,
    updateProgress p status st = Returns st'
    /\ stepClasses (app st') !! "step-summarize" = Some cl
    /\ ("active" ∉ cl) /\ ("completed" ∉ cl).
Proof.
  intros Hpres Hp.
  assert (Hmem : ("step-summarize", 60) ∈ steps).
  { unfold steps. do 4 apply list_elem_of_further. apply list_elem_of_here. }
  destruct (updateProgress_classes p status st _ _ Hpres Hmem)
    as (st' & cl & Hrun & Hcl & Hdone & Hact).
  exists st', cl. repeat split; [exact Hrun | exact Hcl | |].
  - rewrite Hact. lia.
  - rewrite Hdone. lia.
Qed.

Example updateProgress_at_55 :
  (fun st => elements <$> stepClasses (app st) !! "step-summarize")
    (stateOf (updateProgress 55 (lit "running") shippedPage)) = Some ["active"].
Proof. vm_compute. reflexivity. Qed.

Example updateProgress_at_45 :
  (fun st => elements <$> stepClasses (app st) !! "step-summarize")
    (stateOf (updateProgress 45 (lit "running") shippedPage)) = Some [].
Proof. vm_compute. reflexivity. Qed.

Example updateProgress_at_40 :
  (fun st => (elements <$> stepClasses (app st) !! "step-analyze",
              elements <$> stepClasses (app st) !! "step-summarize"))
    (stateOf (updateProgress 40 (lit "running") shippedPage))
  = (Some ["completed"], Some []).
Proof. vm_compute. reflexivity. Qed.

Lemma shippedPage_stepsPresent : stepsPresent shippedPage.
Proof.
  unfold stepsPresent. apply Forall_forall. intros [id th] Hmem.
  unfold steps in Hmem. repeat (apply elem_of_cons in Hmem as [Heq|Hmem];
    [injection Heq as -> ->; vm_compute; eauto |]).
  inversion Hmem.
Qed.

Lemma updateProgress_summarize_not_active_witness :
  exists st' cl,
    updateProgress 45 (lit "running") shippedPage = Returns st'
    /\ stepClasses (app st') !! "step-summarize" = Some cl
    /\ ("active" ∉ cl) /\ ("completed" ∉ cl).
Proof.
  apply (updateProgress_summarize_not_active 45 (lit "running") shippedPage).
  - exact shippedPage_stepsPresent.
  - lia.
Defined.

End ProgressFacts.

(** ** The polling loop (app.js, [checkJobStatus]) *)
Section PollingFacts.
Import JS Browser App.

(** Unfolds the state updates of the page so that a field can be read off. *)
Ltac page_fields :=
  cbn [debugLog fetch onApp Chatbot.onChat stopPolling
       with_currentJobId with_pollInterval with_nextTimer with_chatbotJobId
       with_chatbotInitialized with_listeners with_lastCompletedJob with_app
       with_chat with_logs with_outbox
       currentJobId pollInterval nextTimer chatbotJobId chatbotInitialized
       listeners lastCompletedJob app chat logs outbox] in *.

Lemma statusRequests_fetch r st :
  statusRequests (fetch r st) = (statusRequests st + (if isStatusRequest r then 1 else 0))%nat.
Proof.
  unfold statusRequests, fetch. cbn. rewrite List.filter_app, length_app. cbn.
  destruct (isStatusRequest r); reflexivity.
Qed.

(** Initialising the chat widget neither polls nor touches the poll timer,
    the job id or the elements of app.js. *)
Lemma initializeChatbot_frame j st :
  currentJobId (Chatbot.initializeChatbot j st) = currentJobId st
  /\ pollInterval (Chatbot.initializeChatbot j st) = pollInterval st
  /\ app (Chatbot.initializeChatbot j st) = app st
  /\ statusRequests (Chatbot.initializeChatbot j st) = statusRequests st.
Proof.
  unfold Chatbot.initializeChatbot, Chatbot.setupChatbotListeners,
    Chatbot.loadSuggestedQuestions, statusRequests.
  repeat (case_match; page_fields); page_fields;
    rewrite ?List.filter_app, ?app_nil_r; cbn; rewrite ?app_nil_r; auto.
Qed.

Lemma stopPolling_stops st : pollInterval (stopPolling st) = None.
Proof. unfold stopPolling. destruct (pollInterval st) eqn:H; [reflexivity | exact H]. Qed.

Lemma stopPolling_frame st :
  currentJobId (stopPolling st) = currentJobId st
  /\ app (stopPolling st) = app st
  /\ outbox (stopPolling st) = outbox st.
Proof. unfold stopPolling. destruct (pollInterval st); auto. Qed.

Lemma showError_frame msg st :
  pollInterval (showError msg st) = None
  /\ currentJobId (showError msg st) = currentJobId st
  /\ stepClasses (app (showError msg st)) = stepClasses (app st)
  /\ outbox (showError msg st) = outbox st.
Proof.
  unfold showError. split; [apply stopPolling_stops |].
  unfold stopPolling. page_fields. case_match; auto.
Qed.

Lemma showResults_frame st :
  pollInterval (showResults st) = pollInterval st
  /\ currentJobId (showResults st) = currentJobId st
  /\ stepClasses (app (showResults st)) = stepClasses (app st)
  /\ statusRequests (showResults st) = statusRequests st.
Proof.
  unfold showResults, fetchQuickStats. page_fields.
  match goal with |- context [Chatbot.initializeChatbot ?j ?s] =>
    destruct (initializeChatbot_frame j s) as (Hj & Hp & Ha & Hs) end.
  rewrite statusRequests_fetch. page_fields. rewrite Hj, Hp, Ha, Hs. cbn.
  repeat split; auto.
Qed.

(** One status answer: a request is made, and the timer is cleared exactly
    when the answer is terminal. *)
Lemma checkJobStatus_answer d st :
  truthyId (currentJobId st) = true -> stepsPresent st ->
  let st' := checkJobStatus (StatusOk d) st in
  currentJobId st' = currentJobId st
  /\ stepsPresent st'
  /\ statusRequests st' = S (statusRequests st)
  /\ pollInterval st' = (if terminal d then None else pollInterval st).
Proof.
  intros Hid Hpres. unfold checkJobStatus. rewrite Hid. cbn [negb].
  set (st1 := debugLog "APP" "INPUT: Status Data" _).
  assert (Hpres1 : stepsPresent st1) by exact Hpres.
  destruct (updateProgress_marks (progress d) (status d) st1 Hpres1)
    as (st2 & Hrun & Hpoll & Hjob & Hout & _ & _ & Hpres2).
  rewrite Hrun.
  assert (Hreq : statusRequests st2 = S (statusRequests st)).
  { unfold statusRequests. rewrite Hout. subst st1. page_fields.
    rewrite List.filter_app, length_app. cbn. lia. }
  unfold terminal, stepsPresent in *. destruct (isStatus "completed" d); cbn [orb].
  - destruct (showResults_frame (stopPolling (debugLog "APP" "Analysis Completed" st2)))
      as (Hp & Hj & Hc & Hs).
    rewrite Hp, Hj, Hc, Hs, stopPolling_stops.
    destruct (stopPolling_frame (debugLog "APP" "Analysis Completed" st2)) as (Hj' & Ha' & Ho').
    rewrite Hj', Ha'. unfold statusRequests. rewrite Ho'. auto.
  - destruct (isStatus "failed" d).
    + match goal with |- context [showError ?m ?s] =>
        destruct (showError_frame m s) as (Hp & Hj & Hc & Ho) end.
      rewrite Hp, Hj, Hc. unfold statusRequests. rewrite Ho.
      destruct (stopPolling_frame (debugLog "ERROR" "Analysis Failed" st2)) as (Hj' & Ha' & Ho').
      rewrite Hj', Ha', Ho'. auto.
    + auto.
Qed.

(** An answer that is no status (the request fails, or the gateway answers
    with an error status) ends the polling as well. *)
Lemma checkJobStatus_failure reply st :
  truthyId (currentJobId st) = true ->
  (forall d, reply <> StatusOk d) ->
  pollInterval (checkJobStatus reply st) = None.
Proof.
  intros Hid Hno. unfold checkJobStatus. rewrite Hid. cbn [negb].
  destruct reply as [msg|code|d]; [| | now destruct (Hno d)];
    unfold checkJobStatus_catch; apply showError_frame.
Qed.

Lemma tick_cleared r st : pollInterval st = None -> tick r st = st.
Proof. intros H. unfold tick. now rewrite H. Qed.

Lemma tick_set r st : is_Some (pollInterval st) -> tick r st = checkJobStatus r st.
Proof. intros [t H]. unfold tick. now rewrite H. Qed.

Lemma ticks_stopped rs : forall st,
  pollInterval st = None -> foldl (fun st r => tick r st) st rs = st.
Proof.
  induction rs as [|r rs IH]; intros st Hstop; [reflexivity |].
  cbn. rewrite (tick_cleared r st Hstop). apply IH, Hstop.
Qed.

(** While the timer is set, each period polls once, up to and including the
    first terminal answer; the timer is cleared by then and only then. *)
Lemma ticks_answers ds : forall st,
  truthyId (currentJobId st) = true -> stepsPresent st -> is_Some (pollInterval st) ->
  let st' := foldl (fun st r => tick r st) st (StatusOk <$> ds) in
  statusRequests st' = (statusRequests st + length (throughTerminal ds))%nat
  /\ (pollInterval st' = None <-> Exists (fun d => terminal d = true) ds).
Proof.
  induction ds as [|d ds IH]; intros st Hid Hpres [t Ht]; cbn.
  - split; [lia |]. rewrite Ht. split; [discriminate | inversion 1].
  - rewrite (tick_set (StatusOk d) st (ex_intro _ t Ht)).
    destruct (checkJobStatus_answer d st Hid Hpres) as (Hj & Hp & Hreq & Hpoll).
    destruct (terminal d) eqn:Hterm.
    + rewrite ticks_stopped by exact Hpoll. cbn. split; [lia |].
      split; [intros _; now left | intros _; exact Hpoll].
    + rewrite <- Hj in Hid. rewrite Ht in Hpoll.
      destruct (IH _ Hid Hp (ex_intro _ t Hpoll)) as (Hn & Hstop).
      cbn in Hn, Hstop. rewrite Hn, Hreq. cbn. split; [lia |].
      rewrite Hstop, Exists_cons. intuition congruence.
Qed.

(** C4. In a run of the polling loop whose answers are all status answers,
    the page polls once per period up to and including the first answer that
    is [completed] or [failed], never after it, and the timer is cleared
    exactly when such an answer has come: after any other status the loop
    keeps polling. *)
Theorem polling_until_terminal (st : State) (d : StatusData) (ds : list StatusData) :
  truthyId (currentJobId st) = true -> stepsPresent st ->
  let st' := pollingRun (StatusOk <$> d :: ds) st in
  statusRequests st' = (statusRequests st + length (throughTerminal (d :: ds)))%nat
  /\ (pollInterval st' = None <-> Exists (fun d => terminal d = true) (d :: ds)).
Proof.
  intros Hid Hpres. cbv zeta. unfold pollingRun. rewrite fmap_cons.
  unfold startPolling.
  set (st0 := with_pollInterval (Some (nextTimer st)) (with_nextTimer (S (nextTimer st)) st)).
  assert (Hid0 : truthyId (currentJobId st0) = true) by exact Hid.
  assert (Hpres0 : stepsPresent st0) by exact Hpres.
  assert (Hreq0 : statusRequests st0 = statusRequests st) by reflexivity.
  assert (Htimer : pollInterval st0 = Some (nextTimer st)) by reflexivity.
  destruct (checkJobStatus_answer d st0 Hid0 Hpres0) as (Hj & Hp & Hreq & Hpoll).
  cbn [throughTerminal]. destruct (terminal d) eqn:Hterm.
  - rewrite ticks_stopped by exact Hpoll. cbn. split; [lia |].
    split; [intros _; now left | intros _; exact Hpoll].
  - rewrite <- Hj in Hid0. rewrite Htimer in Hpoll.
    destruct (ticks_answers ds _ Hid0 Hp (ex_intro _ _ Hpoll)) as (Hn & Hstop).
    cbn in Hn, Hstop. rewrite Hn, Hreq, Hreq0. split; [cbn [length]; lia |].
    rewrite Hstop, Exists_cons. intuition congruence.
Qed.

(** A job that reports 10 and 20 percent and then completes: three polls,
    none for the fourth period. *)
Lemma polling_until_terminal_witness :
  let job := with_currentJobId (Some (lit "job-1")) shippedPage in
  let answer s p := {| status := lit s; progress := p; message := None |} in
  let first := answer "running" 10 in
  let rest := [answer "running" 20; answer "completed" 100; answer "completed" 100] in
  let st' := pollingRun (StatusOk <$> first :: rest) job in
  statusRequests st' = (statusRequests job + length (throughTerminal (first :: rest)))%nat
  /\ (pollInterval st' = None <-> Exists (fun d => terminal d = true) (first :: rest)).
Proof.
  intros job answer first rest.
  apply (polling_until_terminal job first rest).
  - reflexivity.
  - exact shippedPage_stepsPresent.
Defined.

End PollingFacts.

(** ** The chat widget (chatbot script) *)
Section ChatFacts.
Import JS Browser Chatbot.

(** C6. The chips shown are the first six suggestions at most, in the order
    in which they were given; a page without the container shows none. *)
Theorem displaySuggestedQuestions_cap (suggestions : list (list N)) (st : State) :
  let st' := displaySuggestedQuestions suggestions st in
  suggestedQuestions (chat st')
  = (fun _ => take 6 suggestions) <$> suggestedQuestions (chat st)
  /\ (forall chips, suggestedQuestions (chat st') = Some chips ->
        (length chips <= 6)%nat /\ chips `prefix_of` suggestions).
Proof.
  cbv zeta. unfold displaySuggestedQuestions. cbn [debugLog with_logs chat].
  destruct (suggestedQuestions (chat st)) as [old|] eqn:Hc; cbn.
  - split; [reflexivity |]. intros chips [= <-]. split.
    + rewrite length_take. lia.
    + apply prefix_take.
  - rewrite Hc. split; [reflexivity | discriminate].
Qed.

Lemma trimStart_blank s :
  trimStart s = [] <-> Forall (fun c => isWhiteSpace c = true) s.
Proof.
  induction s as [|c s IH]; cbn.
  - split; [constructor | reflexivity].
  - destruct (isWhiteSpace c) eqn:Hc.
    + rewrite IH. split; [now constructor | now inversion 1].
    + split; [discriminate | inversion 1; congruence].
Qed.

Lemma trimStart_head s c s' : trimStart s = c :: s' -> isWhiteSpace c = false.
Proof.
  induction s as [|x s IH]; cbn; [discriminate |].
  destruct (isWhiteSpace x) eqn:Hx; [exact IH | intros [= <- _]; exact Hx].
Qed.

(** A question is blank after trimming exactly when it consists of white
    space only. *)
Lemma trim_blank s : trim s = [] <-> Forall (fun c => isWhiteSpace c = true) s.
Proof.
  unfold trim, trimEnd. split.
  - intros H. apply (f_equal (@rev N)) in H. rewrite rev_involutive in H. cbn in H.
    apply trimStart_blank in H. apply Forall_rev in H. rewrite rev_involutive in H.
    destruct (trimStart s) as [|c s'] eqn:Hs; [now apply trimStart_blank |].
    apply trimStart_head in Hs. inversion H; congruence.
  - intros H. apply trimStart_blank in H. now rewrite H.
Qed.

(** C7. A question that is blank after trimming is refused on the spot: the
    call returns, the only trace is in the debug log, which ends with the
    Empty Question error; no request leaves the page, and the transcript, the
    input and every other part of the state stay as they were. *)
Theorem sendMessage_blank (reply : ChatReply) (st : State) (value : list N) (disabled : bool) :
  input (chat st) = Some (value, disabled) ->
  trim value = [] ->
  sendMessage reply st
  = Returns (with_logs (logs st ++ [("CHATBOT", "sendMessage called");
                                    ("CHATBOT", "INPUT: User Question");
                                    ("ERROR", "Empty Question")]) st)
  /\ outbox (stateOf (sendMessage reply st)) = outbox st
  /\ chat (stateOf (sendMessage reply st)) = chat st.
Proof.
  intros Hin Hblank.
  assert (Hrun : sendMessage reply st
                 = Returns (with_logs (logs st ++ [("CHATBOT", "sendMessage called");
                                                   ("CHATBOT", "INPUT: User Question");
                                                   ("ERROR", "Empty Question")]) st)).
  { unfold sendMessage. cbn [debugLog with_logs chat]. rewrite Hin, Hblank. cbn.
    unfold debugLog, with_logs. cbn. now rewrite <- !app_assoc. }
  rewrite Hrun. auto.
Qed.

Lemma sendMessage_blank_witness :
  let st := onChat (with_input (Some (lit "  ", false))) App.shippedPage in
  sendMessage FetchRejected st
  = Returns (with_logs (logs st ++ [("CHATBOT", "sendMessage called");
                                    ("CHATBOT", "INPUT: User Question");
                                    ("ERROR", "Empty Question")]) st)
  /\ outbox (stateOf (sendMessage FetchRejected st)) = outbox st
  /\ chat (stateOf (sendMessage FetchRejected st)) = chat st.
Proof.
  intros st.
  apply (sendMessage_blank FetchRejected st (lit "  ") false); reflexivity.
Defined.

End ChatFacts.

(** ** Registration of the chat listeners ([initializeChatbot]) *)
Section ListenerFacts.
Import JS Browser Chatbot.

Lemma sameSetup_refl st : sameSetup st st.
Proof. repeat split. Qed.

Lemma setupRuns_debugLog c a st :
  setupRuns (debugLog c a st)
  = (setupRuns st + (if decide ((c, a) = setupEntry) then 1 else 0))%nat.
Proof.
  unfold setupRuns, debugLog. cbn [with_logs logs].
  rewrite filter_app, length_app, filter_cons, filter_nil.
  destruct (decide ((c, a) = setupEntry)); reflexivity.
Qed.

Lemma sameSetup_debugLog c a st x :
  (c, a) <> setupEntry -> sameSetup st x -> sameSetup st (debugLog c a x).
Proof.
  intros Hne (Hi & Hl & Hr). repeat split; [exact Hi | exact Hl |].
  rewrite setupRuns_debugLog, Hr. destruct (decide ((c, a) = setupEntry)); [contradiction | lia].
Qed.

Lemma sameSetup_fetch r st x : sameSetup st x -> sameSetup st (fetch r x).
Proof. intros H. exact H. Qed.

Lemma sameSetup_onChat f st x : sameSetup st x -> sameSetup st (onChat f x).
Proof. intros H. exact H. Qed.

Lemma sameSetup_with_chat d st x : sameSetup st x -> sameSetup st (with_chat d x).
Proof. intros H. exact H. Qed.

Lemma sameSetup_with_chatbotJobId j st x :
  sameSetup st x -> sameSetup st (with_chatbotJobId j x).
Proof. intros H. exact H. Qed.

Create HintDb setup discriminated.

#[local] Hint Resolve sameSetup_refl sameSetup_fetch sameSetup_onChat sameSetup_with_chat
  sameSetup_with_chatbotJobId : setup.
#[local] Hint Extern 2 (sameSetup _ (debugLog _ _ _)) =>
  apply sameSetup_debugLog; [discriminate |] : setup.

Lemma sameSetup_addMessageToChat text sender st x :
  sameSetup st x -> sameSetup st (addMessageToChat text sender x).
Proof. intros H. unfold addMessageToChat. case_match; auto 10 with setup. Qed.

Lemma sameSetup_removeTypingIndicator st x :
  sameSetup st x -> sameSetup st (removeTypingIndicator x).
Proof. intros H. unfold removeTypingIndicator. case_match; auto with setup. Qed.

Lemma sameSetup_displaySuggestedQuestions l st x :
  sameSetup st x -> sameSetup st (displaySuggestedQuestions l x).
Proof. intros H. unfold displaySuggestedQuestions. case_match; auto with setup. Qed.

Lemma sameSetup_addTypingIndicator st x :
  sameSetup st x -> sameSetup st (addTypingIndicator x).1.
Proof. intros H. unfold addTypingIndicator. case_match; cbn; auto with setup. Qed.

Lemma sameSetup_sendMessage_finally st x :
  sameSetup st x -> sameSetup st (sendMessage_finally x).
Proof. intros H. exact H. Qed.

Lemma sameSetup_displaySuggestedQuestions_notArray st x :
  sameSetup st x -> sameSetup st (stateOf (displaySuggestedQuestions_notArray x)).
Proof.
  intros H. unfold displaySuggestedQuestions_notArray. case_match; cbn [stateOf];
    auto with setup.
Qed.

#[local] Hint Resolve sameSetup_addMessageToChat sameSetup_removeTypingIndicator
  sameSetup_displaySuggestedQuestions sameSetup_addTypingIndicator
  sameSetup_sendMessage_finally : setup.

Lemma sameSetup_sendMessage_try jobId question indicator reply st x :
  sameSetup st x ->
  match sendMessage_try jobId question indicator reply x with
  | inl x' => sameSetup st x'
  | inr (x', _) => sameSetup st x'
  end.
Proof.
  intros H. unfold sendMessage_try. repeat case_match; simplify_eq; auto 12 with setup;
    match goal with
    | Heq : displaySuggestedQuestions_notArray ?y = _ |- _ =>
        let K := fresh "K" in
        assert (K : sameSetup st (stateOf (displaySuggestedQuestions_notArray y)))
          by (apply sameSetup_displaySuggestedQuestions_notArray; auto 12 with setup);
        rewrite Heq in K; exact K
    end.
Qed.

Lemma sameSetup_sendMessage reply st : sameSetup st (stateOf (sendMessage reply st)).
Proof.
  unfold sendMessage.
  destruct (input (chat (debugLog "CHATBOT" "sendMessage called" st))) as [[value ?]|];
    cbn [stateOf]; [| auto with setup].
  destruct (negb (truthy (trim value))); cbn [stateOf]; [auto with setup |].
  destruct (negb (truthyId _)); cbn [stateOf]; [auto 6 with setup |].
  destruct (sendBtn _); cbn [stateOf]; [| auto 6 with setup].
  match goal with |- context [addTypingIndicator ?x] =>
    pose proof (sameSetup_addTypingIndicator st x) as Hind;
    destruct (addTypingIndicator x) as [x1 indicator] end.
  cbn [fst] in Hind.
  match goal with |- context [sendMessage_try ?j ?q ?i ?r ?x] =>
    pose proof (sameSetup_sendMessage_try j q i r st x) as Htry;
    destruct (sendMessage_try j q i r x) as [x2|[x2 attached]] end.
  - cbn [stateOf]. apply sameSetup_sendMessage_finally, Htry.
    auto 10 with setup.
  - assert (Hx2 : sameSetup st x2) by (apply Htry; auto 10 with setup).
    destruct indicator, attached; cbn [negb stateOf]; auto 8 with setup.
Qed.

Lemma sameSetup_resume reply st : sameSetup st (loadSuggestedQuestions_resume reply st).
Proof.
  unfold loadSuggestedQuestions_resume. repeat case_match; auto 6 with setup;
    match goal with
    | Heq : displaySuggestedQuestions_notArray ?y = _ |- _ =>
        let K := fresh "K" in
        assert (K : sameSetup st (stateOf (displaySuggestedQuestions_notArray y)))
          by (apply sameSetup_displaySuggestedQuestions_notArray; auto 6 with setup);
        rewrite Heq in K; cbn [stateOf] in K; auto 6 with setup
    end.
Qed.

Lemma sameSetup_setupOnce st st' : sameSetup st st' -> setupOnce st -> setupOnce st'.
Proof.
  intros (Hi & Hl & Hr). unfold setupOnce. rewrite Hi, Hl, Hr. auto.
Qed.

Lemma setupChatbotListeners_first st :
  listeners st = [] -> setupRuns st = 0%nat ->
  setupRuns (setupChatbotListeners st) = 1%nat
  /\ (listeners (setupChatbotListeners st) = []
      \/ listeners (setupChatbotListeners st) = registered).
Proof.
  intros Hnil Hzero.
  assert (Hone : setupRuns (debugLog "CHATBOT" "Setting up event listeners" st) = 1%nat).
  { rewrite setupRuns_debugLog, Hzero. reflexivity. }
  unfold setupChatbotListeners.
  set (st1 := debugLog "CHATBOT" "Setting up event listeners" st) in *.
  assert (Hl1 : listeners st1 = []) by exact Hnil.
  assert (Hmiss : setupRuns (debugLog "CHATBOT" "ERROR: Missing DOM elements" st1) = 1%nat
                  /\ listeners (debugLog "CHATBOT" "ERROR: Missing DOM elements" st1) = []).
  { split; [| exact Hl1]. rewrite setupRuns_debugLog, Hone.
    destruct (decide (_ = setupEntry)) as [Heq|_]; [discriminate Heq | reflexivity]. }
  destruct (toggleBtn (chat st1)), (closeBtn (chat st1)), (sendBtn (chat st1)),
    (input (chat st1)); try (split; [apply Hmiss | left; apply Hmiss]).
  split; [exact Hone |]. right. cbn [with_listeners listeners]. now rewrite Hl1.
Qed.

Lemma initializeChatbot_setupOnce jobId st :
  setupOnce st -> setupOnce (initializeChatbot jobId st).
Proof.
  intros Hinv. unfold initializeChatbot.
  set (st1 := match jobId with Some _ => _ | None => _ end).
  assert (Hsame : sameSetup st st1).
  { subst st1. unfold loadSuggestedQuestions. repeat case_match; auto 8 with setup. }
  destruct (chatbotInitialized st1) eqn:Hinit.
  - exact (sameSetup_setupOnce _ _ Hsame Hinv).
  - destruct Hsame as (Hi & Hl & Hr).
    destruct Hinv as [(_ & Hnil & Hzero)|(Htrue & _)]; [| congruence].
    rewrite <- Hl in Hnil. rewrite <- Hr in Hzero.
    destruct (setupChatbotListeners_first st1 Hnil Hzero) as (Hone & Hreg).
    right. split; [reflexivity |]. split; [| exact Hreg].
    rewrite setupRuns_debugLog.
    destruct (decide (_ = setupEntry)) as [Heq|_]; [discriminate Heq |].
    rewrite Nat.add_0_r. exact Hone.
Qed.

Lemma handle_setupOnce e st : setupOnce st -> setupOnce (handle e st).
Proof.
  destruct e as [jobId|reply|reply|d]; cbn [handle].
  - apply initializeChatbot_setupOnce.
  - apply sameSetup_setupOnce, sameSetup_sendMessage.
  - apply sameSetup_setupOnce, sameSetup_resume.
  - apply sameSetup_setupOnce. repeat split.
Qed.

Lemma run_setupOnce events : forall st,
  setupOnce st -> setupOnce (foldl (fun st e => handle e st) st events).
Proof.
  induction events as [|e events IH]; intros st Hinv; [exact Hinv |].
  cbn. apply IH, handle_setupOnce, Hinv.
Qed.

Lemma filter_length_mono {A} (P Q : A -> Prop)
    `{forall x, Decision (P x)} `{forall x, Decision (Q x)} (l : list A) :
  (forall x, P x -> Q x) -> (length (filter P l) <= length (filter Q l))%nat.
Proof.
  intros Himp. induction l as [|x l IH]; [reflexivity |].
  rewrite !filter_cons. destruct (decide (P x)) as [Hp|Hn].
  - destruct (decide (Q x)) as [_|Hq]; [cbn; lia | now destruct Hq; apply Himp].
  - destruct (decide (Q x)); cbn; lia.
Qed.

Lemma sendMessageCalls_le e h st :
  (sendMessageCalls e h st
   <= length (filter (fun l => l_handler l = h) (listeners st)))%nat.
Proof.
  unfold sendMessageCalls. apply filter_length_mono. intros l Hl.
  apply andb_true_iff in Hl as [Hl _]. apply andb_true_iff in Hl as [_ Hl].
  now apply bool_decide_eq_true in Hl.
Qed.

(** C10. Whatever happens on the page after the script is loaded, and however
    often and with whatever job id [initializeChatbot] is called,
    [setupChatbotListeners] runs at most once, every element carries at most
    one listener, and an event makes each handler call [sendMessage] at most
    once. *)
Theorem setupChatbotListeners_once (st : State) (events : list PageEvent) :
  loaded st ->
  let st' := foldl (fun st e => handle e st) st events in
  (setupRuns st' <= 1)%nat
  /\ (forall t, (listenersOn t st' <= 1)%nat)
  /\ (forall e h, (sendMessageCalls e h st' <= 1)%nat).
Proof.
  intros Hload. cbv zeta.
  assert (Hinv : setupOnce (foldl (fun st e => handle e st) st events)).
  { apply run_setupOnce. left. exact Hload. }
  set (st' := foldl _ st events) in *.
  assert (Hreg : listeners st' = [] \/ listeners st' = registered).
  { destruct Hinv as [(_ & Hnil & _)|(_ & _ & Hreg)]; auto. }
  split; [| split].
  - destruct Hinv as [(_ & _ & ->)|(_ & -> & _)]; lia.
  - intros t. unfold listenersOn.
    destruct Hreg as [->| ->]; [cbn; lia |]. destruct t; vm_compute; lia.
  - intros e h. etransitivity; [apply sendMessageCalls_le |].
    destruct Hreg as [->| ->]; [cbn; lia |]. destruct h; vm_compute; lia.
Qed.

(** The page is loaded without a stored job, a job completes, a question is
    sent, a second job completes. *)
Lemma setupChatbotListeners_once_witness :
  let events := [ Initialize None; Initialize (Some (lit "job-1"));
                  Send FetchRejected; Initialize (Some (lit "job-2")) ] in
  let st' := foldl (fun st e => handle e st) App.shippedPage events in
  (setupRuns st' <= 1)%nat
  /\ (forall t, (listenersOn t st' <= 1)%nat)
  /\ (forall e h, (sendMessageCalls e h st' <= 1)%nat).
Proof.
  intros events.
  apply (setupChatbotListeners_once App.shippedPage events).
  repeat split.
Defined.

End ListenerFacts.

(** ** The gateway's client of the backend service *)
Section GatewayFacts.
Import Gateway.

Variable ReadJobStatus : option Json -> Task (option JobStatus).
Variable ReadAnalysisResults : option Json -> Task (option AnalysisResults).


(** The client itself checks nothing: whatever the request, it is sent. *)
Lemma StartAnalysisAsync_sends request c :
  sent (StartAnalysisAsync ReadJobStatus request c).1 = sent c ++ [analyzeRequest request].
Proof.
  unfold StartAnalysisAsync, SendAsync.
  destruct (backend c _) as [r|]; [| reflexivity].
  destruct (IsSuccessStatusCode r); cbn; [| reflexivity].
  destruct (ReadJobStatus _) as [[job|]|]; reflexivity.
Qed.

Variable usableSource : AnalysisRequest -> bool.

(** C2. A request without a usable source specifier is answered
    [InvalidRequest] by the gateway and nothing is sent to the backend. *)
Theorem Analyze_rejects_at_boundary (request : AnalysisRequest) (c : HttpClient) :
  usableSource request = false ->
  Analyze ReadJobStatus usableSource request c = (c, InvalidRequest)
  /\ sent (Analyze ReadJobStatus usableSource request c).1 = sent c.
Proof.
  intros Hno. unfold Analyze. rewrite Hno. split; reflexivity.
Qed.

(** A usable request does reach the backend. *)
Lemma Analyze_forwards request c :
  usableSource request = true ->
  sent (Analyze ReadJobStatus usableSource request c).1 = sent c ++ [analyzeRequest request].
Proof.
  intros Hyes. unfold Analyze. rewrite Hyes.
  rewrite <- StartAnalysisAsync_sends.
  destruct (StartAnalysisAsync ReadJobStatus request c) as [c' [job|]]; reflexivity.
Qed.

(** What [SendChatMessageAsync] makes of the members of a successful answer. *)
Lemma SendChatMessageAsync_success jobId question includeHistory c r result :
  backend c (chatRequest jobId question includeHistory) = Result r ->
  IsSuccessStatusCode r = true ->
  Content r = Some (JObject result) ->
  (SendChatMessageAsync jobId question includeHistory c).2
  = match result !! "answer" with
    | Some (JString s) => Result s
    | Some JNull | None => Result NoResponse
    | Some _ => Faulted
    end.
Proof.
  intros Hb Hs Hc. unfold SendChatMessageAsync, SendAsync. rewrite Hb, Hs, Hc. cbn.
  destruct (result !! "answer") as [[]|]; reflexivity.
Qed.

Lemma mapM_GetString (l : list string) :
  mapM (fun i => match GetString i with Result s => Some s | Faulted => None end)
       (JString <$> l) = Some (Some <$> l).
Proof.
  induction l as [|x l IH]; [reflexivity |].
  cbn. cbn in IH. now rewrite IH.
Qed.





(** X26. For a successful chat request the client returns the answer text
    and nothing else: the string of the [answer] member, the fixed text when
    the member is missing or null, and a fault when it is any other value;
    members other than [answer], suggested questions among them, have no
    effect on what is returned. *)
Theorem SendChatMessageAsync_answer_only
    (jobId question : string) (includeHistory : bool) (c : HttpClient)
    (r : HttpResponseMessage) (result : gmap string Json) :
  backend c (chatRequest jobId question includeHistory) = Result r ->
  IsSuccessStatusCode r = true ->
  Content r = Some (JObject result) ->
  (SendChatMessageAsync jobId question includeHistory c).2
  = match result !! "answer" with
    | Some (JString s) => Result s
    | Some JNull | None => Result NoResponse
    | Some _ => Faulted
    end
  /\ (forall other : gmap string Json,
        other !! "answer" = result !! "answer" ->
        (SendChatMessageAsync jobId question includeHistory (answering (ok200 other))).2
        = (SendChatMessageAsync jobId question includeHistory c).2).
Proof.
  intros Hb Hs Hc.
  rewrite (SendChatMessageAsync_success _ _ _ c r result Hb Hs Hc).
  split; [reflexivity |]. intros other Hsame.
  rewrite (SendChatMessageAsync_success _ _ _ _ (ok200 other) other) by reflexivity.
  now rewrite Hsame.
Qed.

End GatewayFacts.

Section GatewayExamples.
Import Gateway.

Lemma SendChatMessageAsync_answer_only_witness :
  (SendChatMessageAsync "job-1" "Why?" true (answering (ok200 withSuggestion))).2
  = match withSuggestion !! "answer" with
    | Some (JString s) => Result s
    | Some JNull | None => Result NoResponse
    | Some _ => Faulted
    end
  /\ (forall other : gmap string Json,
        other !! "answer" = withSuggestion !! "answer" ->
        (SendChatMessageAsync "job-1" "Why?" true (answering (ok200 other))).2
        = (SendChatMessageAsync "job-1" "Why?" true (answering (ok200 withSuggestion))).2).
Proof.
  apply (SendChatMessageAsync_answer_only "job-1" "Why?" true
           (answering (ok200 withSuggestion)) (ok200 withSuggestion) withSuggestion);
    reflexivity.
Defined.

(** Nothing can read the suggested questions of the backend's chat answer
    off what [SendChatMessageAsync] returns: two answers that differ only in
    them give the same result. *)
Lemma chat_result_drops_suggestions :
  ~ exists recover : Task string -> option Json,
      forall members : gmap string Json,
        recover (SendChatMessageAsync "job-1" "Why?" true (answering (ok200 members))).2
        = members !! "suggested_questions".
Proof.
  intros [recover Hrec].
  pose proof (Hrec withSuggestion) as H1.
  pose proof (Hrec (delete "suggested_questions" withSuggestion)) as H2.
  assert (Hsame :
    (SendChatMessageAsync "job-1" "Why?" true (answering (ok200 withSuggestion))).2
    = (SendChatMessageAsync "job-1" "Why?" true
         (answering (ok200 (delete "suggested_questions" withSuggestion)))).2).
  { rewrite (SendChatMessageAsync_success _ _ _ _ (ok200 withSuggestion) withSuggestion)
      by reflexivity.
    rewrite (SendChatMessageAsync_success _ _ _ _
               (ok200 (delete "suggested_questions" withSuggestion))
               (delete "suggested_questions" withSuggestion)) by reflexivity.
    rewrite lookup_delete_ne by discriminate. reflexivity. }
  rewrite Hsame, H2 in H1. rewrite lookup_delete_eq in H1.
  unfold withSuggestion in H1. rewrite lookup_insert_eq in H1. discriminate H1.
Qed.


(** The response of the chat action on [chatBackend], and the requests the
    backend has received for it. *)
Example Chat_on_chatBackend :
  (Chat "job-1" "Why?" true chatBackend).2
  = ChatAnswered {| Answer := "Mostly delivery times.";
                    SuggestedQuestions := Some [Some "What do customers praise?";
                                                Some "What do they complain about?"] |}
  /\ sent (Chat "job-1" "Why?" true chatBackend).1
     = [chatRequest "job-1" "Why?" true; suggestionsRequest "job-1"].
Proof. split; reflexivity. Qed.

Lemma Analyze_rejects_at_boundary_witness :
  let request := {| Url := None; HtmlContent := Some ""; Email := Some "a@b.c";
                    Emails := None; CustomPrompt := None; SearchMethod := Some "urls" |} in
  let c := answering (ok200 ∅) in
  Analyze (fun _ => Faulted) hasSource request c = (c, InvalidRequest)
  /\ sent (Analyze (fun _ => Faulted) hasSource request c).1 = sent c.
Proof.
  intros request c.
  apply (Analyze_rejects_at_boundary (fun _ => Faulted) hasSource request c).
  reflexivity.
Defined.

End GatewayExamples.

(** ** The Job Manager's progress updates *)
Section JobManagerFacts.
Import JobManager.

(** A call never lowers the progress of a job and never removes or creates
    one. *)
Lemma call_progress (c : ProgressCall) (jobs : gmap string Job) (jobId : string) :
  match jobs !! jobId with
  | Some j => exists j', call c jobs !! jobId = Some j' /\ progress j <= progress j'
  | None => call c jobs !! jobId = None
  end.
Proof.
  unfold call, UpdateProgress.
  destruct (jobs !! jobId) as [j|] eqn:Hj.
  - destruct (jobs !! c_jobId c) as [j0|] eqn:Hj0; [| exists j; split; [exact Hj | lia]].
    destruct (isTerminal (status j0)); [exists j; split; [exact Hj | lia] |].
    destruct (Z.ltb_spec (c_progress c) (progress j0)) as [Hlt|Hge];
      [exists j; split; [exact Hj | lia] |].
    destruct (decide (c_jobId c = jobId)) as [Heq|Hne].
    + subst jobId. rewrite lookup_insert_eq. eexists. split; [reflexivity |].
      cbn. assert (j0 = j) by congruence. subst j0. exact Hge.
    + rewrite lookup_insert_ne by exact Hne. exists j. split; [exact Hj | lia].
  - destruct (jobs !! c_jobId c) as [j0|] eqn:Hj0; [| exact Hj].
    destruct (isTerminal (status j0)); [exact Hj |].
    destruct (c_progress c <? progress j0); [exact Hj |].
    rewrite lookup_insert_ne; [exact Hj | congruence].
Qed.

Lemma observed_unknown jobId calls : forall jobs : gmap string Job,
  jobs !! jobId = None -> observed jobId calls jobs = [].
Proof.
  induction calls as [|c calls IH]; intros jobs Hnone; cbn; unfold GetStatus; rewrite Hnone.
  - reflexivity.
  - cbn. apply IH. pose proof (call_progress c jobs jobId) as H. now rewrite Hnone in H.
Qed.

Lemma observed_known jobId calls : forall (jobs : gmap string Job) j,
  jobs !! jobId = Some j ->
  StronglySorted Z.le (observed jobId calls jobs)
  /\ Forall (fun p => progress j <= p) (observed jobId calls jobs).
Proof.
  induction calls as [|c calls IH]; intros jobs j Hj; cbn; unfold GetStatus; rewrite Hj.
  - split; repeat constructor. lia.
  - pose proof (call_progress c jobs jobId) as H. rewrite Hj in H.
    destruct H as (j' & Hj' & Hle). destruct (IH _ _ Hj') as (Hsorted & Hbound).
    assert (Hall : Forall (fun p => progress j <= p) (observed jobId calls (call c jobs))).
    { eapply Forall_impl; [exact Hbound |]. cbn. intros p Hp. lia. }
    cbn. split; constructor; auto. lia.
Qed.

(** C3. Whatever [UpdateProgress] calls are made, on this job or on others,
    the progress values that [GetStatus] shows for a job, taken before the
    first call and after each call, never decrease. *)
Theorem observed_progress_monotone
    (jobId : string) (calls : list ProgressCall) (jobs : gmap string Job) :
  StronglySorted Z.le (observed jobId calls jobs).
Proof.
  destruct (jobs !! jobId) as [j|] eqn:Hj.
  - exact (proj1 (observed_known jobId calls jobs j Hj)).
  - rewrite (observed_unknown jobId calls jobs Hj). constructor.
Qed.

(** A decrease is refused: the record stays as it is. *)
Lemma UpdateProgress_rejects_decrease jobId p msg (jobs : gmap string Job) j :
  jobs !! jobId = Some j -> p < progress j -> UpdateProgress jobId p msg jobs = jobs.
Proof.
  intros Hj Hlt. unfold UpdateProgress. rewrite Hj.
  destruct (isTerminal (status j)); [reflexivity |].
  destruct (Z.ltb_spec p (progress j)); [reflexivity | lia].
Qed.

End JobManagerFacts.

(* ===================================================================== *)
(** * Part III: further properties of the code *)
(* ===================================================================== *)

(** ** Step marks ([updateProgress]) *)
Section ProgressMarks.
Import JS Browser App.

(** The rows of the table, one by one. *)
Lemma steps_rows id th :
  (id, th) ∈ steps ->
  (id, th) = ("step-init", 10) \/ (id, th) = ("step-download", 20)
  \/ (id, th) = ("step-extract", 30) \/ (id, th) = ("step-analyze", 40)
  \/ (id, th) = ("step-summarize", 60) \/ (id, th) = ("step-recommend", 75)
  \/ (id, th) = ("step-pdf", 90) \/ (id, th) = ("step-complete", 100).
Proof.
  unfold steps. rewrite !elem_of_cons, elem_of_nil. tauto.
Qed.

(** The classes of a row's element after [updateProgress], read off the
    state that the call returns. *)
Lemma updateProgress_row p status st st' id th cl :
  stepsPresent st -> updateProgress p status st = Returns st' ->
  (id, th) ∈ steps -> stepClasses (app st') !! id = Some cl ->
  ("completed" ∈ cl <-> th <= p) /\ ("active" ∈ cl <-> th - 10 <= p < th).
Proof.
  intros Hpres Hrun Hmem Hcl.
  destruct (updateProgress_marks p status st Hpres) as (st2 & Hrun2 & _ & _ & _ & _ & Hin & _).
  rewrite Hrun in Hrun2. injection Hrun2 as <-.
  rewrite (Hin _ _ Hmem) in Hcl.
  destruct (stepClasses (app st) !! id) as [cl0|]; [| discriminate Hcl].
  injection Hcl as <-. split; [apply markStep_completed | apply markStep_active].
Qed.

(** X1. After [updateProgress] no step is both active and completed, and at
    most one step of the table is active. *)
Theorem updateProgress_marks_consistent (p : Z) (status : list N) (st st' : State) :
  stepsPresent st -> updateProgress p status st = Returns st' ->
  (forall id th cl, (id, th) ∈ steps -> stepClasses (app st') !! id = Some cl ->
     ~ ("active" ∈ cl /\ "completed" ∈ cl))
  /\ (forall id1 th1 cl1 id2 th2 cl2,
        (id1, th1) ∈ steps -> (id2, th2) ∈ steps ->
        stepClasses (app st') !! id1 = Some cl1 ->
        stepClasses (app st') !! id2 = Some cl2 ->
        "active" ∈ cl1 -> "active" ∈ cl2 -> id1 = id2).
Proof.
  intros Hpres Hrun. split.
  - intros id th cl Hmem Hcl [Hact Hdone].
    destruct (updateProgress_row p status st st' id th cl Hpres Hrun Hmem Hcl) as [Hc Ha].
    apply Hc in Hdone. apply Ha in Hact. lia.
  - intros id1 th1 cl1 id2 th2 cl2 Hm1 Hm2 Hc1 Hc2 Ha1 Ha2.
    destruct (updateProgress_row p status st st' id1 th1 cl1 Hpres Hrun Hm1 Hc1) as [_ H1].
    destruct (updateProgress_row p status st st' id2 th2 cl2 Hpres Hrun Hm2 Hc2) as [_ H2].
    apply H1 in Ha1. apply H2 in Ha2.
    apply steps_rows in Hm1, Hm2.
    repeat (destruct Hm1 as [Hm1|Hm1]); injection Hm1 as -> ->;
      repeat (destruct Hm2 as [Hm2|Hm2]); injection Hm2 as -> ->;
      first [reflexivity | lia].
Qed.

Lemma updateProgress_marks_consistent_witness :
  let st' := stateOf (updateProgress 55 (lit "running") shippedPage) in
  (forall id th cl, (id, th) ∈ steps -> stepClasses (app st') !! id = Some cl ->
     ~ ("active" ∈ cl /\ "completed" ∈ cl))
  /\ (forall id1 th1 cl1 id2 th2 cl2,
        (id1, th1) ∈ steps -> (id2, th2) ∈ steps ->
        stepClasses (app st') !! id1 = Some cl1 ->
        stepClasses (app st') !! id2 = Some cl2 ->
        "active" ∈ cl1 -> "active" ∈ cl2 -> id1 = id2).
Proof.
  intros st'.
  apply (updateProgress_marks_consistent 55 (lit "running") shippedPage st').
  - exact shippedPage_stepsPresent.
  - vm_compute. reflexivity.
Defined.

(** X2. The completed steps are an initial part of the table: when a step is
    completed, so is every step with a lower threshold. *)
Theorem updateProgress_completed_prefix (p : Z) (status : list N) (st st' : State)
    (id1 id2 : string) (th1 th2 : Z) (cl1 cl2 : gset string) :
  stepsPresent st -> updateProgress p status st = Returns st' ->
  (id1, th1) ∈ steps -> (id2, th2) ∈ steps -> th1 <= th2 ->
  stepClasses (app st') !! id1 = Some cl1 ->
  stepClasses (app st') !! id2 = Some cl2 ->
  "completed" ∈ cl2 -> "completed" ∈ cl1 /\ "active" ∉ cl1.
Proof.
  intros Hpres Hrun Hm1 Hm2 Hle Hc1 Hc2 Hdone.
  destruct (updateProgress_row p status st st' id1 th1 cl1 Hpres Hrun Hm1 Hc1) as [H1 A1].
  destruct (updateProgress_row p status st st' id2 th2 cl2 Hpres Hrun Hm2 Hc2) as [H2 _].
  apply H2 in Hdone. split; [apply H1; lia | rewrite A1; lia].
Qed.

Lemma updateProgress_completed_prefix_witness :
  "completed" ∈ ({["completed"]} : gset string)
  /\ "active" ∉ ({["completed"]} : gset string).
Proof.
  apply (updateProgress_completed_prefix 55 (lit "running") shippedPage
           (stateOf (updateProgress 55 (lit "running") shippedPage))
           "step-init" "step-analyze" 10 40 {["completed"]} {["completed"]}).
  - exact shippedPage_stepsPresent.
  - vm_compute. reflexivity.
  - apply list_elem_of_here.
  - do 3 apply list_elem_of_further. apply list_elem_of_here.
  - lia.
  - vm_compute. reflexivity.
  - vm_compute. reflexivity.
  - apply elem_of_singleton. reflexivity.
Defined.

Lemma markStep_overwrites p q th cl : markStep p th (markStep q th cl) = markStep p th cl.
Proof.
  apply set_eq. intros x. unfold markStep.
  destruct (p >=? th), (p >=? th - 10), (q >=? th), (q >=? th - 10);
    repeat first [rewrite elem_of_difference | rewrite elem_of_union
                 | rewrite elem_of_singleton];
    destruct (decide (x = "active")) as [Ha|Ha];
    destruct (decide (x = "completed")) as [Hc|Hc];
    try (rewrite Ha in Hc; discriminate Hc); intuition congruence.
Qed.

(** The state that [updateProgress] returns on a page with every step. *)
Lemma updateProgress_state p status st :
  stepsPresent st ->
  exists classes',
    markSteps p steps (stepClasses (app st)) = (classes', true)
    /\ updateProgress p status st
       = Returns (debugLog "PROGRESS" "OUTPUT: Steps Updated"
                    (onApp (with_stepClasses classes')
                       (debugLog "PROGRESS" "OUTPUT: Progress Bar Updated"
                          (onApp (with_progressBar p)
                             (debugLog "PROGRESS" "INPUT: Update Progress" st))))).
Proof.
  intros Hpres.
  destruct (markSteps_spec p steps (stepClasses (app st)) steps_NoDup Hpres)
    as (classes' & Hrun & _).
  exists classes'. split; [exact Hrun |]. unfold updateProgress.
  cbn [debugLog with_logs onApp with_app app with_progressBar stepClasses].
  now rewrite Hrun.
Qed.

(** X3. The marks and the bar show the latest progress only: a call with a
    progress that is not negative, after an earlier call with any progress,
    leaves the elements of app.js as the call alone would. (A negative
    progress is no valid width: the bar then keeps what the earlier call
    gave it.) *)
Theorem updateProgress_latest_wins (p q : Z) (s1 s2 : list N) (st : State) :
  stepsPresent st -> 0 <= p ->
  app (stateOf (updateProgress p s2 (stateOf (updateProgress q s1 st))))
  = app (stateOf (updateProgress p s2 st)).
Proof.
  intros Hpres Hp. apply Z.leb_le in Hp.
  destruct (updateProgress_state q s1 st Hpres) as (c1 & Hc1 & ->).
  cbn [stateOf].
  set (st1 := debugLog "PROGRESS" "OUTPUT: Steps Updated" _).
  assert (Hpres1 : stepsPresent st1).
  { destruct (updateProgress_marks q s1 st Hpres) as (st2 & Hrun & _ & _ & _ & _ & _ & H2).
    destruct (updateProgress_state q s1 st Hpres) as (c1' & Hc1' & Hst).
    rewrite Hst in Hrun. injection Hrun as <-.
    rewrite Hc1 in Hc1'. injection Hc1' as <-. exact H2. }
  destruct (updateProgress_state p s2 st1 Hpres1) as (c2 & Hc2 & ->).
  destruct (updateProgress_state p s2 st Hpres) as (c3 & Hc3 & ->).
  cbn. unfold with_stepClasses, with_progressBar. cbn. rewrite Hp. f_equal.
  destruct (markSteps_spec q steps (stepClasses (app st)) steps_NoDup Hpres)
    as (c1' & Hr1 & Hin1 & Hout1).
  rewrite Hc1 in Hr1. injection Hr1 as <-.
  change (stepClasses (app st1)) with c1 in Hc2.
  assert (Hp1 : Forall (fun s => is_Some (c1 !! s.1)) steps) by exact Hpres1.
  destruct (markSteps_spec p steps c1 steps_NoDup Hp1) as (c2' & Hr2 & Hin2 & Hout2).
  rewrite Hc2 in Hr2. injection Hr2 as <-.
  destruct (markSteps_spec p steps (stepClasses (app st)) steps_NoDup Hpres)
    as (c3' & Hr3 & Hin3 & Hout3).
  rewrite Hc3 in Hr3. injection Hr3 as <-.
  apply map_eq. intros id.
  destruct (decide (id ∈ steps.*1)) as [Hmem|Hnot].
  - apply list_elem_of_fmap in Hmem as ([id' th] & -> & Hmem). cbn.
    rewrite (Hin2 _ _ Hmem), (Hin1 _ _ Hmem), (Hin3 _ _ Hmem).
    destruct (stepClasses (app st) !! id'); cbn; [| reflexivity].
    now rewrite markStep_overwrites.
  - now rewrite (Hout2 _ Hnot), (Hout1 _ Hnot), (Hout3 _ Hnot).
Qed.

Lemma updateProgress_latest_wins_witness :
  app (stateOf (updateProgress 45 (lit "running")
                  (stateOf (updateProgress 100 (lit "completed") shippedPage))))
  = app (stateOf (updateProgress 45 (lit "running") shippedPage)).
Proof.
  apply (updateProgress_latest_wins 45 100 (lit "completed") (lit "running") shippedPage).
  - exact shippedPage_stepsPresent.
  - lia.
Defined.

(** What [showError] leaves on the page. *)
Lemma showError_app msg st :
  errorSection (app (showError msg st)) = true
  /\ progressSection (app (showError msg st)) = false
  /\ resultsSection (app (showError msg st)) = false
  /\ errorText (app (showError msg st)) = msg
  /\ submitBtn (app (showError msg st)) = false
  /\ analysisForm (app (showError msg st)) = analysisForm (app st).
Proof.
  unfold showError, stopPolling.
  destruct (pollInterval _); cbn; auto 10.
Qed.

(** A step element that is missing stops the loop. *)
Lemma markSteps_missing p table : forall classes : gmap string (gset string),
  Exists (fun s => classes !! s.1 = None) table ->
  (markSteps p table classes).2 = false.
Proof.
  induction table as [|[id th] table IH]; intros classes Hex; [inversion Hex |].
  cbn. destruct (classes !! id) as [cl|] eqn:Hcl; [| reflexivity].
  apply IH. apply Exists_cons in Hex as [Hhead|Htail]; [cbn in Hhead; congruence |].
  eapply Exists_impl; [exact Htail |]. intros [id' th'] Hnone. cbn in *.
  rewrite lookup_insert_ne; [exact Hnone | congruence].
Qed.

(** X4. When a step element of the table is not in the page, a status
    answer ends the polling whatever its status: the error section shows the
    failure of the check and the timer is cleared. *)
Theorem checkJobStatus_missing_step (d : StatusData) (st : State) :
  truthyId (currentJobId st) = true ->
  Exists (fun s => stepClasses (app st) !! s.1 = None) steps ->
  let st' := checkJobStatus (StatusOk d) st in
  pollInterval st' = None
  /\ errorSection (app st') = true
  /\ progressSection (app st') = false
  /\ errorText (app st') = lit "Failed to check job status: " ++ nullClassList.
Proof.
  intros Hid Hmiss. cbv zeta. unfold checkJobStatus. rewrite Hid. cbn [negb].
  unfold updateProgress.
  cbn [debugLog with_logs onApp with_app app with_progressBar stepClasses fetch with_outbox].
  pose proof (markSteps_missing (progress d) steps _ Hmiss) as Hfalse.
  destruct (markSteps (progress d) steps (stepClasses (app st))) as [classes done].
  cbn in Hfalse. subst done.
  unfold checkJobStatus_catch. split; [apply showError_frame |].
  match goal with |- context [showError ?m ?s] =>
    destruct (showError_app m s) as (He & Hp & _ & Ht & _) end.
  auto.
Qed.

Lemma checkJobStatus_missing_step_witness :
  let st := with_currentJobId (Some (lit "job-1")) (onApp (with_stepClasses ∅) shippedPage) in
  let st' := checkJobStatus
               (StatusOk {| status := lit "running"; progress := 10; message := None |}) st in
  pollInterval st' = None
  /\ errorSection (app st') = true
  /\ progressSection (app st') = false
  /\ errorText (app st') = lit "Failed to check job status: " ++ nullClassList.
Proof.
  intros st.
  apply (checkJobStatus_missing_step
           {| status := lit "running"; progress := 10; message := None |} st).
  - reflexivity.
  - apply Exists_cons_hd. reflexivity.
Defined.

End ProgressMarks.

(** ** Status checks ([checkJobStatus], [showResults], [showError]) *)
Section StatusChecks.
Import JS Browser App Traffic.

Lemma stopPolling_logs st : logs (stopPolling st) = logs st.
Proof. unfold stopPolling. destruct (pollInterval st); reflexivity. Qed.

Lemma showError_logs msg st : logs (showError msg st) = logs st.
Proof. unfold showError. now rewrite stopPolling_logs. Qed.

Lemma updateProgress_frame p status st :
  pollInterval (stateOf (updateProgress p status st)) = pollInterval st
  /\ currentJobId (stateOf (updateProgress p status st)) = currentJobId st
  /\ outbox (stateOf (updateProgress p status st)) = outbox st
  /\ chat (stateOf (updateProgress p status st)) = chat st
  /\ chatbotJobId (stateOf (updateProgress p status st)) = chatbotJobId st
  /\ lastCompletedJob (stateOf (updateProgress p status st)) = lastCompletedJob st.
Proof.
  unfold updateProgress.
  cbn [debugLog with_logs onApp with_app app with_progressBar stepClasses].
  destruct (markSteps p steps (stepClasses (app st))) as [classes []]; cbn; auto 10.
Qed.

Lemma initializeChatbot_fields j st :
  chatbotJobId (Chatbot.initializeChatbot j st) = j
  /\ chatbotInitialized (Chatbot.initializeChatbot j st) = true
  /\ outbox (Chatbot.initializeChatbot j st)
     = outbox st ++ (if truthyId j then [GetSuggestions (default [] j)] else [])
  /\ lastCompletedJob (Chatbot.initializeChatbot j st) = lastCompletedJob st.
Proof.
  unfold Chatbot.initializeChatbot, Chatbot.setupChatbotListeners,
    Chatbot.loadSuggestedQuestions, truthyId.
  destruct j as [[|c id]|]; cbn [truthy default];
    repeat (case_match;
            cbn [debugLog fetch Chatbot.onChat with_chatbotJobId with_chatbotInitialized
                 with_listeners with_chat with_logs with_outbox chatbotJobId
                 chatbotInitialized outbox lastCompletedJob chat] in *);
    cbn; rewrite ?app_nil_r; auto.
Qed.

(** X5. A status check sends at most one status request, for the current
    job and only when there is one; it never sets the poll timer (the timer
    stays as it was or is cleared) and never changes the job id. *)
Theorem checkJobStatus_polls_once (reply : StatusReply) (st : State) :
  let st' := checkJobStatus reply st in
  (pollInterval st' = None \/ pollInterval st' = pollInterval st)
  /\ List.filter isStatusRequest (outbox st')
     = List.filter isStatusRequest (outbox st)
       ++ (if truthyId (currentJobId st) then [GetStatus (default [] (currentJobId st))]
           else [])
  /\ currentJobId st' = currentJobId st.
Proof.
  cbv zeta. unfold checkJobStatus.
  destruct (truthyId (currentJobId st)) eqn:Hid; cbn [negb].
  - set (st1 := fetch _ _).
    assert (Hout1 : List.filter isStatusRequest (outbox st1)
                    = List.filter isStatusRequest (outbox st)
                      ++ [GetStatus (default [] (currentJobId st))]).
    { subst st1. cbn. now rewrite List.filter_app. }
    assert (Hcatch : forall msg x,
               outbox x = outbox st1 -> currentJobId x = currentJobId st ->
               (pollInterval (checkJobStatus_catch msg x) = None
                \/ pollInterval (checkJobStatus_catch msg x) = pollInterval st)
               /\ List.filter isStatusRequest (outbox (checkJobStatus_catch msg x))
                  = List.filter isStatusRequest (outbox st)
                    ++ [GetStatus (default [] (currentJobId st))]
               /\ currentJobId (checkJobStatus_catch msg x) = currentJobId st).
    { intros msg x Hox Hjx. unfold checkJobStatus_catch.
      match goal with |- context [showError ?m ?s] =>
        destruct (showError_frame m s) as (Hp & Hj & _ & Ho) end.
      rewrite Hp, Hj, Ho.
      destruct (stopPolling_frame (debugLog "ERROR" "Status Check Exception" x))
        as (Hj' & _ & Ho').
      rewrite Hj', Ho'. cbn [debugLog with_logs outbox currentJobId].
      rewrite Hox, Hout1, Hjx. auto. }
    destruct reply as [msg|code|d].
    + apply Hcatch; reflexivity.
    + apply Hcatch; reflexivity.
    + set (st2 := debugLog "APP" "INPUT: Status Data" _).
      destruct (updateProgress_frame (progress d) (status d) st2)
        as (Hp & Hj & Ho & _).
      destruct (updateProgress (progress d) (status d) st2) as [st3|st3]; cbn [stateOf] in *.
      * destruct (isStatus "completed" d).
        { destruct (showResults_frame (stopPolling (debugLog "APP" "Analysis Completed" st3)))
            as (Hp' & Hj' & _ & _).
          rewrite Hp', Hj', stopPolling_stops.
          destruct (stopPolling_frame (debugLog "APP" "Analysis Completed" st3))
            as (Hj'' & _ & Ho'').
          rewrite Hj''. cbn [debugLog with_logs currentJobId]. rewrite Hj.
          split; [now left |]. split; [| reflexivity].
          unfold showResults, fetchQuickStats.
          cbn [fetch with_outbox outbox]. rewrite List.filter_app. cbn.
          rewrite List.app_nil_r.
          match goal with |- context [Chatbot.initializeChatbot ?j ?s] =>
            destruct (initializeChatbot_fields j s) as (_ & _ & Hoi & _) end.
          rewrite Hoi, List.filter_app.
          cbn [onApp with_app with_lastCompletedJob outbox].
          rewrite Ho''. cbn [debugLog with_logs outbox]. rewrite Ho.
          change (outbox st2) with (outbox st1). rewrite Hout1.
          match goal with |- context [if ?b then _ else _] => destruct b end;
            cbn; now rewrite List.app_nil_r. }
        destruct (isStatus "failed" d).
        { match goal with |- context [showError ?m ?s] =>
            destruct (showError_frame m s) as (Hp' & Hj' & _ & Ho') end.
          rewrite Hp', Hj', Ho'.
          destruct (stopPolling_frame (debugLog "ERROR" "Analysis Failed" st3))
            as (Hj'' & _ & Ho'').
          rewrite Hj'', Ho''. cbn [debugLog with_logs outbox currentJobId].
          rewrite Hj, Ho. change (outbox st2) with (outbox st1).
          rewrite Hout1. auto. }
        rewrite Hp, Hj, Ho. change (outbox st2) with (outbox st1). rewrite Hout1.
        split; [now right | auto].
      * apply Hcatch; [exact Ho | exact Hj].
  - unfold stopPolling. cbn [debugLog with_logs pollInterval].
    destruct (pollInterval st) eqn:Hp; cbn; rewrite ?app_nil_r, ?Hp; auto.
Qed.

(** What [showResults] leaves on the page. *)
Lemma showResults_fields st :
  let st' := showResults st in
  resultsSection (app st') = true
  /\ progressSection (app st') = false
  /\ datasetJobId (app st') = currentJobId st
  /\ lastCompletedJob st' = currentJobId st
  /\ chatbotJobId st' = currentJobId st
  /\ outbox st'
     = outbox st
       ++ (if truthyId (currentJobId st) then [GetSuggestions (default [] (currentJobId st))]
           else [])
       ++ [GetQuickStats (default [] (currentJobId st))].
Proof.
  cbv zeta. unfold showResults, fetchQuickStats.
  match goal with |- context [Chatbot.initializeChatbot ?j ?s] =>
    destruct (initializeChatbot_fields j s) as (Hc & _ & Ho & Hl);
    destruct (initializeChatbot_frame j s) as (Hj & _ & Ha & _) end.
  cbn [fetch with_outbox outbox app lastCompletedJob chatbotJobId].
  rewrite Hc, Ho, Hl, Ha, Hj. cbn. rewrite <- app_assoc. auto 10.
Qed.

(** The debug entries of [showResults] come after those before it. *)
Lemma showResults_logs st : exists entries, logs (showResults st) = logs st ++ entries.
Proof.
  unfold showResults, fetchQuickStats, Chatbot.initializeChatbot,
    Chatbot.setupChatbotListeners, Chatbot.loadSuggestedQuestions.
  repeat case_match;
    cbn [debugLog fetch onApp Chatbot.onChat with_logs with_outbox with_app with_chat
         with_chatbotJobId with_chatbotInitialized with_listeners with_lastCompletedJob logs];
    rewrite <- ?app_assoc; eexists; reflexivity.
Qed.

(** X6. A [completed] answer hands the job over: the polling ends, the
    results section replaces the progress section, and the job id is stored
    as last completed job, given to the chat widget and put on the result
    buttons. The requests that the scripts themselves make in the call are
    three, in this order: the status request, the one for the job's
    suggestions and the one for its statistics. Besides them the debug
    logger posts the entries of the call: the seven up to [Analysis
    Completed], then those of the chat widget's initialisation. *)
Theorem checkJobStatus_completed (d : StatusData) (st : State) (jobId : list N) :
  currentJobId st = Some jobId -> truthy jobId = true -> stepsPresent st ->
  status d = lit "completed" ->
  let st' := checkJobStatus (StatusOk d) st in
  pollInterval st' = None
  /\ resultsSection (app st') = true
  /\ progressSection (app st') = false
  /\ lastCompletedJob st' = Some jobId
  /\ chatbotJobId st' = Some jobId
  /\ datasetJobId (app st') = Some jobId
  /\ scriptRequests st'
     = scriptRequests st ++ [GetStatus jobId; GetSuggestions jobId; GetQuickStats jobId]
  /\ (exists entries,
        debugPosts st'
        = debugPosts st
          ++ [("APP", "OUTPUT: Status Check Request"); ("APP", "INPUT: Status Response");
              ("APP", "INPUT: Status Data"); ("PROGRESS", "INPUT: Update Progress");
              ("PROGRESS", "OUTPUT: Progress Bar Updated");
              ("PROGRESS", "OUTPUT: Steps Updated"); ("APP", "Analysis Completed")]
          ++ entries).
Proof.
  intros Hjob Htruthy Hpres Hstatus. cbv zeta.
  unfold scriptRequests, debugPosts, checkJobStatus.
  assert (Hid : truthyId (currentJobId st) = true) by (now rewrite Hjob).
  rewrite Hid. cbn [negb].
  set (st2 := debugLog "APP" "INPUT: Status Data" _).
  assert (Hpres2 : stepsPresent st2) by exact Hpres.
  destruct (updateProgress_frame (progress d) (status d) st2) as (_ & Hj & Ho & _).
  destruct (updateProgress_state (progress d) (status d) st2 Hpres2) as (cl & _ & Hrun).
  rewrite Hrun in *. cbn [stateOf] in *.
  set (st3 := debugLog "PROGRESS" "OUTPUT: Steps Updated" _) in *.
  assert (Hdone : isStatus "completed" d = true).
  { unfold isStatus. rewrite Hstatus. now apply bool_decide_eq_true. }
  rewrite Hdone.
  set (st4 := stopPolling _).
  assert (Hj4 : currentJobId st4 = Some jobId).
  { subst st4. destruct (stopPolling_frame (debugLog "APP" "Analysis Completed" st3))
      as (-> & _). cbn [debugLog with_logs currentJobId]. rewrite Hj. exact Hjob. }
  assert (Ho4 : outbox st4 = outbox st ++ [GetStatus jobId]).
  { subst st4. destruct (stopPolling_frame (debugLog "APP" "Analysis Completed" st3))
      as (_ & _ & ->). cbn [debugLog with_logs outbox]. rewrite Ho. subst st2.
    cbn. now rewrite Hjob. }
  assert (Hl4 : logs st4
                = logs st
                  ++ [("APP", "OUTPUT: Status Check Request"); ("APP", "INPUT: Status Response");
                      ("APP", "INPUT: Status Data"); ("PROGRESS", "INPUT: Update Progress");
                      ("PROGRESS", "OUTPUT: Progress Bar Updated");
                      ("PROGRESS", "OUTPUT: Steps Updated"); ("APP", "Analysis Completed")]).
  { subst st4. rewrite stopPolling_logs. subst st3 st2.
    cbn [debugLog with_logs logs onApp with_app fetch with_outbox].
    now rewrite <- !app_assoc. }
  destruct (showResults_logs st4) as [entries Hent].
  destruct (showResults_fields st4) as (Hr & Hp & Hd & Hl & Hc & Hout).
  destruct (showResults_frame st4) as (Hpoll & _).
  rewrite Hpoll, Hr, Hp, Hd, Hl, Hc, Hout, Hj4, Ho4, Hent, Hl4.
  unfold truthyId. rewrite Htruthy. cbn [default].
  split; [apply stopPolling_stops |]. rewrite <- !app_assoc.
  split_and!; try reflexivity. exists entries. reflexivity.
Qed.

Lemma checkJobStatus_completed_witness :
  let st := with_currentJobId (Some (lit "job-1")) shippedPage in
  let st' := checkJobStatus
               (StatusOk {| status := lit "completed"; progress := 100; message := None |})
               st in
  pollInterval st' = None
  /\ resultsSection (app st') = true
  /\ progressSection (app st') = false
  /\ lastCompletedJob st' = Some (lit "job-1")
  /\ chatbotJobId st' = Some (lit "job-1")
  /\ datasetJobId (app st') = Some (lit "job-1")
  /\ scriptRequests st'
     = scriptRequests st ++ [GetStatus (lit "job-1"); GetSuggestions (lit "job-1");
                             GetQuickStats (lit "job-1")]
  /\ (exists entries,
        debugPosts st'
        = debugPosts st
          ++ [("APP", "OUTPUT: Status Check Request"); ("APP", "INPUT: Status Response");
              ("APP", "INPUT: Status Data"); ("PROGRESS", "INPUT: Update Progress");
              ("PROGRESS", "OUTPUT: Progress Bar Updated");
              ("PROGRESS", "OUTPUT: Steps Updated"); ("APP", "Analysis Completed")]
          ++ entries).
Proof.
  intros st.
  apply (checkJobStatus_completed
           {| status := lit "completed"; progress := 100; message := None |}
           st (lit "job-1")).
  - reflexivity.
  - reflexivity.
  - exact shippedPage_stepsPresent.
  - reflexivity.
Defined.

(** X7. A [failed] answer ends the polling and shows the error section with
    the job's message, or with the standard text when the answer has no
    message (none, or a falsy one); the submit button is enabled again and
    the results stay hidden. The scripts make one request, the status
    request; besides it the debug logger posts the seven entries of the
    call, the last of them [Analysis Failed]. *)
Theorem checkJobStatus_failed (d : StatusData) (st : State) (jobId : list N) :
  currentJobId st = Some jobId -> truthy jobId = true -> stepsPresent st ->
  status d = lit "failed" ->
  let st' := checkJobStatus (StatusOk d) st in
  pollInterval st' = None
  /\ errorSection (app st') = true
  /\ resultsSection (app st') = false
  /\ progressSection (app st') = false
  /\ submitBtn (app st') = false
  /\ errorText (app st') = default (lit "Analysis failed. Please try again.") (message d)
  /\ scriptRequests st' = scriptRequests st ++ [GetStatus jobId]
  /\ debugPosts st'
     = debugPosts st
       ++ [("APP", "OUTPUT: Status Check Request"); ("APP", "INPUT: Status Response");
           ("APP", "INPUT: Status Data"); ("PROGRESS", "INPUT: Update Progress");
           ("PROGRESS", "OUTPUT: Progress Bar Updated"); ("PROGRESS", "OUTPUT: Steps Updated");
           ("ERROR", "Analysis Failed")]
  /\ chatbotJobId st' = chatbotJobId st.
Proof.
  intros Hjob Htruthy Hpres Hstatus. cbv zeta. unfold scriptRequests, debugPosts, checkJobStatus.
  assert (Hid : truthyId (currentJobId st) = true) by (now rewrite Hjob).
  rewrite Hid. cbn [negb].
  set (st2 := debugLog "APP" "INPUT: Status Data" _).
  assert (Hpres2 : stepsPresent st2) by exact Hpres.
  destruct (updateProgress_frame (progress d) (status d) st2) as (_ & _ & Ho & _ & Hc & _).
  destruct (updateProgress_state (progress d) (status d) st2 Hpres2) as (cl & _ & Hrun).
  rewrite Hrun in *. cbn [stateOf] in *.
  set (st3 := debugLog "PROGRESS" "OUTPUT: Steps Updated" _) in *.
  assert (Hnot : isStatus "completed" d = false).
  { unfold isStatus. rewrite Hstatus. now apply bool_decide_eq_false. }
  assert (Hfail : isStatus "failed" d = true).
  { unfold isStatus. rewrite Hstatus. now apply bool_decide_eq_true. }
  rewrite Hnot, Hfail.
  match goal with |- context [showError ?m ?s] =>
    destruct (showError_app m s) as (He & Hp & Hr & Ht & Hs & _);
    destruct (showError_frame m s) as (Hpoll & _ & _ & Hout);
    pose proof (showError_logs m s) as Hlogs end.
  rewrite Hpoll, He, Hp, Hr, Ht, Hs, Hout, Hlogs, stopPolling_logs.
  destruct (stopPolling_frame (debugLog "ERROR" "Analysis Failed" st3)) as (_ & _ & ->).
  cbn [debugLog with_logs outbox]. rewrite Ho.
  split_and!; try reflexivity.
  - subst st2. cbn. now rewrite Hjob.
  - subst st3 st2. cbn [debugLog with_logs logs onApp with_app fetch with_outbox].
    now rewrite <- !app_assoc.
  - unfold showError, stopPolling. repeat case_match; exact Hc.
Qed.

Lemma checkJobStatus_failed_witness :
  let st := with_currentJobId (Some (lit "job-1")) shippedPage in
  let d := {| status := lit "failed"; progress := 30; message := None |} in
  let st' := checkJobStatus (StatusOk d) st in
  pollInterval st' = None
  /\ errorSection (app st') = true
  /\ resultsSection (app st') = false
  /\ progressSection (app st') = false
  /\ submitBtn (app st') = false
  /\ errorText (app st') = default (lit "Analysis failed. Please try again.") (message d)
  /\ scriptRequests st' = scriptRequests st ++ [GetStatus (lit "job-1")]
  /\ debugPosts st'
     = debugPosts st
       ++ [("APP", "OUTPUT: Status Check Request"); ("APP", "INPUT: Status Response");
           ("APP", "INPUT: Status Data"); ("PROGRESS", "INPUT: Update Progress");
           ("PROGRESS", "OUTPUT: Progress Bar Updated"); ("PROGRESS", "OUTPUT: Steps Updated");
           ("ERROR", "Analysis Failed")]
  /\ chatbotJobId st' = chatbotJobId st.
Proof.
  intros st d.
  apply (checkJobStatus_failed d st (lit "job-1")).
  - reflexivity.
  - reflexivity.
  - exact shippedPage_stepsPresent.
  - reflexivity.
Defined.

End StatusChecks.

(** ** One question and its answer ([sendMessage]) *)

(** Reads a field of the page through the updates of the chat functions. *)
Ltac chat_fields :=
  cbn [Browser.debugLog Browser.fetch Chatbot.onChat
       Browser.with_chatbotJobId Browser.with_chat Browser.with_logs Browser.with_outbox
       Chatbot.with_toggleBtn Chatbot.with_sendBtn Chatbot.with_input
       Chatbot.with_chatMessages Chatbot.with_suggestedQuestions
       Browser.currentJobId Browser.pollInterval Browser.nextTimer Browser.chatbotJobId
       Browser.chatbotInitialized Browser.listeners Browser.lastCompletedJob
       Browser.app Browser.chat Browser.logs Browser.outbox
       Browser.toggleBtn Browser.closeBtn Browser.sendBtn Browser.input
       Browser.chatbotWidget Browser.chatMessages Browser.suggestedQuestions
       fst snd option_map] in *.

Section ChatExchange.
Import JS Browser Chatbot Traffic.


Lemma dropLastIndicator_snoc nodes :
  dropLastIndicator (nodes ++ [TypingIndicator]) = (nodes, true).
Proof.
  induction nodes as [|n nodes IH]; [reflexivity |].
  cbn. now rewrite IH.
Qed.

Lemma addMessageToChat_present text sender x nodes :
  chatMessages (chat x) = Some nodes ->
  addMessageToChat text sender x
  = debugLog "CHATBOT" "OUTPUT: Message added to DOM"
      (onChat (with_chatMessages (Some (nodes ++ [MessageBubble sender text])))
         (debugLog "CHATBOT" "Adding message to chat" x)).
Proof. intros H. unfold addMessageToChat. chat_fields. now rewrite H. Qed.

Lemma addTypingIndicator_present x nodes :
  chatMessages (chat x) = Some nodes ->
  addTypingIndicator x
  = (onChat (with_chatMessages (Some (nodes ++ [TypingIndicator])))
       (debugLog "CHATBOT" "Adding typing indicator" x), true).
Proof. intros H. unfold addTypingIndicator. chat_fields. now rewrite H. Qed.

Lemma removeTypingIndicator_present x nodes :
  chatMessages (chat x) = Some (nodes ++ [TypingIndicator]) ->
  removeTypingIndicator x = onChat (with_chatMessages (Some nodes)) x.
Proof.
  intros H. unfold removeTypingIndicator. rewrite H, dropLastIndicator_snoc. reflexivity.
Qed.

(** X8. On a page with the chat elements, a question that is not blank, asked
    when a job is known, is always answered in the transcript: whatever the
    gateway does, the earlier messages stay and the trimmed question is added
    as user message, followed by one assistant message: the answer, the
    error text, or the apology. A second assistant message, the apology,
    follows the answer in one case only: the answer comes with a truthy
    [suggested_questions] that is no array and the page has the chips
    container, so that [displaySuggestedQuestions] throws after the answer
    is shown. In every case no typing indicator is left, the input is empty
    and enabled again with the send button, and the script has made exactly
    one request to the gateway, the chat request for this job with the
    trimmed question and the history flag set. *)
Theorem sendMessage_exchange (reply : ChatReply) (st : State)
    (value jobId : list N) (disabled button : bool) (nodes : list ChatNode) :
  input (chat st) = Some (value, disabled) -> truthy (trim value) = true ->
  chatbotJobId st = Some jobId -> truthy jobId = true ->
  sendBtn (chat st) = Some button -> chatMessages (chat st) = Some nodes ->
  let apology := lit "Sorry, I could not process your question. Please try again." in
  exists st',
    sendMessage reply st = Returns st'
    /\ chatMessages (chat st')
       = Some (nodes ++ MessageBubble user (trim value)
                 :: (MessageBubble assistant
                       <$> match reply with
                           | ReplyOk (Some {| answer := Some a; suggested_questions := sq |}) =>
                               match sq, suggestedQuestions (chat st) with
                               | Some (NotAnArray _), Some _ => [a; apology]
                               | _, _ => [a]
                               end
                           | ReplyError errorText errorJson =>
                               [lit "Sorry, I encountered an error: "
                                ++ errorMessageOf errorText errorJson]
                           | _ => [apology]
                           end))
    /\ input (chat st') = Some ([], false)
    /\ sendBtn (chat st') = Some false
    /\ scriptRequests st' = scriptRequests st ++ [PostChat jobId (trim value) true].
Proof.
  intros Hin Hq Hjob Hid Hbtn Hmsgs apology. subst apology. unfold scriptRequests.
  unfold sendMessage. chat_fields. rewrite Hin, Hq. cbn [negb].
  rewrite Hjob. cbn [truthyId default]. rewrite Hid, Hbtn. cbn [negb].
  rewrite (addMessageToChat_present (trim value) user _ nodes) by exact Hmsgs.
  rewrite (addTypingIndicator_present _ (nodes ++ [MessageBubble user (trim value)]))
    by reflexivity.
  unfold sendMessage_try, sendMessage_finally.
  destruct reply as [|[[[a|] sugg]|]|errorText errorJson];
    cbn [negb answer suggested_questions];
    rewrite ?(removeTypingIndicator_present _ (nodes ++ [MessageBubble user (trim value)]))
      by reflexivity;
    try (destruct sugg as [[qs|b]|]);
    rewrite ?(addMessageToChat_present _ assistant _
                (nodes ++ [MessageBubble user (trim value)])) by reflexivity;
    unfold displaySuggestedQuestions, displaySuggestedQuestions_notArray; chat_fields;
    try (destruct (suggestedQuestions (chat st)) eqn:Hchips);
    cbn [negb];
    rewrite ?(addMessageToChat_present _ assistant _
                ((nodes ++ [MessageBubble user (trim value)])
                 ++ [MessageBubble assistant a])) by reflexivity;
    (eexists; split; [reflexivity |]); chat_fields;
    rewrite <- ?app_assoc, Hjob; cbn [default app fmap list_fmap]; auto.
Qed.

Lemma sendMessage_exchange_witness :
  let st := with_chatbotJobId (Some (lit "job-1"))
              (onChat (with_input (Some (lit " Why? ", false))) App.shippedPage) in
  let reply := ReplyOk (Some {| answer := Some (lit "Because.");
                                suggested_questions := Some (NotAnArray true) |}) in
  let apology := lit "Sorry, I could not process your question. Please try again." in
  exists st',
    sendMessage reply st = Returns st'
    /\ chatMessages (chat st')
       = Some ([] ++ MessageBubble user (trim (lit " Why? "))
                 :: (MessageBubble assistant
                       <$> match reply with
                           | ReplyOk (Some {| answer := Some a; suggested_questions := sq |}) =>
                               match sq, suggestedQuestions (chat st) with
                               | Some (NotAnArray _), Some _ => [a; apology]
                               | _, _ => [a]
                               end
                           | ReplyError errorText errorJson =>
                               [lit "Sorry, I encountered an error: "
                                ++ errorMessageOf errorText errorJson]
                           | _ => [apology]
                           end))
    /\ input (chat st') = Some ([], false)
    /\ sendBtn (chat st') = Some false
    /\ scriptRequests st' = scriptRequests st ++ [PostChat (lit "job-1") (trim (lit " Why? ")) true].
Proof.
  intros st reply.
  apply (sendMessage_exchange reply st (lit " Why? ") (lit "job-1") false false []);
    reflexivity.
Defined.

(** X9. A question asked before any job is known is not sent to the
    gateway: the script makes no request, the input keeps its text and stays
    enabled, and the transcript, when the page has one, gets the one
    assistant message that asks to complete an analysis first. What leaves
    the page are the debug logger's posts of the five entries of the call,
    among them [No Job ID Available], whose data holds the question. *)
Theorem sendMessage_without_job (reply : ChatReply) (st : State)
    (value : list N) (disabled : bool) :
  input (chat st) = Some (value, disabled) -> truthy (trim value) = true ->
  truthyId (chatbotJobId st) = false ->
  exists st',
    sendMessage reply st = Returns st'
    /\ scriptRequests st' = scriptRequests st
    /\ debugPosts st'
       = debugPosts st
         ++ [("CHATBOT", "sendMessage called"); ("CHATBOT", "INPUT: User Question");
             ("ERROR", "No Job ID Available"); ("CHATBOT", "Adding message to chat");
             match chatMessages (chat st) with
             | Some _ => ("CHATBOT", "OUTPUT: Message added to DOM")
             | None => ("ERROR", "Chat container not found")
             end]
    /\ input (chat st') = Some (value, disabled)
    /\ sendBtn (chat st') = sendBtn (chat st)
    /\ chatMessages (chat st')
       = (fun nodes =>
            nodes ++ [MessageBubble assistant
                        (lit "Please complete an analysis first before using the chatbot.")])
         <$> chatMessages (chat st).
Proof.
  intros Hin Hq Hjob. unfold scriptRequests, debugPosts.
  unfold sendMessage. chat_fields. rewrite Hin, Hq. cbn [negb]. rewrite Hjob. cbn [negb].
  eexists. split; [reflexivity |]. unfold addMessageToChat. chat_fields.
  destruct (chatMessages (chat st)) as [nodes|] eqn:Hm; chat_fields;
    rewrite ?Hm, <- ?app_assoc; auto 10.
Qed.

Lemma sendMessage_without_job_witness :
  let st := onChat (with_input (Some (lit "Why?", false))) App.shippedPage in
  exists st',
    sendMessage FetchRejected st = Returns st'
    /\ scriptRequests st' = scriptRequests st
    /\ debugPosts st'
       = debugPosts st
         ++ [("CHATBOT", "sendMessage called"); ("CHATBOT", "INPUT: User Question");
             ("ERROR", "No Job ID Available"); ("CHATBOT", "Adding message to chat");
             match chatMessages (chat st) with
             | Some _ => ("CHATBOT", "OUTPUT: Message added to DOM")
             | None => ("ERROR", "Chat container not found")
             end]
    /\ input (chat st') = Some (lit "Why?", false)
    /\ sendBtn (chat st') = sendBtn (chat st)
    /\ chatMessages (chat st')
       = (fun nodes =>
            nodes ++ [MessageBubble assistant
                        (lit "Please complete an analysis first before using the chatbot.")])
         <$> chatMessages (chat st).
Proof.
  intros st.
  apply (sendMessage_without_job FetchRejected st (lit "Why?") false); reflexivity.
Defined.

(** X10. On a page without the transcript container a question is still sent
    to the gateway, but its answer is shown nowhere and the call ends with an
    exception, whatever the gateway answers; the input and the send button
    are enabled again all the same. *)
Theorem sendMessage_without_transcript (reply : ChatReply) (st : State)
    (value jobId : list N) (disabled button : bool) :
  input (chat st) = Some (value, disabled) -> truthy (trim value) = true ->
  chatbotJobId st = Some jobId -> truthy jobId = true ->
  sendBtn (chat st) = Some button -> chatMessages (chat st) = None ->
  exists st',
    sendMessage reply st = Throws st'
    /\ outbox st' = outbox st ++ [PostChat jobId (trim value) true]
    /\ chatMessages (chat st') = None
    /\ input (chat st') = Some ([], false)
    /\ sendBtn (chat st') = Some false.
Proof.
  intros Hin Hq Hjob Hid Hbtn Hmsgs.
  unfold sendMessage. chat_fields. rewrite Hin, Hq. cbn [negb].
  rewrite Hjob. cbn [truthyId default]. rewrite Hid, Hbtn. cbn [negb].
  unfold addMessageToChat, addTypingIndicator. chat_fields. rewrite Hmsgs. chat_fields.
  rewrite Hmsgs. unfold sendMessage_try, sendMessage_finally.
  destruct reply as [|[d|]|errorText errorJson]; cbn [negb];
    (eexists; split; [reflexivity |]); chat_fields; rewrite Hjob; auto.
Qed.

Lemma sendMessage_without_transcript_witness :
  let st := with_chatbotJobId (Some (lit "job-1"))
              (onChat (with_chatMessages None)
                 (onChat (with_input (Some (lit "Why?", false))) App.shippedPage)) in
  exists st',
    sendMessage (ReplyOk (Some {| answer := Some (lit "Because."); suggested_questions := None |}))
      st = Throws st'
    /\ outbox st' = outbox st ++ [PostChat (lit "job-1") (trim (lit "Why?")) true]
    /\ chatMessages (chat st') = None
    /\ input (chat st') = Some ([], false)
    /\ sendBtn (chat st') = Some false.
Proof.
  intros st.
  apply (sendMessage_without_transcript _ st (lit "Why?") (lit "job-1") false false);
    reflexivity.
Defined.

(** X11. The error text shown for a failed chat request is empty in one
    case only: the error body is JSON and the first truthy one of its
    members [detail], [error] and [message] is a value whose text is empty
    (an empty array, say). For a body that is not JSON the text is never
    empty, and a truthy [detail] is shown by its text whatever else the body
    holds. *)
Theorem errorMessageOf_empty_only_from_member
    (errorText : list N) (errorJson : option ErrorJson) :
  (errorJson = None -> truthy (errorMessageOf errorText errorJson) = true)
  /\ (forall j, errorJson = Some j -> errorMessageOf errorText errorJson = [] ->
        detail j = Some []
        \/ (detail j = None /\ error j = Some [])
        \/ (detail j = None /\ error j = None /\ message j = Some []))
  /\ (forall j m, errorJson = Some j -> detail j = Some m ->
        errorMessageOf errorText errorJson = m).
Proof.
  unfold errorMessageOf, orElse. split; [| split].
  - intros ->. destruct errorText; reflexivity.
  - intros j -> Hempty. destruct j as [[d|] [e|] [m|]]; cbn in *; subst; auto.
    discriminate Hempty.
  - intros j m -> Hd. now rewrite Hd.
Qed.

End ChatExchange.

(** ** Invariants of the chat widget over the page's events *)
Section ChatInvariants.
Import JS Browser Chatbot ChatView.

Lemma chipsKept_refl st : chipsKept st st.
Proof. now left. Qed.

Lemma chipsKept_same st x y :
  suggestedQuestions (chat y) = suggestedQuestions (chat x) ->
  chipsKept st x -> chipsKept st y.
Proof. intros Heq [H|[qs H]]; [left | right; exists qs]; congruence. Qed.

Lemma chipsKept_debugLog c a st x : chipsKept st x -> chipsKept st (debugLog c a x).
Proof. now apply chipsKept_same. Qed.

Lemma chipsKept_fetch r st x : chipsKept st x -> chipsKept st (fetch r x).
Proof. now apply chipsKept_same. Qed.

Lemma chipsKept_onChat f st x :
  (forall d, suggestedQuestions (f d) = suggestedQuestions d) ->
  chipsKept st x -> chipsKept st (onChat f x).
Proof. intros Hf. apply chipsKept_same. apply Hf. Qed.

Lemma chipsKept_display l st x :
  chipsKept st x -> chipsKept st (displaySuggestedQuestions l x).
Proof.
  intros H. unfold displaySuggestedQuestions. chat_fields.
  destruct (suggestedQuestions (chat x)) eqn:Hs.
  - right. exists l. reflexivity.
  - now apply chipsKept_debugLog.
Qed.

Lemma chipsKept_display_notArray st x :
  chipsKept st x -> chipsKept st (stateOf (displaySuggestedQuestions_notArray x)).
Proof.
  intros H. unfold displaySuggestedQuestions_notArray. chat_fields.
  destruct (suggestedQuestions (chat x)) eqn:Hs; cbn [stateOf].
  - right. exists []. reflexivity.
  - now apply chipsKept_debugLog.
Qed.

Lemma chipsKept_with_chatbotJobId j st x :
  chipsKept st x -> chipsKept st (with_chatbotJobId j x).
Proof. now apply chipsKept_same. Qed.

Lemma chipsKept_with_chatbotInitialized b st x :
  chipsKept st x -> chipsKept st (with_chatbotInitialized b x).
Proof. now apply chipsKept_same. Qed.

Lemma chipsKept_with_listeners l st x :
  chipsKept st x -> chipsKept st (with_listeners l x).
Proof. now apply chipsKept_same. Qed.

Create HintDb chips discriminated.

#[local] Hint Resolve chipsKept_refl chipsKept_debugLog chipsKept_fetch chipsKept_display
  : chips.
#[local] Hint Extern 2 (chipsKept _ (onChat _ _)) =>
  apply chipsKept_onChat; [intros ?; reflexivity |] : chips.
#[local] Hint Resolve chipsKept_with_chatbotJobId chipsKept_with_chatbotInitialized
  chipsKept_with_listeners : chips.

Lemma chipsKept_addMessageToChat text sender st x :
  chipsKept st x -> chipsKept st (addMessageToChat text sender x).
Proof. intros H. unfold addMessageToChat. case_match; auto 10 with chips. Qed.

Lemma chipsKept_removeTypingIndicator st x :
  chipsKept st x -> chipsKept st (removeTypingIndicator x).
Proof. intros H. unfold removeTypingIndicator. case_match; auto with chips. Qed.

Lemma chipsKept_addTypingIndicator st x :
  chipsKept st x -> chipsKept st (addTypingIndicator x).1.
Proof. intros H. unfold addTypingIndicator. case_match; cbn; auto with chips. Qed.

Lemma chipsKept_finally st x : chipsKept st x -> chipsKept st (sendMessage_finally x).
Proof. intros H. unfold sendMessage_finally. auto with chips. Qed.

#[local] Hint Resolve chipsKept_addMessageToChat chipsKept_removeTypingIndicator
  chipsKept_addTypingIndicator chipsKept_finally : chips.

Lemma chipsKept_sendMessage_try jobId question indicator reply st x :
  chipsKept st x ->
  match sendMessage_try jobId question indicator reply x with
  | inl x' => chipsKept st x'
  | inr (x', _) => chipsKept st x'
  end.
Proof.
  intros H. unfold sendMessage_try. repeat case_match; simplify_eq; auto 12 with chips;
    match goal with
    | Heq : displaySuggestedQuestions_notArray ?y = _ |- _ =>
        let K := fresh "K" in
        assert (K : chipsKept st (stateOf (displaySuggestedQuestions_notArray y)))
          by (apply chipsKept_display_notArray; auto 12 with chips);
        rewrite Heq in K; exact K
    end.
Qed.

Lemma chipsKept_sendMessage reply st : chipsKept st (stateOf (sendMessage reply st)).
Proof.
  unfold sendMessage.
  destruct (input (chat (debugLog "CHATBOT" "sendMessage called" st))) as [[value ?]|];
    cbn [stateOf]; [| auto with chips].
  destruct (negb (truthy (trim value))); cbn [stateOf]; [auto with chips |].
  destruct (negb (truthyId _)); cbn [stateOf]; [auto 6 with chips |].
  destruct (sendBtn _); cbn [stateOf]; [| auto 6 with chips].
  match goal with |- context [addTypingIndicator ?x] =>
    pose proof (chipsKept_addTypingIndicator st x) as Hind;
    destruct (addTypingIndicator x) as [x1 indicator] end.
  cbn [fst] in Hind.
  match goal with |- context [sendMessage_try ?j ?q ?i ?r ?x] =>
    pose proof (chipsKept_sendMessage_try j q i r st x) as Htry;
    destruct (sendMessage_try j q i r x) as [x2|[x2 attached]] end.
  - cbn [stateOf]. apply chipsKept_finally, Htry. auto 10 with chips.
  - assert (Hx2 : chipsKept st x2) by (apply Htry; auto 10 with chips).
    destruct indicator, attached; cbn [negb stateOf]; auto 8 with chips.
Qed.

Lemma chipsKept_resume reply st : chipsKept st (loadSuggestedQuestions_resume reply st).
Proof.
  unfold loadSuggestedQuestions_resume. repeat case_match; auto 6 with chips;
    match goal with
    | Heq : displaySuggestedQuestions_notArray ?y = _ |- _ =>
        let K := fresh "K" in
        assert (K : chipsKept st (stateOf (displaySuggestedQuestions_notArray y)))
          by (apply chipsKept_display_notArray; auto 6 with chips);
        rewrite Heq in K; cbn [stateOf] in K; auto 6 with chips
    end.
Qed.

Lemma chipsKept_initializeChatbot jobId st : chipsKept st (initializeChatbot jobId st).
Proof.
  unfold initializeChatbot, setupChatbotListeners, loadSuggestedQuestions.
  repeat case_match; auto 20 with chips.
Qed.

Lemma chipsKept_capped st st' :
  chipsKept st st' -> chipsCapped (chat st) -> chipsCapped (chat st').
Proof.
  intros [Heq|[qs Hqs]] Hcap chips Hchips.
  - apply Hcap. congruence.
  - rewrite Hqs in Hchips. injection Hchips as <-. rewrite length_take. lia.
Qed.

(** X12. The chips never exceed six: when the page starts within the cap and
    nothing but the chatbot script changes the chips beyond it, then after
    any sequence of initialisations, questions and suggestion arrivals at
    most six chips are shown. *)
Theorem chips_never_exceed_cap (st : State) (events : list PageEvent) :
  chipsCapped (chat st) -> Forall cappedEvent events ->
  chipsCapped (chat (foldl (fun st e => handle e st) st events)).
Proof.
  revert st. induction events as [|e events IH]; intros st Hcap Hev; [exact Hcap |].
  apply Forall_cons_iff in Hev as [He Hev]. cbn. apply IH; [| exact Hev].
  destruct e as [jobId|reply|reply|d]; cbn [handle].
  - exact (chipsKept_capped _ _ (chipsKept_initializeChatbot jobId st) Hcap).
  - exact (chipsKept_capped _ _ (chipsKept_sendMessage reply st) Hcap).
  - exact (chipsKept_capped _ _ (chipsKept_resume reply st) Hcap).
  - exact He.
Qed.

Lemma chips_never_exceed_cap_witness :
  let letters := [lit "a"; lit "b"; lit "c"; lit "d"; lit "e"; lit "f"; lit "g"] in
  let events := [Initialize (Some (lit "job-1")); Suggestions (SuggestionsOk (Some (Questions letters)));
                 Send (ReplyOk (Some {| answer := Some (lit "Yes.");
                                        suggested_questions := Some (Questions letters) |}))] in
  chipsCapped (chat (foldl (fun st e => handle e st) App.shippedPage events)).
Proof.
  intros letters events.
  apply (chips_never_exceed_cap App.shippedPage events).
  - intros chips Hchips. injection Hchips as <-. cbn. lia.
  - repeat constructor.
Defined.

Lemma initializeChatbot_when_initialized jobId st :
  chatbotInitialized st = true -> sameSetup st (initializeChatbot jobId st).
Proof.
  intros Hinit. unfold initializeChatbot.
  set (st1 := match jobId with Some _ => _ | None => _ end).
  assert (Hsame : sameSetup st st1).
  { subst st1. unfold loadSuggestedQuestions.
    repeat case_match;
      repeat first [ apply sameSetup_debugLog; [discriminate |]
                   | apply sameSetup_fetch | apply sameSetup_onChat
                   | apply sameSetup_with_chatbotJobId | apply sameSetup_refl ]. }
  destruct Hsame as (Hi & Hl & Hr). rewrite Hi, Hinit. repeat split; assumption.
Qed.

Lemma handle_when_initialized e st :
  chatbotInitialized st = true -> sameSetup st (handle e st).
Proof.
  intros Hinit. destruct e as [jobId|reply|reply|d]; cbn [handle].
  - now apply initializeChatbot_when_initialized.
  - apply sameSetup_sendMessage.
  - apply sameSetup_resume.
  - repeat split.
Qed.

(** X13. A first initialisation on a page that lacks one of the four chat
    elements registers nothing, and nothing is registered later either:
    whatever follows, also when the elements appear and [initializeChatbot]
    is called again, the chat has no listeners. *)
Theorem listeners_never_registered_after_incomplete_setup
    (jobId : option (list N)) (st : State) (events : list PageEvent) :
  loaded st -> incomplete (chat st) ->
  listeners (foldl (fun st e => handle e st) (initializeChatbot jobId st) events) = [].
Proof.
  intros (Hinit & Hnil & Hzero) Hmiss.
  assert (Hfirst : chatbotInitialized (initializeChatbot jobId st) = true
                   /\ listeners (initializeChatbot jobId st) = []).
  { unfold initializeChatbot.
    set (st1 := match jobId with Some _ => _ | None => _ end).
    assert (Hchat : toggleBtn (chat st1) = option_map (fun _ => true) (toggleBtn (chat st))
                    /\ closeBtn (chat st1) = closeBtn (chat st)
                    /\ sendBtn (chat st1) = sendBtn (chat st)
                    /\ input (chat st1) = input (chat st)
                    /\ chatbotInitialized st1 = chatbotInitialized st
                    /\ listeners st1 = listeners st).
    { subst st1. unfold loadSuggestedQuestions.
      repeat case_match; chat_fields; simplify_eq; cbn;
        repeat match goal with H : _ = _ |- _ => rewrite H end; auto 10. }
    destruct Hchat as (Ht & Hc & Hs & Hi & Hci & Hl).
    rewrite Hci, Hinit. unfold setupChatbotListeners. chat_fields.
    rewrite Ht, Hc, Hs, Hi.
    destruct Hmiss as [Hm|[Hm|[Hm|Hm]]]; rewrite Hm; cbn [option_map];
      repeat case_match; chat_fields; cbn; rewrite ?Hl, ?Hnil; auto. }
  destruct Hfirst as [Hflag Hlist].
  revert Hflag Hlist. generalize (initializeChatbot jobId st). clear.
  induction events as [|e events IH]; intros x Hflag Hlist; [exact Hlist |].
  cbn. destruct (handle_when_initialized e x Hflag) as (Hi & Hl & _).
  apply IH; congruence.
Qed.

Lemma listeners_never_registered_after_incomplete_setup_witness :
  let page := onChat (with_sendBtn None) App.shippedPage in
  let events := [Redraw (chat App.shippedPage); Initialize (Some (lit "job-1"))] in
  listeners (foldl (fun st e => handle e st) (initializeChatbot None page) events) = [].
Proof.
  intros page events.
  apply (listeners_never_registered_after_incomplete_setup None page events).
  - repeat split.
  - right. right. left. reflexivity.
Defined.

(** X14. On a page that has the four chat elements, the first
    initialisation after loading registers exactly the five listeners, one
    per element and one on the document, in the order of the source. *)
Theorem initializeChatbot_registers (jobId : option (list N)) (st : State) :
  loaded st -> ~ incomplete (chat st) ->
  listeners (initializeChatbot jobId st) = registered
  /\ chatbotInitialized (initializeChatbot jobId st) = true.
Proof.
  intros (Hinit & Hnil & Hzero) Hfull. unfold incomplete in Hfull.
  destruct (toggleBtn (chat st)) as [t|] eqn:Ht; [| tauto].
  destruct (closeBtn (chat st)) as [c|] eqn:Hc; [| tauto].
  destruct (sendBtn (chat st)) as [b|] eqn:Hs; [| tauto].
  destruct (input (chat st)) as [i|] eqn:Hi; [| tauto].
  unfold initializeChatbot, loadSuggestedQuestions. chat_fields. rewrite Ht.
  destruct jobId as [[|j0 js]|]; cbn [truthy]; chat_fields; rewrite Hinit;
    unfold setupChatbotListeners; chat_fields; rewrite Hc, Hs, Hi;
    cbn; rewrite ?Hnil; auto.
Qed.

Lemma initializeChatbot_registers_witness :
  listeners (initializeChatbot (Some (lit "job-1")) App.shippedPage) = registered
  /\ chatbotInitialized (initializeChatbot (Some (lit "job-1")) App.shippedPage) = true.
Proof.
  apply (initializeChatbot_registers (Some (lit "job-1")) App.shippedPage).
  - repeat split.
  - intros [H|[H|[H|H]]]; discriminate H.
Defined.

End ChatInvariants.

(** ** The client's requests and failures (PythonServiceClient) *)
Section ClientCalls.
Import Gateway.

Variable ReadJobStatus : option Json -> Task (option JobStatus).
Variable ReadAnalysisResults : option Json -> Task (option AnalysisResults).

(** X15. Every operation of the client sends exactly one request, the one of
    its endpoint, after those sent before: nothing is retried and nothing is
    sent twice, whatever the backend answers. *)
Theorem client_sends_one_request
    (request : AnalysisRequest) (jobId question : string) (includeHistory : bool)
    (c : HttpClient) :
  sent (StartAnalysisAsync ReadJobStatus request c).1 = sent c ++ [analyzeRequest request]
  /\ sent (GetJobStatusAsync ReadJobStatus jobId c).1 = sent c ++ [statusRequest jobId]
  /\ sent (GetAnalysisDataAsync ReadAnalysisResults jobId c).1 = sent c ++ [dataRequest jobId]
  /\ sent (SendChatMessageAsync jobId question includeHistory c).1
     = sent c ++ [chatRequest jobId question includeHistory]
  /\ sent (GetChatSuggestionsAsync jobId c).1 = sent c ++ [suggestionsRequest jobId]
  /\ sent (ClearChatHistoryAsync jobId c).1 = sent c ++ [clearHistoryRequest jobId]
  /\ sent (CheckHealthAsync c).1 = sent c ++ [healthRequest].
Proof.
  unfold StartAnalysisAsync, GetJobStatusAsync, GetAnalysisDataAsync, SendChatMessageAsync,
    GetChatSuggestionsAsync, ClearChatHistoryAsync, CheckHealthAsync, SendAsync.
  repeat split; destruct (backend c _) as [r|]; try reflexivity;
    destruct (IsSuccessStatusCode r); cbn; try reflexivity.
  - destruct (ReadJobStatus _) as [[?|]|]; reflexivity.
  - destruct (ReadJobStatus _) as [?|]; reflexivity.
  - destruct (ReadAnalysisResults _) as [?|]; reflexivity.
  - destruct (ReadDictionary _) as [[result|]|]; try reflexivity.
    destruct (result !! "answer") as [e|]; [| reflexivity].
    destruct (GetString e) as [[?|]|]; reflexivity.
  - destruct (ReadDictionary _) as [[result|]|]; try reflexivity.
    destruct (result !! "suggestions") as [e|]; [| reflexivity].
    destruct (DeserializeStringList e) as [[?|]|]; reflexivity.
Qed.

(** X16. The two operations that start work propagate failures instead of
    hiding them: [StartAnalysisAsync] returns a job status exactly when the
    backend answered with a success status and a job status could be read
    (never [null]), and both it and [SendChatMessageAsync] fault when the
    call fails. *)
Theorem write_operations_propagate_failure
    (request : AnalysisRequest) (jobId question : string) (includeHistory : bool)
    (c : HttpClient) :
  (forall job,
     (StartAnalysisAsync ReadJobStatus request c).2 = Result job
     <-> exists r, backend c (analyzeRequest request) = Result r
                   /\ IsSuccessStatusCode r = true
                   /\ ReadJobStatus (Content r) = Result (Some job))
  /\ (upstreamFails ReadJobStatus c (analyzeRequest request) ->
      (StartAnalysisAsync ReadJobStatus request c).2 = Faulted)
  /\ (upstreamFails ReadDictionary c (chatRequest jobId question includeHistory) ->
      (SendChatMessageAsync jobId question includeHistory c).2 = Faulted).
Proof.
  unfold StartAnalysisAsync, SendChatMessageAsync, upstreamFails, SendAsync.
  split; [| split].
  - intros job. destruct (backend c _) as [r|]; cbn.
    + destruct (IsSuccessStatusCode r) eqn:Hs; cbn.
      * destruct (ReadJobStatus (Content r)) as [[job'|]|] eqn:Hr; cbn; split;
          try discriminate; try (intros (r' & [= <-] & _ & Hr'); congruence).
        intros [= ->]. eauto.
      * split; [discriminate | intros (r' & [= <-] & Hs' & _); congruence].
    + split; [discriminate | intros (r' & Hr' & _); discriminate].
  - destruct (backend c _) as [r|]; [| reflexivity].
    intros [Hs|Hr]; [now rewrite Hs | rewrite Hr].
    destruct (IsSuccessStatusCode r); reflexivity.
  - destruct (backend c _) as [r|]; [| reflexivity].
    intros [Hs|Hr]; [now rewrite Hs | rewrite Hr].
    destruct (IsSuccessStatusCode r); reflexivity.
Qed.

(** X17. The suggestions of the backend pass through the gateway unchanged:
    a success answer whose [suggestions] member is an array of strings gives
    exactly these strings, in order and however many they are. *)
Theorem GetChatSuggestionsAsync_relays
    (jobId : string) (c : HttpClient) (r : HttpResponseMessage)
    (result : gmap string Json) (suggestions : list string) :
  backend c (suggestionsRequest jobId) = Result r ->
  IsSuccessStatusCode r = true ->
  Content r = Some (JObject result) ->
  result !! "suggestions" = Some (JArray (JString <$> suggestions)) ->
  (GetChatSuggestionsAsync jobId c).2 = Result (Some <$> suggestions).
Proof.
  intros Hb Hs Hc Hm. unfold GetChatSuggestionsAsync, SendAsync.
  rewrite Hb, Hs, Hc. cbn. rewrite Hm. unfold DeserializeStringList.
  now rewrite mapM_GetString.
Qed.

End ClientCalls.

Section ClientExamples.
Import Gateway Health.

Lemma GetChatSuggestionsAsync_relays_witness :
  let seven := ["q1"; "q2"; "q3"; "q4"; "q5"; "q6"; "q7"] in
  let members : gmap string Json := {["suggestions" := JArray (JString <$> seven)]} in
  (GetChatSuggestionsAsync "job-1" (answering (ok200 members))).2 = Result (Some <$> seven).
Proof.
  intros seven members.
  apply (GetChatSuggestionsAsync_relays "job-1" (answering (ok200 members))
           (ok200 members) members seven); reflexivity.
Defined.

(** X18. With the gateway's own client the health check never takes its
    exception branch: the backend is reported healthy exactly when it answers
    the health request with a success status, and in every other case
    unhealthy with the text "Python service is not responding". *)
Theorem health_check_reports_backend (c : HttpClient) :
  let result := (Health.CheckHealthAsync c).2 in
  (h_status result = Healthy
   <-> exists r, backend c healthRequest = Result r /\ IsSuccessStatusCode r = true)
  /\ h_exception result = false
  /\ (h_status result = Unhealthy ->
      h_description result = "Python service is not responding")
  /\ sent (Health.CheckHealthAsync c).1 = sent c ++ [healthRequest].
Proof.
  cbv zeta. unfold Health.CheckHealthAsync. cbn [CheckHealth PythonServiceClient].
  unfold Gateway.CheckHealthAsync, SendAsync.
  destruct (backend c healthRequest) as [r|] eqn:Hb; cbn.
  - destruct (IsSuccessStatusCode r) eqn:Hs; cbn; repeat split; try discriminate; eauto.
    intros (r' & [= <-] & Hs'). congruence.
  - repeat split; try discriminate. intros (r' & Hr' & _). discriminate.
Qed.

End ClientExamples.

(** ** The analysis form ([handleSearchMethodChange], [handleFormSubmit],
    [startAnalysis]) *)
Section FormFacts.
Import JS Browser App Form Traffic.

(** X19. After a change of the search method an input is required only
    when it is displayed, at most one of the two inputs is displayed, the
    task field is enabled whenever an input is displayed, demo mode disables
    and empties it, and handling the same selection again changes nothing. *)
Theorem handleSearchMethodChange_consistent (f : FormDom) :
  let f' := handleSearchMethodChange f in
  (keywordsRequired f' = true -> inputKeywords f' = true)
  /\ (urlsRequired f' = true -> inputUrls f' = true)
  /\ ~ (inputKeywords f' = true /\ inputUrls f' = true)
  /\ (inputKeywords f' = true \/ inputUrls f' = true -> customTaskDisabled f' = false)
  /\ (radioKeywords f = false -> radioUrls f = false -> radioDemo f = true ->
      customTaskDisabled f' = true /\ customTaskValue f' = [])
  /\ handleSearchMethodChange f' = f'.
Proof.
  cbv zeta. unfold handleSearchMethodChange.
  destruct f as [e m ct cd k u rk ru rd ik iu kr ur]; cbn.
  destruct rk, ru, rd; cbn; repeat split; auto; try discriminate;
    intros; intuition discriminate.
Qed.

Lemma posted_onPage g s : posted (onPage g s) = posted s.
Proof. reflexivity. Qed.

(** The request that [startAnalysis] posts. *)
Lemma startAnalysis_posted rd reply statusReply s :
  posted (startAnalysis rd reply statusReply s)
  = posted s
    ++ [ {| p_url := Chatbot.orElse (Some (r_url rd)) (lit "demo");
            p_email := r_email rd;
            p_customPrompt := match r_customPrompt rd with
                              | Some c => if truthy c then Some c else None
                              | None => None
                              end;
            p_searchMethod := r_searchMethod rd |} ].
Proof. unfold startAnalysis. destruct reply; reflexivity. Qed.

(** X20. Submitting the form posts at most one analysis request, and only a
    well-formed one: its address is the trimmed address of the form and
    passes [validateEmail], its source is never empty (the trimmed keywords
    or URLs, else [demo]), and a custom prompt is sent only non-empty and
    never in demo mode. *)
Theorem handleFormSubmit_posts_valid
    (reply : AnalyzeReply) (statusReply : StatusReply) (s : Session) :
  let s' := sessionOf (handleFormSubmit reply statusReply s) in
  posted s' = posted s
  \/ exists p,
       posted s' = posted s ++ [p]
       /\ p_email p = trim (emailValue (form s))
       /\ Email.validateEmail (p_email p) = true
       /\ truthy (p_url p) = true
       /\ Some (p_searchMethod p) = checkedMethod (form s)
       /\ (p_searchMethod p = lit "keywords" -> p_url p = trim (keywordsValue (form s)))
       /\ (p_searchMethod p = lit "urls" -> p_url p = trim (urlsValue (form s)))
       /\ (p_searchMethod p = lit "demo" -> p_customPrompt p = None)
       /\ (forall c, p_customPrompt p = Some c ->
             c = trim (customTaskValue (form s)) /\ truthy c = true).
Proof.
  cbv zeta. unfold handleFormSubmit.
  destruct (checkedMethod (form s)) as [m|] eqn:Hm; [| now left].
  destruct (Email.validateEmail (trim (emailValue (form s)))) eqn:Hv; cbn [negb];
    [| now left].
  assert (Hprep : forall url, truthy url = true ->
            (m = lit "keywords" -> url = trim (keywordsValue (form s))) ->
            (m = lit "urls" -> url = trim (urlsValue (form s))) ->
            let rd := {| r_email := trim (emailValue (form s)); r_searchMethod := m;
                         r_url := url;
                         r_customPrompt :=
                           if truthy (trim (customTaskValue (form s)))
                              && negb (bool_decide (m = lit "demo"))
                           then Some (trim (customTaskValue (form s))) else None |} in
            forall x, posted x = posted s -> form x = form s ->
            exists p,
              posted (startAnalysis rd reply statusReply x) = posted s ++ [p]
              /\ p_email p = trim (emailValue (form s))
              /\ Email.validateEmail (p_email p) = true
              /\ truthy (p_url p) = true
              /\ Some (p_searchMethod p) = Some m
              /\ (p_searchMethod p = lit "keywords" -> p_url p = trim (keywordsValue (form s)))
              /\ (p_searchMethod p = lit "urls" -> p_url p = trim (urlsValue (form s)))
              /\ (p_searchMethod p = lit "demo" -> p_customPrompt p = None)
              /\ (forall c, p_customPrompt p = Some c ->
                    c = trim (customTaskValue (form s)) /\ truthy c = true)).
  { intros url Hurl Hk Hu rd x Hpx Hfx. rewrite startAnalysis_posted, Hpx.
    eexists. split; [reflexivity |].
    cbn [p_email p_url p_customPrompt p_searchMethod rd
         r_email r_url r_customPrompt r_searchMethod].
    assert (Horl : Chatbot.orElse (Some url) (lit "demo") = url).
    { unfold Chatbot.orElse. now rewrite Hurl. }
    rewrite Horl.
    destruct (truthy (trim (customTaskValue (form s)))) eqn:Ht;
      destruct (bool_decide (m = lit "demo")) eqn:Hd; cbn [andb negb]; rewrite ?Ht;
      repeat split; auto; try discriminate.
    - intros Hdemo. apply bool_decide_eq_false in Hd. contradiction.
    - match goal with H : Some _ = Some _ |- _ => now injection H end.
    - match goal with H : Some _ = Some _ |- _ => injection H as <- end. exact Ht. }
  cbn [onPage form].
  destruct (bool_decide (m = lit "keywords")) eqn:Hk.
  - apply bool_decide_eq_true in Hk.
    destruct (truthy (trim (keywordsValue (form s)))) eqn:Ht; cbn [negb sessionOf];
      [| now left].
    right. apply Hprep; [exact Ht | reflexivity | | reflexivity | reflexivity].
    intros Hu. rewrite Hk in Hu. vm_compute in Hu. discriminate Hu.
  - apply bool_decide_eq_false in Hk.
    destruct (bool_decide (m = lit "urls")) eqn:Hu.
    + apply bool_decide_eq_true in Hu.
      destruct (truthy (trim (urlsValue (form s)))) eqn:Ht; cbn [negb sessionOf];
        [| now left].
      right. apply Hprep; [exact Ht | | reflexivity | reflexivity | reflexivity].
      intros Hk'. contradiction.
    + apply bool_decide_eq_false in Hu. cbn [sessionOf].
      right. apply Hprep; [reflexivity | | | reflexivity | reflexivity];
        intros H; contradiction.
Qed.

Lemma showError_session msg (x : Session) :
  posted (onPage (showError msg) x) = posted x
  /\ scriptRequests (page (onPage (showError msg) x)) = scriptRequests (page x)
  /\ debugPosts (page (onPage (showError msg) x)) = debugPosts (page x)
  /\ errorSection (app (page (onPage (showError msg) x))) = true
  /\ errorText (app (page (onPage (showError msg) x))) = msg
  /\ form (onPage (showError msg) x) = form x.
Proof.
  unfold scriptRequests, debugPosts. cbn [onPage posted page form].
  destruct (showError_app msg (page x)) as (He & _ & _ & Ht & _).
  destruct (showError_frame msg (page x)) as (_ & _ & _ & Ho).
  rewrite showError_logs. auto 10.
Qed.

(** X21. A form whose trimmed address does not pass [validateEmail] is not
    submitted: no analysis request is posted and the scripts make no other
    request either, the form keeps its values, and the error section asks
    for a valid address. What leaves the page are the debug logger's posts
    of the two entries of the call, [Form Submit] and [Form Validation
    Failed], whose data hold the address. *)
Theorem handleFormSubmit_invalid_email
    (reply : AnalyzeReply) (statusReply : StatusReply) (s : Session) (m : list N) :
  checkedMethod (form s) = Some m ->
  Email.validateEmail (trim (emailValue (form s))) = false ->
  exists s',
    handleFormSubmit reply statusReply s = Handled s'
    /\ posted s' = posted s
    /\ scriptRequests (page s') = scriptRequests (page s)
    /\ debugPosts (page s')
       = debugPosts (page s)
         ++ [("APP", "INPUT: Form Submit"); ("ERROR", "Form Validation Failed")]
    /\ errorSection (app (page s')) = true
    /\ errorText (app (page s')) = lit "Please enter a valid email address."
    /\ form s' = form s.
Proof.
  intros Hm Hv. unfold handleFormSubmit. rewrite Hm, Hv. cbn [negb].
  eexists. split; [reflexivity |].
  match goal with |- context [onPage (showError ?msg) ?x] =>
    destruct (showError_session msg x) as (Hp & Ho & Hl & He & Ht & Hf) end.
  rewrite Hp, Ho, Hl, He, Ht, Hf. unfold scriptRequests, debugPosts.
  cbn [onPage posted page form debugLog with_logs logs outbox]. rewrite <- app_assoc. auto 10.
Qed.

Lemma handleFormSubmit_invalid_email_witness :
  let s := demoSession "ann@example" in
  exists s',
    handleFormSubmit (AnalyzeOk None) (StatusRejected []) s = Handled s'
    /\ posted s' = posted s
    /\ scriptRequests (page s') = scriptRequests (page s)
    /\ debugPosts (page s')
       = debugPosts (page s)
         ++ [("APP", "INPUT: Form Submit"); ("ERROR", "Form Validation Failed")]
    /\ errorSection (app (page s')) = true
    /\ errorText (app (page s')) = lit "Please enter a valid email address."
    /\ form s' = form s.
Proof.
  intros s.
  apply (handleFormSubmit_invalid_email (AnalyzeOk None) (StatusRejected []) s (lit "demo"));
    reflexivity.
Defined.

(** X22. In keywords or URLs mode a search input that is blank after
    trimming stops the submission: no analysis request is posted, the
    scripts make no other request either, and the error section names the
    missing input. What leaves the page are the debug logger's posts of the
    two entries of the call, [Form Submit] and [Form Validation Failed]. *)
Theorem handleFormSubmit_missing_input
    (reply : AnalyzeReply) (statusReply : StatusReply) (s : Session) (m : list N) :
  checkedMethod (form s) = Some m ->
  Email.validateEmail (trim (emailValue (form s))) = true ->
  (m = lit "keywords" /\ trim (keywordsValue (form s)) = [])
  \/ (m = lit "urls" /\ trim (urlsValue (form s)) = []) ->
  exists s',
    handleFormSubmit reply statusReply s = Handled s'
    /\ posted s' = posted s
    /\ scriptRequests (page s') = scriptRequests (page s)
    /\ debugPosts (page s')
       = debugPosts (page s)
         ++ [("APP", "INPUT: Form Submit"); ("ERROR", "Form Validation Failed")]
    /\ errorSection (app (page s')) = true
    /\ errorText (app (page s'))
       = (if bool_decide (m = lit "keywords") then lit "Please enter search keywords."
          else lit "Please enter at least one URL.").
Proof.
  intros Hm Hv Hcase. unfold handleFormSubmit. rewrite Hm, Hv. cbn [negb onPage form].
  destruct Hcase as [[-> Hblank]|[-> Hblank]].
  - rewrite (bool_decide_eq_true_2 _ eq_refl), Hblank. cbn [truthy negb].
    eexists. split; [reflexivity |].
    match goal with |- context [onPage (showError ?msg) ?x] =>
      destruct (showError_session msg x) as (Hp & Ho & Hl & He & Ht & _) end.
    rewrite Hp, Ho, Hl, He, Ht. unfold scriptRequests, debugPosts.
    cbn [onPage posted page form debugLog with_logs logs outbox].
    rewrite <- app_assoc. auto 10.
  - assert (Hne : bool_decide (lit "urls" = lit "keywords") = false).
    { apply bool_decide_eq_false. vm_compute. discriminate. }
    rewrite Hne, (bool_decide_eq_true_2 _ eq_refl), Hblank. cbn [truthy negb].
    eexists. split; [reflexivity |].
    match goal with |- context [onPage (showError ?msg) ?x] =>
      destruct (showError_session msg x) as (Hp & Ho & Hl & He & Ht & _) end.
    rewrite Hp, Ho, Hl, He, Ht. unfold scriptRequests, debugPosts.
    cbn [onPage posted page form debugLog with_logs logs outbox].
    rewrite <- app_assoc. auto 10.
Qed.

Lemma handleFormSubmit_missing_input_witness :
  let f := {| emailValue := lit "ann@example.com"; checkedMethod := Some (lit "urls");
              customTaskValue := []; customTaskDisabled := false;
              keywordsValue := []; urlsValue := lit "  ";
              radioKeywords := false; radioUrls := true; radioDemo := false;
              inputKeywords := false; inputUrls := true;
              keywordsRequired := false; urlsRequired := true |} in
  let s := {| page := shippedPage; form := f; posted := [] |} in
  exists s',
    handleFormSubmit (AnalyzeOk None) (StatusRejected []) s = Handled s'
    /\ posted s' = posted s
    /\ scriptRequests (page s') = scriptRequests (page s)
    /\ debugPosts (page s')
       = debugPosts (page s)
         ++ [("APP", "INPUT: Form Submit"); ("ERROR", "Form Validation Failed")]
    /\ errorSection (app (page s')) = true
    /\ errorText (app (page s'))
       = (if bool_decide (lit "urls" = lit "keywords") then lit "Please enter search keywords."
          else lit "Please enter at least one URL.").
Proof.
  intros f s.
  apply (handleFormSubmit_missing_input (AnalyzeOk None) (StatusRejected []) s (lit "urls")).
  - reflexivity.
  - reflexivity.
  - right. split; reflexivity.
Defined.

(** What [resetProgress] leaves on the page. *)
Lemma resetProgress_steps st id cl :
  stepClasses (app (resetProgress st)) !! id = Some cl ->
  "step" ∈ cl -> ("active" ∉ cl) /\ ("completed" ∉ cl).
Proof.
  unfold resetProgress. cbn. rewrite lookup_fmap.
  destruct (stepClasses (app st) !! id) as [cl0|]; [| discriminate].
  cbn. intros [= <-]. destruct (decide ("step" ∈ cl0)) as [Hin|Hout].
  - intros _. repeat first [rewrite elem_of_difference | rewrite elem_of_singleton].
    intuition congruence.
  - intros Hin. contradiction.
Qed.

Lemma resetProgress_frame st :
  pollInterval (resetProgress st) = pollInterval st
  /\ currentJobId (resetProgress st) = currentJobId st
  /\ outbox (resetProgress st) = outbox st
  /\ logs (resetProgress st) = logs st
  /\ nextTimer (resetProgress st) = nextTimer st
  /\ progressFill (app (resetProgress st)) = 0.
Proof. unfold resetProgress. cbn. auto 10. Qed.

Lemma resetProgress_present st : stepsPresent st -> stepsPresent (resetProgress st).
Proof.
  unfold stepsPresent, resetProgress. cbn. intros H.
  eapply Forall_impl; [exact H |]. intros [id th] Hsome. cbn in *.
  rewrite lookup_fmap. apply fmap_is_Some. exact Hsome.
Qed.

Lemma startAnalysis_catch_state m st :
  let st' := startAnalysis_catch m st in
  analysisForm (app st') = true
  /\ progressSection (app st') = false
  /\ errorSection (app st') = true
  /\ errorText (app st') = lit "Failed to start analysis: " ++ m
  /\ submitBtn (app st') = false
  /\ pollInterval st' = None
  /\ outbox st' = outbox st
  /\ logs st' = logs st ++ [("ERROR", "Analysis Start Failed")]
  /\ currentJobId st' = currentJobId st
  /\ stepClasses (app st') = stepClasses (app st).
Proof.
  unfold startAnalysis_catch, showError, stopPolling. cbn -[lit].
  destruct (pollInterval st) eqn:Htimer; cbn -[lit]; auto 12.
Qed.

(** X23. When the analysis request is not answered with a job, the page
    goes back to the form: the form is shown again with the submit button
    enabled, the progress section is hidden, the error section shows a
    message that starts with [Failed to start analysis: ], no timer is left
    running, the job id is as before and no element of class [step] is left
    marked. The scripts make no request besides the analysis request (no
    status request in particular); the debug logger posts the entries of
    the call, which end with [Analysis Start Failed]. *)
Theorem startAnalysis_failure
    (rd : RequestData) (reply : AnalyzeReply) (statusReply : StatusReply) (s : Session) :
  (forall j, reply <> AnalyzeOk j) ->
  let s' := startAnalysis rd reply statusReply s in
  analysisForm (app (page s')) = true
  /\ progressSection (app (page s')) = false
  /\ errorSection (app (page s')) = true
  /\ submitBtn (app (page s')) = false
  /\ (exists m, errorText (app (page s')) = lit "Failed to start analysis: " ++ m)
  /\ pollInterval (page s') = None
  /\ scriptRequests (page s') = scriptRequests (page s)
  /\ debugPosts (page s')
     = debugPosts (page s)
       ++ [("APP", "INPUT: Start Analysis"); ("APP", "OUTPUT: API Request")]
       ++ match reply with
          | AnalyzeNotOk _ =>
              [("APP", "INPUT: API Response Status"); ("ERROR", "API Request Failed")]
          | AnalyzeUnreadable _ => [("APP", "INPUT: API Response Status")]
          | _ => []
          end
       ++ [("ERROR", "Analysis Start Failed")]
  /\ currentJobId (page s') = currentJobId (page s)
  /\ (forall id cl, stepClasses (app (page s')) !! id = Some cl ->
        "step" ∈ cl -> ("active" ∉ cl) /\ ("completed" ∉ cl)).
Proof.
  intros Hfail. unfold scriptRequests, debugPosts.
  assert (Hsteps : forall st id cl,
            stepClasses (app (onApp (with_submitBtn true) (resetProgress st))) !! id = Some cl ->
            "step" ∈ cl -> ("active" ∉ cl) /\ ("completed" ∉ cl)).
  { intros st id cl. apply resetProgress_steps. }
  assert (Hlogs : forall st, logs (resetProgress st) = logs st).
  { intros st. apply resetProgress_frame. }
  destruct reply as [m|c|m|j]; [| | | exfalso; exact (Hfail j eq_refl)];
    unfold startAnalysis; cbn [onPage page form posted];
    match goal with |- context [startAnalysis_catch ?m ?x] =>
      destruct (startAnalysis_catch_state m x)
        as (Hf & Hp & He & Ht & Hb & Hi & Ho & Hl & Hj & Hc)
    end;
    rewrite Hf, Hp, He, Ht, Hb, Hi, Ho, Hl, Hj, Hc;
    cbn [debugLog with_logs logs onApp with_app]; rewrite Hlogs;
    cbn [debugLog with_logs logs onApp with_app];
    (split_and!; try reflexivity;
     [eexists; reflexivity | now rewrite <- !app_assoc | intros id0 cl0; apply Hsteps]).
Qed.

Lemma startAnalysis_failure_witness :
  let rd := {| r_email := lit "ann@example.com"; r_searchMethod := lit "demo";
               r_url := lit "demo"; r_customPrompt := None |} in
  let reply := AnalyzeNotOk (lit "502") in
  let s := markedSession "ann@example.com" in
  let s' := startAnalysis rd reply (StatusRejected []) s in
  analysisForm (app (page s')) = true
  /\ progressSection (app (page s')) = false
  /\ errorSection (app (page s')) = true
  /\ submitBtn (app (page s')) = false
  /\ (exists m, errorText (app (page s')) = lit "Failed to start analysis: " ++ m)
  /\ pollInterval (page s') = None
  /\ scriptRequests (page s') = scriptRequests (page s)
  /\ debugPosts (page s')
     = debugPosts (page s)
       ++ [("APP", "INPUT: Start Analysis"); ("APP", "OUTPUT: API Request")]
       ++ match reply with
          | AnalyzeNotOk _ =>
              [("APP", "INPUT: API Response Status"); ("ERROR", "API Request Failed")]
          | AnalyzeUnreadable _ => [("APP", "INPUT: API Response Status")]
          | _ => []
          end
       ++ [("ERROR", "Analysis Start Failed")]
  /\ currentJobId (page s') = currentJobId (page s)
  /\ (forall id cl, stepClasses (app (page s')) !! id = Some cl ->
        "step" ∈ cl -> ("active" ∉ cl) /\ ("completed" ∉ cl)).
Proof.
  intros rd reply s.
  apply (startAnalysis_failure rd reply (StatusRejected []) s).
  intros j. discriminate.
Defined.

(** On the page of [markedSession] the first step is marked before the
    call and carries the class [step] alone after it. *)
Example startAnalysis_failure_unmarks :
  let rd := {| r_email := lit "ann@example.com"; r_searchMethod := lit "demo";
               r_url := lit "demo"; r_customPrompt := None |} in
  let s := markedSession "ann@example.com" in
  let s' := startAnalysis rd (AnalyzeNotOk (lit "502")) (StatusRejected []) s in
  (elements <$> stepClasses (app (page s)) !! "step-init",
   elements <$> stepClasses (app (page s')) !! "step-init")
  = (Some ["step"; "completed"], Some ["step"]).
Proof. vm_compute. reflexivity. Qed.

(** X24. When the answer to the analysis request carries no job id, the
    status check that follows stops the timer and the scripts make no
    request besides the analysis request: the page is left on the progress
    section at zero with the submit button disabled, and no error is shown.
    The debug logger posts the six entries of the call, the last of them
    [No Job ID]. *)
Theorem startAnalysis_without_job_id
    (rd : RequestData) (j : option (list N)) (statusReply : StatusReply) (s : Session) :
  truthyId j = false ->
  let s' := startAnalysis rd (AnalyzeOk j) statusReply s in
  pollInterval (page s') = None
  /\ scriptRequests (page s') = scriptRequests (page s)
  /\ debugPosts (page s')
     = debugPosts (page s)
       ++ [("APP", "INPUT: Start Analysis"); ("APP", "OUTPUT: API Request");
           ("APP", "INPUT: API Response Status"); ("APP", "INPUT: API Response Data");
           ("APP", "OUTPUT: Starting Polling"); ("ERROR", "No Job ID")]
  /\ progressSection (app (page s')) = true
  /\ progressFill (app (page s')) = 0
  /\ analysisForm (app (page s')) = false
  /\ errorSection (app (page s')) = false
  /\ submitBtn (app (page s')) = true.
Proof.
  intros Hj. unfold scriptRequests, debugPosts, startAnalysis, startPolling, checkJobStatus.
  cbn [onPage page form posted].
  match goal with |- context [if negb (truthyId ?x) then _ else _] =>
    replace (truthyId x) with false by (symmetry; exact Hj) end.
  cbn [negb]. rewrite stopPolling_stops, stopPolling_logs.
  repeat match goal with |- context [stopPolling ?x] =>
    let Ha := fresh "Ha" in let Ho := fresh "Ho" in
    destruct (stopPolling_frame x) as (_ & Ha & Ho); rewrite ?Ha, ?Ho; clear Ha Ho end.
  unfold resetProgress. cbn. rewrite <- !app_assoc. auto 10.
Qed.

Lemma startAnalysis_without_job_id_witness :
  let rd := {| r_email := lit "ann@example.com"; r_searchMethod := lit "demo";
               r_url := lit "demo"; r_customPrompt := None |} in
  let s := demoSession "ann@example.com" in
  let s' := startAnalysis rd (AnalyzeOk (Some [])) (StatusRejected []) s in
  pollInterval (page s') = None
  /\ scriptRequests (page s') = scriptRequests (page s)
  /\ debugPosts (page s')
     = debugPosts (page s)
       ++ [("APP", "INPUT: Start Analysis"); ("APP", "OUTPUT: API Request");
           ("APP", "INPUT: API Response Status"); ("APP", "INPUT: API Response Data");
           ("APP", "OUTPUT: Starting Polling"); ("ERROR", "No Job ID")]
  /\ progressSection (app (page s')) = true
  /\ progressFill (app (page s')) = 0
  /\ analysisForm (app (page s')) = false
  /\ errorSection (app (page s')) = false
  /\ submitBtn (app (page s')) = true.
Proof.
  intros rd s.
  apply (startAnalysis_without_job_id rd (Some []) (StatusRejected []) s). reflexivity.
Defined.

(** X25. When the analysis request is answered with a job id, the page
    keeps that id, sets a fresh timer and asks for the status once at
    once; the timer stays set exactly when the status that comes back is
    neither completed nor failed. *)
Theorem startAnalysis_starts_polling
    (rd : RequestData) (j : option (list N)) (d : StatusData) (s : Session) :
  truthyId j = true -> stepsPresent (page s) ->
  let s' := startAnalysis rd (AnalyzeOk j) (StatusOk d) s in
  currentJobId (page s') = j
  /\ statusRequests (page s') = S (statusRequests (page s))
  /\ pollInterval (page s')
     = (if terminal d then None else Some (nextTimer (page s)))
  /\ stepsPresent (page s').
Proof.
  intros Hj Hpres. unfold startAnalysis, startPolling. cbn [onPage page form posted].
  match goal with |- context [checkJobStatus (StatusOk d) ?x] =>
    assert (Hid : truthyId (currentJobId x) = true) by exact Hj;
    assert (Hp : stepsPresent x) by (apply resetProgress_present in Hpres; exact Hpres);
    destruct (checkJobStatus_answer d x Hid Hp) as (Hc & Hs & Hr & Hi)
  end.
  rewrite Hc, Hr, Hi. repeat split; auto.
Qed.

Lemma startAnalysis_starts_polling_witness :
  let rd := {| r_email := lit "ann@example.com"; r_searchMethod := lit "demo";
               r_url := lit "demo"; r_customPrompt := None |} in
  let d := {| status := lit "running"; progress := 15; message := None |} in
  let s := demoSession "ann@example.com" in
  let s' := startAnalysis rd (AnalyzeOk (Some (lit "job-1"))) (StatusOk d) s in
  currentJobId (page s') = Some (lit "job-1")
  /\ statusRequests (page s') = S (statusRequests (page s))
  /\ pollInterval (page s')
     = (if terminal d then None else Some (nextTimer (page s)))
  /\ stepsPresent (page s').
Proof.
  intros rd d s.
  apply (startAnalysis_starts_polling rd (Some (lit "job-1")) d s).
  - reflexivity.
  - exact shippedPage_stepsPresent.
Defined.

End FormFacts.
